(** * stride-core: scoring, trend and planning logic

    A shallow embedding of the scoring module (calculateTaskScore,
    calculateEfficiency, calculateDailyScore, calculateTrend, getTrendLabel)
    and of the planning module (assignToDay, unassignTask, calculatePriority).

    Conventions of the embedding:
    - integer-valued task fields (progress, minutes, counters) are [Z];
    - a JavaScript [number] that may be fractional is an exact rational [Q],
      compared with [==]; every division of the modelled code is guarded by
      the code itself against a zero divisor. The binary64 arithmetic of the
      runtime is modelled for [calculateTaskScore] alone (module [Binary64]),
      where it is shown to give the same total points;
    - [Math.round] is round-half-up to an integer, [Math.ceil] the ceiling;
    - a nullable column is an [option]; JavaScript truthiness of a nullable
      number is "present and non-zero";
    - the [tasks] table is a finite map from the task id to its row. *)

From Stdlib Require Import ZArith QArith Qround Lia Lqa String List DecimalString.
From Stdlib Require Import PrimFloat FloatOps SpecFloat Uint63.
From Stdlib Require Import Ascii Sorted.
From stdpp Require Import gmap strings.

Local Open Scope Z_scope.

(** ** Data model *)

Inductive Difficulty := TRIVIAL | EASY | MEDIUM | HARD | EXTREME.

(** The instant denoted by a JavaScript [Date]: milliseconds since the epoch,
    or an invalid date, whose [getTime()] is NaN. *)
Inductive JSDate :=
  | Instant (ms : Z)
  | InvalidDate.

(** Modelled from the spec: the [Task] row type is declared in the external
    package [@stridetime/db]; the fields below are the ones read or written by
    the scoring and planning code, with the types of the spec's data model.
    A stored timestamp is represented by the [Date] that [new Date(...)] builds
    from it. *)
Record Task := mkTask {
  difficulty : Difficulty;
  progress : Z;
  status : string;
  estimated_minutes : option Z;
  actual_minutes : Z;
  max_minutes : option Z;
  due_date : option JSDate;
  planned_for_date : option string;
  updated_at : option JSDate
}.

Record ScoringContext := mkScoringContext {
  taskTypesWorkedToday : Z
}.

Record TaskScore := mkTaskScore {
  basePoints : Q;
  efficiencyBonus : Q;
  focusBonus : Q;
  totalPoints : Z
}.

(** ** JavaScript primitives used by the code *)

Module JS.

(** Truthiness of a nullable number: [null], [undefined] and [0] are falsy. *)
Definition truthy (x : option Z) : bool :=
  match x with
  | Some v => negb (v =? 0)
  | None => false
  end.

(** [a < b] where [b] is known to be a number. *)
Definition ltb_opt (a : Z) (b : option Z) : bool :=
  match b with
  | Some v => a <? v
  | None => false
  end.

(** [Math.round]: nearest integer, a tie going towards plus infinity. *)
Definition round (x : Q) : Z := Qfloor (x + (1 # 2))%Q.

(** [Math.ceil]. *)
Definition ceil (x : Q) : Z := Qceiling x.

(** [Date.prototype.getTime]; [None] stands for NaN. *)
Definition getTime (d : JSDate) : option Z :=
  match d with
  | Instant ms => Some ms
  | InvalidDate => None
  end.

(** Template-literal rendering of an integer-valued number (decimal digits,
    as the runtime prints integers below 1e21 in magnitude). *)
Definition toString (n : Z) : string := NilZero.string_of_int (Z.to_int n).

End JS.

(** ** scoring *)

Definition DIFFICULTY_MULTIPLIERS (d : Difficulty) : Z :=
  match d with
  | TRIVIAL => 1
  | EASY => 2
  | MEDIUM => 3
  | HARD => 5
  | EXTREME => 8
  end.

Module Scoring.

Local Open Scope Q_scope.

Definition calculateTaskScore (task : Task) (context : ScoringContext) : TaskScore :=
  let basePoints :=
    inject_Z (DIFFICULTY_MULTIPLIERS (difficulty task)) * (inject_Z (progress task) / 100) in
  let efficiencyBonus :=
    if (progress task =? 100)%Z
       && JS.truthy (estimated_minutes task)
       && JS.ltb_opt (actual_minutes task) (estimated_minutes task)
    then basePoints * 0.2
    else 0 in
  let focusBonus :=
    if (taskTypesWorkedToday context >=? 3)%Z then basePoints * 0.1 else 0 in
  let totalPoints := JS.round (basePoints + efficiencyBonus + focusBonus) in
  {| basePoints := inject_Z (JS.round (basePoints * 10)) / 10;
     efficiencyBonus := inject_Z (JS.round (efficiencyBonus * 10)) / 10;
     focusBonus := inject_Z (JS.round (focusBonus * 10)) / 10;
     totalPoints := totalPoints |}.

(** Names for the locals of [calculateTaskScore], to state properties of the
    values before display rounding. *)

Definition rawBasePoints (task : Task) : Q :=
  inject_Z (DIFFICULTY_MULTIPLIERS (difficulty task)) * (inject_Z (progress task) / 100).

Definition underEstimate (task : Task) : bool :=
  (progress task =? 100)%Z
  && JS.truthy (estimated_minutes task)
  && JS.ltb_opt (actual_minutes task) (estimated_minutes task).

Definition rawEfficiencyBonus (task : Task) : Q :=
  if underEstimate task then rawBasePoints task * 0.2 else 0.

Definition rawFocusBonus (task : Task) (context : ScoringContext) : Q :=
  if (taskTypesWorkedToday context >=? 3)%Z then rawBasePoints task * 0.1 else 0.

Definition calculateEfficiency (task : Task) : Q :=
  if negb (JS.truthy (estimated_minutes task)) || (actual_minutes task =? 0)%Z
  then 1
  else
    match estimated_minutes task with
    | Some estimated => inject_Z estimated / inject_Z (actual_minutes task)
    | None => 1
    end.

Definition getEfficiencyLabel (efficiency : Q) : string :=
  if Qle_bool 1.5 efficiency then "Exceptional"
  else if Qle_bool 1.2 efficiency then "Excellent"
  else if Qle_bool 1 efficiency then "Good"
  else if Qle_bool 0.8 efficiency then "Fair"
  else "Needs Improvement".

Definition calculateDailyScore (completedTasks : list Task) (context : ScoringContext) : Z :=
  fold_left
    (fun total task =>
       let score := calculateTaskScore task context in
       (total + totalPoints score)%Z)
    completedTasks 0%Z.

Definition calculateTrend (todayScore averageScore : Q) : Q :=
  if Qeq_bool averageScore 0 then 1 else todayScore / averageScore.

Definition getTrendLabel (trend : Q) : string :=
  let percentage := JS.round ((trend - 1) * 100) in
  if (percentage >? 20)%Z then
    JS.toString percentage ++ "% above your average—great focus today!"
  else if (percentage >? 0)%Z then
    JS.toString percentage ++ "% above your average"
  else if (percentage =? 0)%Z then
    "Right on your average"
  else if (percentage >? -20)%Z then
    JS.toString (Z.abs percentage) ++ "% below your average"
  else
    JS.toString (Z.abs percentage) ++ "% below your average—take it easy".

End Scoring.

(** ** planning *)

Module Planning.

(** [1000 * 60 * 60 * 24], the milliseconds of a day. *)
Definition MS_PER_DAY : Z := 1000 * 60 * 60 * 24.

(** [Math.ceil((a.getTime() - b.getTime()) / (1000 * 60 * 60 * 24))];
    [None] is NaN, the result when either date is invalid. *)
Definition daysBetween (a b : JSDate) : option Z :=
  match JS.getTime a, JS.getTime b with
  | Some x, Some y => Some (JS.ceil (inject_Z (x - y) / inject_Z MS_PER_DAY))
  | _, _ => None
  end.

(** The four blocks add to [score] in turn. A comparison with NaN is false,
    so a block whose day count is NaN leaves [score] as it is. *)
Definition calculatePriority (task : Task) (today : JSDate) : Z :=
  let score := 0 in
  let score :=
    match due_date task with
    | Some dueDate =>
        match daysBetween dueDate today with
        | Some daysUntilDue =>
            if daysUntilDue <=? 0 then score + 40
            else if daysUntilDue =? 1 then score + 35
            else if daysUntilDue <=? 7 then score + 25
            else if daysUntilDue <=? 30 then score + 10
            else score
        | None => score
        end
    | None => score
    end in
  let score :=
    if progress task >=? 80 then score + 30
    else if progress task >=? 50 then score + 15
    else score in
  let score :=
    match max_minutes task with
    | Some max_minutes =>
        if negb (max_minutes =? 0) && negb (actual_minutes task =? 0) then
          let timeRemaining := max_minutes - actual_minutes task in
          let percentRemaining := (inject_Z timeRemaining / inject_Z max_minutes)%Q in
          if Qle_bool percentRemaining 0.2 then score + 20
          else if Qle_bool percentRemaining 0.5 then score + 10
          else score
        else score
    | None => score
    end in
  let score :=
    match updated_at task with
    | Some lastUpdated =>
        match daysBetween today lastUpdated with
        | Some daysSinceUpdate =>
            if daysSinceUpdate >=? 7 then score + 10
            else if daysSinceUpdate >=? 3 then score + 5
            else score
        | None => score
        end
    | None => score
    end in
  score.

(** The contribution of each block, taken alone. *)

Definition dueDateUrgency (task : Task) (today : JSDate) : Z :=
  match due_date task with
  | Some dueDate =>
      match daysBetween dueDate today with
      | Some daysUntilDue =>
          if daysUntilDue <=? 0 then 40
          else if daysUntilDue =? 1 then 35
          else if daysUntilDue <=? 7 then 25
          else if daysUntilDue <=? 30 then 10
          else 0
      | None => 0
      end
  | None => 0
  end.

Definition nearCompletion (task : Task) : Z :=
  if progress task >=? 80 then 30
  else if progress task >=? 50 then 15
  else 0.

(** The block is entered when [max_minutes] and [actual_minutes] are both
    truthy. *)
Definition timeConstraint (task : Task) : Z :=
  match max_minutes task with
  | Some max_minutes =>
      if negb (max_minutes =? 0) && negb (actual_minutes task =? 0) then
        let timeRemaining := max_minutes - actual_minutes task in
        let percentRemaining := (inject_Z timeRemaining / inject_Z max_minutes)%Q in
        if Qle_bool percentRemaining 0.2 then 20
        else if Qle_bool percentRemaining 0.5 then 10
        else 0
      else 0
  | None => 0
  end.

Definition neglect (task : Task) (today : JSDate) : Z :=
  match updated_at task with
  | Some lastUpdated =>
      match daysBetween today lastUpdated with
      | Some daysSinceUpdate =>
          if daysSinceUpdate >=? 7 then 10
          else if daysSinceUpdate >=? 3 then 5
          else 0
      | None => 0
      end
  | None => 0
  end.

(** *** Day assignment over the [tasks] table *)

(** The [SET] clause of [assignToDay]'s [UPDATE]. *)
Definition assignRow (date : string) (now : Z) (row : Task) : Task :=
  {| difficulty := difficulty row;
     progress := progress row;
     status := if String.eqb (status row) "BACKLOG" then "PLANNED" else status row;
     estimated_minutes := estimated_minutes row;
     actual_minutes := actual_minutes row;
     max_minutes := max_minutes row;
     due_date := due_date row;
     planned_for_date := Some date;
     updated_at := Some (Instant now) |}.

(** The [SET] clause of [unassignTask]'s [UPDATE]. *)
Definition unassignRow (now : Z) (row : Task) : Task :=
  {| difficulty := difficulty row;
     progress := progress row;
     status := if String.eqb (status row) "PLANNED" then "BACKLOG" else status row;
     estimated_minutes := estimated_minutes row;
     actual_minutes := actual_minutes row;
     max_minutes := max_minutes row;
     due_date := due_date row;
     planned_for_date := None;
     updated_at := Some (Instant now) |}.

(** [assignToDay]: [now] is the clock reading of [new Date()]; the result is
    the table after the [UPDATE ... WHERE id = ?] and the row the final
    [SELECT] returns ([None] when no row has that id). *)
Definition assignToDay (db : gmap string Task) (now : Z) (taskId date : string)
  : gmap string Task * option Task :=
  let db := alter (assignRow date now) taskId db in
  (db, db !! taskId).

Definition unassignTask (db : gmap string Task) (now : Z) (taskId : string)
  : gmap string Task * option Task :=
  let db := alter (unassignRow now) taskId db in
  (db, db !! taskId).

Definition rescheduleTask (db : gmap string Task) (now : Z) (taskId newDate : string)
  : gmap string Task * option Task :=
  assignToDay db now taskId newDate.

End Planning.

(** ** calculateTaskScore on binary64 numbers

    The same function evaluated on the runtime's binary64 numbers, to check
    the exact-rational reading above against the arithmetic that the
    JavaScript engine performs. *)

Module Binary64.

Local Open Scope float_scope.

(** The binary64 number of an integer below 2^63 in magnitude; exact below
    2^53. *)
Definition ofZ (z : Z) : float :=
  if (z <? 0)%Z then - of_uint63 (Uint63.of_Z (- z)) else of_uint63 (Uint63.of_Z z).

(** The integer a binary64 number denotes, if it denotes one. *)
Definition toZ (x : float) : option Z :=
  match Prim2SF x with
  | S754_zero _ => Some 0%Z
  | S754_finite s m e =>
      let n := if s then Z.neg m else Z.pos m in
      if (0 <=? e)%Z then Some (n * 2 ^ e)%Z
      else if (n mod 2 ^ (- e) =? 0)%Z then Some (n / 2 ^ (- e))%Z
      else None
  | _ => None
  end.

(** [Math.round] on binary64: NaN, the infinities, the zeros and the numbers
    without a fractional part are returned as they are; [n * 2^e] with
    [e < 0] goes to [floor (n * 2^e + 1/2)], computed on integers, with the
    sign of the argument when that is zero. *)
Definition round (x : float) : float :=
  match Prim2SF x with
  | S754_finite s m e =>
      if (0 <=? e)%Z then x
      else
        let n := if s then Z.neg m else Z.pos m in
        let r := Z.shiftr (2 * n + 2 ^ (- e)) (1 - e) in
        if ((r =? 0)%Z && s)%bool then -0 else ofZ r
  | _ => x
  end.

(** The literals [0.2] and [0.1] of the source, as the binary64 numbers
    nearest to them. *)
Definition fifth : float := 0x1.999999999999ap-3.
Definition tenth : float := 0x1.999999999999ap-4.

Record TaskScore64 := mkTaskScore64 {
  basePoints64 : float;
  efficiencyBonus64 : float;
  focusBonus64 : float;
  totalPoints64 : float
}.

Definition calculateTaskScore (task : Task) (context : ScoringContext) : TaskScore64 :=
  let basePoints :=
    ofZ (DIFFICULTY_MULTIPLIERS (difficulty task)) * (ofZ (progress task) / 100) in
  let efficiencyBonus :=
    if (progress task =? 100)%Z
       && JS.truthy (estimated_minutes task)
       && JS.ltb_opt (actual_minutes task) (estimated_minutes task)
    then basePoints * fifth
    else 0 in
  let focusBonus :=
    if (taskTypesWorkedToday context >=? 3)%Z then basePoints * tenth else 0 in
  let totalPoints := round (basePoints + efficiencyBonus + focusBonus) in
  {| basePoints64 := round (basePoints * 10) / 10;
     efficiencyBonus64 := round (efficiencyBonus * 10) / 10;
     focusBonus64 := round (focusBonus * 10) / 10;
     totalPoints64 := totalPoints |}.

(** Does [x] denote the integer [z]? *)
Definition denotes (x : float) (z : Z) : bool :=
  match toZ x with
  | Some v => (v =? z)%Z
  | None => false
  end.

End Binary64.

(** ** The spec's reading of the efficiency rating *)

Module Spec.

(** "returns 1.0 if estimatedMinutes is absent/null OR actualMinutes == 0;
    otherwise estimatedMinutes / actualMinutes". *)
Definition efficiency (task : Task) : Q :=
  match estimated_minutes task with
  | None => 1
  | Some estimated =>
      if actual_minutes task =? 0 then 1
      else inject_Z estimated / inject_Z (actual_minutes task)
  end.

End Spec.

(** ** Sample inputs *)

Module Samples.

(** A bare task: only the fields that scoring reads are given. *)
Definition scored (d : Difficulty) (p : Z) (estimated : option Z) (actual : Z) : Task :=
  mkTask d p "PLANNED" estimated actual None None None None.

(** A trivial task one tenth done. *)
Definition trivialTenth : Task := scored TRIVIAL 10 None 0.

(** A hard task finished in 45 of 60 estimated minutes. *)
Definition hardUnderEstimate : Task := scored HARD 100 (Some 60) 45.

(** A task estimated at zero minutes on which five minutes were spent. *)
Definition zeroEstimate : Task := scored EASY 100 (Some 0) 5.

Definition noFocus : ScoringContext := {| taskTypesWorkedToday := 0 |}.
Definition focused : ScoringContext := {| taskTypesWorkedToday := 3 |}.

End Samples.

(** The points one task adds to the day: the summand of [calculateDailyScore]. *)
Definition taskPoints (context : ScoringContext) (task : Task) : Z :=
  totalPoints (Scoring.calculateTaskScore task context).

(** [task] with [actual_minutes] replaced, every other field kept. *)
Definition withActualMinutes (actual : Z) (task : Task) : Task :=
  {| difficulty := difficulty task;
     progress := progress task;
     status := status task;
     estimated_minutes := estimated_minutes task;
     actual_minutes := actual;
     max_minutes := max_minutes task;
     due_date := due_date task;
     planned_for_date := planned_for_date task;
     updated_at := updated_at task |}.

(** ** permissions *)

Module Permissions.

(** A role, with the columns that [getUserRole] reads from the [roles]
    table: flags are booleans, a limit is a number or [null] (unlimited). *)
Record Role := mkRole {
  id : string;
  name : string;
  display_name : string;
  description : option string;
  cloud_sync : bool;
  mobile_app : bool;
  team_workspaces : bool;
  export_reports : bool;
  api_access : bool;
  sso : bool;
  audit_logs : bool;
  custom_integrations : bool;
  priority_support : bool;
  max_workspaces : option Z;
  max_projects : option Z;
  max_team_members : option Z;
  max_api_calls_per_day : option Z;
  max_storage_mb : option Z;
  is_active : bool;
  is_legacy : bool;
  created_at : string;
  updated_at : string
}.

(** The values a field of a role or subscription can hold. *)
Inductive JSValue :=
  | VBoolean (b : bool)
  | VNumber (n : Z)
  | VNull
  | VString (s : string).

(** The subscription columns that the permission functions read.
    [is_grandfathered] is kept as stored: a boolean or the number 0 or 1. *)
Record UserSubscription := mkUserSubscription {
  sub_status : string;
  price_cents : Z;
  billing_period : string;
  is_grandfathered : JSValue;
  grandfathered_reason : option string
}.

(** [keyof Role]. *)
Inductive RoleKey :=
  | K_id | K_name | K_display_name | K_description
  | K_cloud_sync | K_mobile_app | K_team_workspaces | K_export_reports
  | K_api_access | K_sso | K_audit_logs | K_custom_integrations
  | K_priority_support
  | K_max_workspaces | K_max_projects | K_max_team_members
  | K_max_api_calls_per_day | K_max_storage_mb
  | K_is_active | K_is_legacy | K_created_at | K_updated_at.

Definition ofLimit (limit : option Z) : JSValue :=
  match limit with
  | Some n => VNumber n
  | None => VNull
  end.

Definition ofNullable (s : option string) : JSValue :=
  match s with
  | Some v => VString v
  | None => VNull
  end.

(** [role[feature]]. *)
Definition field (role : Role) (feature : RoleKey) : JSValue :=
  match feature with
  | K_id => VString (id role)
  | K_name => VString (name role)
  | K_display_name => VString (display_name role)
  | K_description => ofNullable (description role)
  | K_cloud_sync => VBoolean (cloud_sync role)
  | K_mobile_app => VBoolean (mobile_app role)
  | K_team_workspaces => VBoolean (team_workspaces role)
  | K_export_reports => VBoolean (export_reports role)
  | K_api_access => VBoolean (api_access role)
  | K_sso => VBoolean (sso role)
  | K_audit_logs => VBoolean (audit_logs role)
  | K_custom_integrations => VBoolean (custom_integrations role)
  | K_priority_support => VBoolean (priority_support role)
  | K_max_workspaces => ofLimit (max_workspaces role)
  | K_max_projects => ofLimit (max_projects role)
  | K_max_team_members => ofLimit (max_team_members role)
  | K_max_api_calls_per_day => ofLimit (max_api_calls_per_day role)
  | K_max_storage_mb => ofLimit (max_storage_mb role)
  | K_is_active => VBoolean (is_active role)
  | K_is_legacy => VBoolean (is_legacy role)
  | K_created_at => VString (created_at role)
  | K_updated_at => VString (updated_at role)
  end.

Definition hasFeature (role : Role) (feature : RoleKey) : bool :=
  let value := field role feature in
  match value with
  | VBoolean b => b
  | VNumber n => if (n =? 0) || (n =? 1) then n =? 1 else false
  | _ => false
  end.

(** The [limitField] argument of the quota functions. *)
Inductive LimitField := L_max_workspaces | L_max_projects | L_max_team_members.

(** [role[limitField]]. *)
Definition limitOf (role : Role) (limitField : LimitField) : option Z :=
  match limitField with
  | L_max_workspaces => max_workspaces role
  | L_max_projects => max_projects role
  | L_max_team_members => max_team_members role
  end.

Definition canCreateResource (role : Role) (limitField : LimitField) (currentCount : Z)
  : bool :=
  match limitOf role limitField with
  | None => true
  | Some limit => currentCount <? limit
  end.

(** [number | 'unlimited']. *)
Inductive Quota :=
  | Unlimited
  | Remaining (n : Z).

Definition getRemainingQuota (role : Role) (limitField : LimitField) (currentCount : Z)
  : Quota :=
  match limitOf role limitField with
  | None => Unlimited
  | Some limit => Remaining (Z.max 0 (limit - currentCount))
  end.

Definition isSubscriptionActive (subscription : UserSubscription) : bool :=
  String.eqb (sub_status subscription) "active"
  || String.eqb (sub_status subscription) "trialing".

Definition isGrandfathered (subscription : UserSubscription) : bool :=
  match is_grandfathered subscription with
  | VBoolean true => true
  | VNumber 1 => true
  | _ => false
  end.

Definition getEffectiveMonthlyPrice (subscription : UserSubscription) : Z :=
  if String.eqb (billing_period subscription) "yearly" then
    JS.round (inject_Z (price_cents subscription) / 12)
  else if String.eqb (billing_period subscription) "lifetime" then 0
  else price_cents subscription.

Definition shouldShowGrandfatheredBadge (role : Role) (subscription : UserSubscription)
  : bool :=
  if isGrandfathered subscription then true
  else if is_legacy role then true
  else if String.eqb (billing_period subscription) "lifetime" then true
  else false.

Definition getGrandfatheredText (subscription : UserSubscription) : string :=
  if String.eqb (billing_period subscription) "lifetime" then "Lifetime Access"
  else
    match grandfathered_reason subscription with
    | Some reason =>
        if String.eqb reason "founder" then "Founder Plan"
        else if String.eqb reason "early_adopter" then "Early Adopter Pricing"
        else "Legacy Plan"
    | None => "Legacy Plan"
    end.

(** [s.split('_')[0]]: the part of [s] before its first underscore, all of
    [s] when it has none. *)
Fixpoint beforeUnderscore (s : string) : string :=
  match s with
  | EmptyString => EmptyString
  | String c rest =>
      if Ascii.eqb c "_"%char then EmptyString else String c (beforeUnderscore rest)
  end.

(** [Array.prototype.indexOf] on an array of strings, counting from
    [start]: the first position holding [x], or -1. *)
Fixpoint indexFrom (start : Z) (xs : list string) (x : string) : Z :=
  match xs with
  | [] => -1
  | y :: rest => if String.eqb y x then start else indexFrom (start + 1) rest x
  end.

Definition indexOf (xs : list string) (x : string) : Z := indexFrom 0 xs x.

Definition tierOrder : list string := ["FREE"; "PRO"; "TEAM"; "ENTERPRISE"]%string.

Definition canUpgradeTo (currentRole targetRole : Role) : bool :=
  if String.eqb (id currentRole) (id targetRole) then false
  else if negb (is_active targetRole) then false
  else if is_legacy targetRole then false
  else
    let currentIndex := indexOf tierOrder (beforeUnderscore (name currentRole)) in
    let targetIndex := indexOf tierOrder (beforeUnderscore (name targetRole)) in
    targetIndex >? currentIndex.

Definition canDowngradeTo (currentRole targetRole : Role) : bool :=
  if String.eqb (id currentRole) (id targetRole) then false
  else if negb (is_active targetRole) then false
  else
    let currentIndex := indexOf tierOrder (beforeUnderscore (name currentRole)) in
    let targetIndex := indexOf tierOrder (beforeUnderscore (name targetRole)) in
    targetIndex <? currentIndex.

End Permissions.

(** ** tasks: creation, update and progress roll-up

    A JavaScript string whose length or surrounding white space matters
    (a title, a description) is the list of its UTF-16 code units. *)

Module Store.

(** What a call can throw. *)
Inductive Exception :=
  | TaskValidationError (field message : string)
  | Error (message : string)
  | RangeError
  | TypeError.

(** The result of a call that may throw. *)
Inductive Outcome (A : Type) :=
  | Returned (a : A)
  | Thrown (e : Exception).

Arguments Returned {A} a.
Arguments Thrown {A} e.

Definition bind {A B : Type} (x : Outcome A) (k : A -> Outcome B) : Outcome B :=
  match x with
  | Returned a => k a
  | Thrown e => Thrown e
  end.

Notation "'do' x <- a ; k" := (bind a (fun x => k))
  (at level 10, x name, a at level 100, k at level 200, only parsing).

(** White space and line terminators, the code units that
    [String.prototype.trim] strips. *)
Definition isWhiteSpace (c : N) : bool :=
  ((9 <=? c) && (c <=? 13)
   || (c =? 32) || (c =? 160) || (c =? 5760)
   || (8192 <=? c) && (c <=? 8202)
   || (c =? 8232) || (c =? 8233) || (c =? 8239) || (c =? 8287)
   || (c =? 12288) || (c =? 65279))%N.

Fixpoint trimStart (s : list N) : list N :=
  match s with
  | [] => []
  | c :: rest => if isWhiteSpace c then trimStart rest else s
  end.

Definition trimEnd (s : list N) : list N := rev (trimStart (rev s)).

(** [String.prototype.trim]. *)
Definition trim (s : list N) : list N := trimEnd (trimStart s).

(** [s.length]. *)
Definition jsLength (s : list N) : Z := Z.of_nat (length s).

(** [s.split('T')[0]]: the part of [s] before its first [T]. *)
Fixpoint beforeT (s : string) : string :=
  match s with
  | EmptyString => EmptyString
  | String c rest => if Ascii.eqb c "T"%char then EmptyString else String c (beforeT rest)
  end.

(** A row of the [tasks] table: the columns that scoring and planning
    read, kept as a [Task], and the other columns that the task functions
    read or write. [created_at] is the instant of its time stamp. *)
Record TaskRow := mkTaskRow {
  user_id : string;
  project_id : string;
  parent_task_id : option string;
  title : list N;
  description : option (list N);
  task_type_id : option string;
  completed_at : option JSDate;
  deleted : bool;
  created_at : Z;
  columns : Task
}.

(** [row] with its scoring and planning columns changed by [f]. *)
Definition onColumns (f : Task -> Task) (row : TaskRow) : TaskRow :=
  {| user_id := user_id row;
     project_id := project_id row;
     parent_task_id := parent_task_id row;
     title := title row;
     description := description row;
     task_type_id := task_type_id row;
     completed_at := completed_at row;
     deleted := deleted row;
     created_at := created_at row;
     columns := f (columns row) |}.

Module CreateTaskParams.
Record t := mk {
  title : list N;
  projectId : string;
  difficulty : option Difficulty;
  estimatedMinutes : option Z;
  maxMinutes : option Z;
  dueDate : option JSDate;
  parentTaskId : option string;
  taskTypeId : option string;
  description : option (list N);
  plannedForDate : option JSDate
}.
End CreateTaskParams.

Module UpdateTaskParams.
Record t := mk {
  title : option (list N);
  description : option (list N);
  progress : option Z;
  status : option string;
  estimatedMinutes : option Z;
  maxMinutes : option Z;
  plannedForDate : option (option JSDate);
  dueDate : option (option JSDate);
  taskTypeId : option (option string)
}.

(** [{ progress }]. *)
Definition ofProgress (p : Z) : t :=
  mk None None (Some p) None None None None None None.
End UpdateTaskParams.

(** [new Date()] is read up to twice by [updateTask]: for [completed_at],
    then for [updated_at]. *)
Record Clock := mkClock {
  completedNow : Z;
  updatedNow : Z
}.

(** [validateCreateTask]; [now] is the reading of [new Date()]. A date
    compares through its time value, and a comparison with NaN is false. *)
Definition validateCreateTask (now : Z) (params : CreateTaskParams.t) : Outcome unit :=
  if (jsLength (CreateTaskParams.title params) =? 0)
     || (jsLength (trim (CreateTaskParams.title params)) =? 0)
  then Thrown (TaskValidationError "title" "Task title is required")
  else if jsLength (CreateTaskParams.title params) >? 200
  then Thrown (TaskValidationError "title" "Task title must be under 200 characters")
  else if String.eqb (CreateTaskParams.projectId params) ""
  then Thrown (TaskValidationError "projectId" "Task must belong to a project")
  else if match CreateTaskParams.estimatedMinutes params with
          | Some e => e <? 0
          | None => false
          end
  then Thrown (TaskValidationError "estimatedMinutes" "Estimated time cannot be negative")
  else if match CreateTaskParams.maxMinutes params with
          | Some m => m <? 0
          | None => false
          end
  then Thrown (TaskValidationError "maxMinutes" "Max time cannot be negative")
  else if match CreateTaskParams.estimatedMinutes params,
                  CreateTaskParams.maxMinutes params with
          | Some e, Some m => e >? m
          | _, _ => false
          end
  then Thrown (TaskValidationError "estimatedMinutes"
                 "Estimated time cannot exceed max time")
  else if match CreateTaskParams.dueDate params with
          | Some (Instant due) => due <? now
          | _ => false
          end
  then Thrown (TaskValidationError "dueDate" "Due date cannot be in the past")
  else if match CreateTaskParams.description params with
          | Some d => negb (jsLength d =? 0) && (jsLength d >? 5000)
          | None => false
          end
  then Thrown (TaskValidationError "description"
                 "Description must be under 5000 characters")
  else Returned tt.

(** [validateUpdateTask]. *)
Definition validateUpdateTask (params : UpdateTaskParams.t) : Outcome unit :=
  do _ <- match UpdateTaskParams.title params with
          | Some t =>
              if jsLength (trim t) =? 0
              then Thrown (Error "Task title cannot be empty")
              else if jsLength t >? 200
              then Thrown (Error "Task title must be under 200 characters")
              else Returned tt
          | None => Returned tt
          end;
  do _ <- match UpdateTaskParams.progress params with
          | Some p =>
              if (p <? 0) || (p >? 100)
              then Thrown (Error "Progress must be between 0 and 100")
              else Returned tt
          | None => Returned tt
          end;
  match UpdateTaskParams.description params with
  | Some d =>
      if jsLength d >? 5000
      then Thrown (Error "Description must be under 5000 characters")
      else Returned tt
  | None => Returned tt
  end.

(** One [column = ?] of the [SET] list that [updateTask] builds, with the
    value bound to it. *)
Inductive Assignment :=
  | SetTitle (v : list N)
  | SetDescription (v : option (list N))
  | SetProgress (v : Z)
  | SetStatus (v : string)
  | SetCompletedAt (v : Z)
  | SetEstimatedMinutes (v : Z)
  | SetMaxMinutes (v : Z)
  | SetPlannedForDate (v : option string)
  | SetDueDate (v : option JSDate)
  | SetTaskTypeId (v : option string)
  | SetUpdatedAt (v : Z).

(** The column an assignment writes. *)
Definition columnOf (a : Assignment) : string :=
  match a with
  | SetTitle _ => "title"
  | SetDescription _ => "description"
  | SetProgress _ => "progress"
  | SetStatus _ => "status"
  | SetCompletedAt _ => "completed_at"
  | SetEstimatedMinutes _ => "estimated_minutes"
  | SetMaxMinutes _ => "max_minutes"
  | SetPlannedForDate _ => "planned_for_date"
  | SetDueDate _ => "due_date"
  | SetTaskTypeId _ => "task_type_id"
  | SetUpdatedAt _ => "updated_at"
  end.

Definition setColumns (row : TaskRow) (c : Task) : TaskRow := onColumns (fun _ => c) row.

(** The row after one assignment. *)
Definition assign (row : TaskRow) (a : Assignment) : TaskRow :=
  let c := columns row in
  match a with
  | SetTitle v =>
      mkTaskRow (user_id row) (project_id row) (parent_task_id row) v (description row)
        (task_type_id row) (completed_at row) (deleted row) (created_at row) c
  | SetDescription v =>
      mkTaskRow (user_id row) (project_id row) (parent_task_id row) (title row) v
        (task_type_id row) (completed_at row) (deleted row) (created_at row) c
  | SetTaskTypeId v =>
      mkTaskRow (user_id row) (project_id row) (parent_task_id row) (title row)
        (description row) v (completed_at row) (deleted row) (created_at row) c
  | SetCompletedAt v =>
      mkTaskRow (user_id row) (project_id row) (parent_task_id row) (title row)
        (description row) (task_type_id row) (Some (Instant v)) (deleted row)
        (created_at row) c
  | SetProgress v =>
      setColumns row
        (mkTask (difficulty c) v (status c) (estimated_minutes c) (actual_minutes c)
           (max_minutes c) (due_date c) (planned_for_date c) (updated_at c))
  | SetStatus v =>
      setColumns row
        (mkTask (difficulty c) (progress c) v (estimated_minutes c) (actual_minutes c)
           (max_minutes c) (due_date c) (planned_for_date c) (updated_at c))
  | SetEstimatedMinutes v =>
      setColumns row
        (mkTask (difficulty c) (progress c) (status c) (Some v) (actual_minutes c)
           (max_minutes c) (due_date c) (planned_for_date c) (updated_at c))
  | SetMaxMinutes v =>
      setColumns row
        (mkTask (difficulty c) (progress c) (status c) (estimated_minutes c)
           (actual_minutes c) (Some v) (due_date c) (planned_for_date c) (updated_at c))
  | SetPlannedForDate v =>
      setColumns row
        (mkTask (difficulty c) (progress c) (status c) (estimated_minutes c)
           (actual_minutes c) (max_minutes c) (due_date c) v (updated_at c))
  | SetDueDate v =>
      setColumns row
        (mkTask (difficulty c) (progress c) (status c) (estimated_minutes c)
           (actual_minutes c) (max_minutes c) v (planned_for_date c) (updated_at c))
  | SetUpdatedAt v =>
      setColumns row
        (mkTask (difficulty c) (progress c) (status c) (estimated_minutes c)
           (actual_minutes c) (max_minutes c) (due_date c) (planned_for_date c)
           (Some (Instant v)))
  end.

(** [UPDATE tasks SET ... WHERE id = ?] with the given [SET] list. *)
Definition sqlUpdate (db : gmap string TaskRow) (updates : list Assignment) (taskId : string)
  : gmap string TaskRow :=
  alter (fun row => fold_left assign updates row) taskId db.

(** [a ? a.trim() || null]: the trimmed text, or [null] when that is empty. *)
Definition trimOrNull (s : list N) : option (list N) :=
  if jsLength (trim s) =? 0 then None else Some (trim s).

Section Runtime.

(** [Date.prototype.toISOString] on a valid time value. *)
Variable toISOString : Z -> string.

(** [date.toISOString()], which throws on an invalid date. *)
Definition isoString (date : JSDate) : Outcome string :=
  match date with
  | Instant ms => Returned (toISOString ms)
  | InvalidDate => Thrown RangeError
  end.

(** What the block [if (params.progress !== undefined)] pushes: the
    progress, and the completion when progress is 100 and no status is
    given. *)
Definition progressBlock (clock : Clock) (params : UpdateTaskParams.t) : list Assignment :=
  match UpdateTaskParams.progress params with
  | Some p =>
      SetProgress p
      :: match UpdateTaskParams.status params with
         | None =>
             if p =? 100
             then [SetStatus "COMPLETED"; SetCompletedAt (completedNow clock)]
             else []
         | Some _ => []
         end
  | None => []
  end.

(** What the block [if (params.status !== undefined)] pushes: the status,
    and for "COMPLETED" the completion time and, when no progress is given,
    the progress 100. *)
Definition statusBlock (clock : Clock) (params : UpdateTaskParams.t) : list Assignment :=
  match UpdateTaskParams.status params with
  | Some st =>
      SetStatus st
      :: (if String.eqb st "COMPLETED" then
            SetCompletedAt (completedNow clock)
            :: match UpdateTaskParams.progress params with
               | None => [SetProgress 100]
               | Some _ => []
               end
          else [])
  | None => []
  end.

(** The [SET] list of [updateTask]: what each [if] block of the source
    pushes, in the order of the blocks, and the closing [updated_at]. *)
Definition updateList (clock : Clock) (params : UpdateTaskParams.t)
  : Outcome (list Assignment) :=
  let title :=
    match UpdateTaskParams.title params with
    | Some t => [SetTitle (trim t)]
    | None => []
    end in
  let description :=
    match UpdateTaskParams.description params with
    | Some d => [SetDescription (trimOrNull d)]
    | None => []
    end in
  let progress := progressBlock clock params in
  let status := statusBlock clock params in
  let estimatedMinutes :=
    match UpdateTaskParams.estimatedMinutes params with
    | Some e => [SetEstimatedMinutes e]
    | None => []
    end in
  let maxMinutes :=
    match UpdateTaskParams.maxMinutes params with
    | Some m => [SetMaxMinutes m]
    | None => []
    end in
  do plannedForDate <-
    match UpdateTaskParams.plannedForDate params with
    | Some (Some date) => do iso <- isoString date; Returned [SetPlannedForDate (Some iso)]
    | Some None => Returned [SetPlannedForDate None]
    | None => Returned []
    end;
  do dueDate <-
    match UpdateTaskParams.dueDate params with
    | Some (Some date) => do _ <- isoString date; Returned [SetDueDate (Some date)]
    | Some None => Returned [SetDueDate None]
    | None => Returned []
    end;
  let taskTypeId :=
    match UpdateTaskParams.taskTypeId params with
    | Some ty => [SetTaskTypeId ty]
    | None => []
    end in
  Returned
    (title ++ description ++ progress ++ status ++ estimatedMinutes ++ maxMinutes
     ++ plannedForDate ++ dueDate ++ taskTypeId ++ [SetUpdatedAt (updatedNow clock)]).

(** [updateTask]: the table it leaves, and the row that the final [SELECT]
    returns ([None] when no row has the id) or what it throws. Every throw
    comes before the [UPDATE]. *)
Definition updateTask (db : gmap string TaskRow) (clock : Clock) (taskId : string)
    (params : UpdateTaskParams.t)
  : gmap string TaskRow * Outcome (option TaskRow) :=
  match (do _ <- validateUpdateTask params; updateList clock params) with
  | Thrown e => (db, Thrown e)
  | Returned updates =>
      let db := sqlUpdate db updates taskId in
      (db, Returned (db !! taskId))
  end.

(** The rows of [SELECT progress FROM tasks WHERE parent_task_id = ? AND
    deleted = 0]. *)
Definition subTasksOf (db : gmap string TaskRow) (parentTaskId : string) : list TaskRow :=
  List.filter
    (fun row =>
       match parent_task_id row with
       | Some parent => String.eqb parent parentTaskId && negb (deleted row)
       | None => false
       end)
    (snd <$> map_to_list db).

Definition updateParentProgress (db : gmap string TaskRow) (clock : Clock)
    (parentTaskId : string)
  : gmap string TaskRow * Outcome unit :=
  let subTasks := subTasksOf db parentTaskId in
  if Z.of_nat (length subTasks) =? 0 then (db, Returned tt)
  else
    let totalProgress :=
      fold_left (fun sum task => sum + progress (columns task)) subTasks 0 in
    let averageProgress :=
      JS.round (inject_Z totalProgress / inject_Z (Z.of_nat (length subTasks))) in
    match updateTask db clock parentTaskId (UpdateTaskParams.ofProgress averageProgress) with
    | (db, Returned _) => (db, Returned tt)
    | (db, Thrown e) => (db, Thrown e)
    end.

(** [updateTaskProgress]: [clock] serves the update of the task,
    [parentClock] the update of its parent. Reading [parent_task_id] off the
    row of an id that the table does not hold is a [TypeError]. *)
Definition updateTaskProgress (db : gmap string TaskRow) (clock parentClock : Clock)
    (taskId : string) (progress : Z)
  : gmap string TaskRow * Outcome TaskRow :=
  match updateTask db clock taskId (UpdateTaskParams.ofProgress progress) with
  | (db, Thrown e) => (db, Thrown e)
  | (db, Returned None) => (db, Thrown TypeError)
  | (db, Returned (Some task)) =>
      match parent_task_id task with
      | Some parent =>
          if String.eqb parent "" then (db, Returned task)
          else
            match updateParentProgress db parentClock parent with
            | (db, Returned _) => (db, Returned task)
            | (db, Thrown e) => (db, Thrown e)
            end
      | None => (db, Returned task)
      end
  end.

(** [createTask]: [taskId] is the value of [crypto.randomUUID()] and [now]
    the reading of [new Date()] in the validation. The [data] object gives
    no [created_at] and no [updated_at]: the values that the store gives
    these columns are the arguments [createdAt] and [updatedAt]. The result
    is the table with the row inserted, and the row. *)
Definition createTask (db : gmap string TaskRow) (taskId : string)
    (createdAt : Z) (updatedAt : option JSDate) (now : Z)
    (userId : string) (params : CreateTaskParams.t)
  : gmap string TaskRow * Outcome TaskRow :=
  let data :=
    do _ <- validateCreateTask now params;
    do planned <-
      match CreateTaskParams.plannedForDate params with
      | Some date => do iso <- isoString date; Returned (Some (beforeT iso))
      | None => Returned None
      end;
    do due <-
      match CreateTaskParams.dueDate params with
      | Some date => do _ <- isoString date; Returned (Some date)
      | None => Returned None
      end;
    Returned
      {| user_id := userId;
         project_id := CreateTaskParams.projectId params;
         parent_task_id :=
           match CreateTaskParams.parentTaskId params with
           | Some parent => if String.eqb parent "" then None else Some parent
           | None => None
           end;
         title := trim (CreateTaskParams.title params);
         description :=
           match CreateTaskParams.description params with
           | Some d => trimOrNull d
           | None => None
           end;
         task_type_id := CreateTaskParams.taskTypeId params;
         completed_at := None;
         deleted := false;
         created_at := createdAt;
         columns :=
           {| difficulty :=
                match CreateTaskParams.difficulty params with
                | Some d => d
                | None => MEDIUM
                end;
              progress := 0;
              status := "BACKLOG";
              estimated_minutes := CreateTaskParams.estimatedMinutes params;
              actual_minutes := 0;
              max_minutes := CreateTaskParams.maxMinutes params;
              due_date := due;
              planned_for_date := planned;
              updated_at := updatedAt |} |} in
  match data with
  | Returned row => (<[taskId := row]> db, Returned row)
  | Thrown e => (db, Thrown e)
  end.

End Runtime.

(** *** Planning over the whole rows *)

(** [assignToDay] and [unassignTask] on rows with all their columns: the
    [UPDATE] writes the planning columns and leaves the others. *)
Definition assignToDay (db : gmap string TaskRow) (now : Z) (taskId date : string)
  : gmap string TaskRow * option TaskRow :=
  let db := alter (onColumns (Planning.assignRow date now)) taskId db in
  (db, db !! taskId).

Definition unassignTask (db : gmap string TaskRow) (now : Z) (taskId : string)
  : gmap string TaskRow * option TaskRow :=
  let db := alter (onColumns (Planning.unassignRow now)) taskId db in
  (db, db !! taskId).

(** [ORDER BY]: insertion of each row before the first one that it may
    precede. *)
Fixpoint insertBy {A : Type} (before : A -> A -> bool) (x : A) (l : list A) : list A :=
  match l with
  | [] => [x]
  | y :: rest => if before x y then x :: l else y :: insertBy before x rest
  end.

Definition orderBy {A : Type} (before : A -> A -> bool) (l : list A) : list A :=
  fold_right (insertBy before) [] l.

(** The [WHERE] clause of [getTasksForDay]. A comparison with a [NULL]
    column selects nothing. *)
Definition plannedOn (userId date : string) (row : TaskRow) : bool :=
  String.eqb (user_id row) userId
  && match planned_for_date (columns row) with
     | Some planned => String.eqb planned date
     | None => false
     end
  && negb (deleted row).

Definition getTasksForDay (db : gmap string TaskRow) (userId date : string)
  : list (string * TaskRow) :=
  orderBy (fun a b => created_at (snd a) <=? created_at (snd b))
    (List.filter (fun entry => plannedOn userId date (snd entry)) (map_to_list db)).

(** The [WHERE] clause of [getOngoingTasks]; text compares byte by byte. *)
Definition lapsed (userId today : string) (row : TaskRow) : bool :=
  String.eqb (user_id row) userId
  && match planned_for_date (columns row) with
     | Some planned => String.ltb planned today
     | None => false
     end
  && negb (String.eqb (status (columns row)) "COMPLETED")
  && negb (String.eqb (status (columns row)) "ARCHIVED")
  && negb (deleted row).

(** [a] may come before [b] when ordering by [planned_for_date DESC]. *)
Definition plannedLater (a b : string * TaskRow) : bool :=
  match planned_for_date (columns (snd a)), planned_for_date (columns (snd b)) with
  | Some x, Some y => String.leb y x
  | Some _, None => true
  | None, Some _ => false
  | None, None => true
  end.

Definition getOngoingTasks (db : gmap string TaskRow) (userId today : string)
  : list (string * TaskRow) :=
  orderBy plannedLater
    (List.filter (fun entry => lapsed userId today (snd entry)) (map_to_list db)).

(** The [WHERE] clause of [getBacklogTasks]. *)
Definition inBacklog (userId : string) (row : TaskRow) : bool :=
  String.eqb (user_id row) userId
  && match planned_for_date (columns row) with
     | Some _ => false
     | None => true
     end
  && String.eqb (status (columns row)) "BACKLOG"
  && negb (deleted row).

Definition getBacklogTasks (db : gmap string TaskRow) (userId : string)
  : list (string * TaskRow) :=
  orderBy (fun a b => created_at (snd b) <=? created_at (snd a))
    (List.filter (fun entry => inBacklog userId (snd entry)) (map_to_list db)).

End Store.

(** [task] with [progress] replaced, every other field kept. *)
Definition withProgress (p : Z) (task : Task) : Task :=
  {| difficulty := difficulty task;
     progress := p;
     status := status task;
     estimated_minutes := estimated_minutes task;
     actual_minutes := actual_minutes task;
     max_minutes := max_minutes task;
     due_date := due_date task;
     planned_for_date := planned_for_date task;
     updated_at := updated_at task |}.

(** Sample rows: a parent task with two sub-tasks, and a task to create. *)
Module StoreSamples.

Import Store.

(** A stand-in for [toISOString] that gives every instant the same text. *)
Definition isoOf (ms : Z) : string := "2024-01-15T10:00:00.000Z".

Definition clock : Clock := {| completedNow := 1000; updatedNow := 1001 |}.

(** A sub-task not yet done, titled "t1". *)
Definition child : TaskRow :=
  mkTaskRow "u1" "p1" (Some "parent"%string) [116%N; 49%N] None None None false 2
    (mkTask MEDIUM 40 "IN_PROGRESS" None 0 None None None None).

(** [child] after its progress is set to 100 under [clock]. *)
Definition childDone : TaskRow :=
  mkTaskRow "u1" "p1" (Some "parent"%string) [116%N; 49%N] None None
    (Some (Instant 1000)) false 2
    (mkTask MEDIUM 100 "COMPLETED" None 0 None None None (Some (Instant 1001))).

(** A finished sub-task of the same parent. *)
Definition sibling : TaskRow :=
  mkTaskRow "u1" "p1" (Some "parent"%string) [116%N; 50%N] None None
    (Some (Instant 500)) false 3
    (mkTask EASY 100 "COMPLETED" None 0 None None None None).

Definition parent : TaskRow :=
  mkTaskRow "u1" "p1" None [116%N; 48%N] None None None false 1
    (mkTask HARD 70 "PLANNED" None 0 None None (Some "2024-01-14"%string) None).

Definition family : gmap string TaskRow :=
  <["child"%string := child]>
    (<["sibling"%string := sibling]> (<["parent"%string := parent]> ∅)).

(** A task to create, its title " t1 " padded with spaces. *)
Definition newTask : CreateTaskParams.t :=
  CreateTaskParams.mk [32%N; 116%N; 49%N; 32%N] "p1" (Some HARD) (Some 30) (Some 60)
    (Some (Instant 5000)) None None None (Some (Instant 4000)).

(** The row that [createTask] stores for [newTask]. *)
Definition createdRow : TaskRow :=
  mkTaskRow "u1" "p1" None [116%N; 49%N] None None None false 10
    (mkTask HARD 0 "BACKLOG" (Some 30) 0 (Some 60) (Some (Instant 5000))
       (Some "2024-01-15"%string) None).

End StoreSamples.

Import Scoring Planning.

(** * Properties *)

(** Case analysis on every test of a conditional in the goal. *)
Ltac case_ifs :=
  repeat match goal with |- context [if ?c then _ else _] => destruct c end.

(** ** Rounding *)

Section Rounding.

Local Open Scope Q_scope.

Lemma round_nonneg (x : Q) : 0 <= x -> (0 <= JS.round x)%Z.
Proof.
  intros Hx. unfold JS.round.
  change 0%Z with (Qfloor 0). apply Qfloor_resp_le. lra.
Qed.

Lemma round_zero_iff (x : Q) : 0 <= x -> (JS.round x = 0%Z <-> x < 1 # 2).
Proof.
  intros Hx. unfold JS.round. split.
  - intros H0. pose proof (Qlt_floor (x + (1 # 2))) as Hlt.
    rewrite H0 in Hlt. change (inject_Z (0 + 1)) with 1 in Hlt. lra.
  - intros Hlt. apply Z.le_antisymm.
    + apply Z.lt_succ_r. rewrite Zlt_Qlt.
      apply Qle_lt_trans with (x + (1 # 2)); [apply Qfloor_le|].
      change (inject_Z (Z.succ 0)) with 1. lra.
    + change 0%Z with (Qfloor 0). apply Qfloor_resp_le. lra.
Qed.

End Rounding.

(** ** calculateTaskScore *)

Section TaskScore.

Local Open Scope Q_scope.

Lemma calculateTaskScore_locals (task : Task) (context : ScoringContext) :
  calculateTaskScore task context
  = {| basePoints := inject_Z (JS.round (rawBasePoints task * 10)) / 10;
       efficiencyBonus := inject_Z (JS.round (rawEfficiencyBonus task * 10)) / 10;
       focusBonus := inject_Z (JS.round (rawFocusBonus task context * 10)) / 10;
       totalPoints :=
         JS.round (rawBasePoints task + rawEfficiencyBonus task
                   + rawFocusBonus task context) |}.
Proof. reflexivity. Qed.

Lemma percent_nonneg (p : Z) : (0 <= p)%Z -> 0 <= inject_Z p / 100.
Proof.
  intros Hp. apply Qle_shift_div_l; [reflexivity|].
  rewrite Qmult_0_l. rewrite <- (Zle_Qle 0). exact Hp.
Qed.

Lemma rawBasePoints_bounds (task : Task) :
  (0 <= progress task)%Z ->
  inject_Z (progress task) / 100 <= rawBasePoints task.
Proof.
  intros Hp. unfold rawBasePoints.
  pose proof (percent_nonneg _ Hp) as Hq.
  set (q := inject_Z (progress task) / 100) in *.
  destruct (difficulty task); simpl DIFFICULTY_MULTIPLIERS.
  all: match goal with |- context [inject_Z ?k * _] =>
         let v := eval cbv in (inject_Z k) in change (inject_Z k) with v end.
  all: lra.
Qed.

Lemma rawSum_ge_base (task : Task) (context : ScoringContext) :
  (0 <= progress task)%Z ->
  rawBasePoints task <=
    rawBasePoints task + rawEfficiencyBonus task + rawFocusBonus task context.
Proof.
  intros Hp.
  pose proof (rawBasePoints_bounds task Hp) as Hb.
  pose proof (percent_nonneg _ Hp) as Hq.
  unfold rawEfficiencyBonus, rawFocusBonus.
  destruct (underEstimate task), (taskTypesWorkedToday context >=? 3)%Z; lra.
Qed.

Lemma rawSum_zero (task : Task) (context : ScoringContext) :
  progress task = 0%Z ->
  rawBasePoints task + rawEfficiencyBonus task + rawFocusBonus task context == 0.
Proof.
  intros Hp.
  assert (rawBasePoints task == 0) as Hb.
  { unfold rawBasePoints. rewrite Hp. change (inject_Z 0 / 100) with (0 / 100). field. }
  unfold rawEfficiencyBonus, rawFocusBonus.
  destruct (underEstimate task), (taskTypesWorkedToday context >=? 3)%Z; lra.
Qed.

(** C1, as amended: total points are never negative and vanish at zero
    progress; they vanish exactly when the unrounded sum of base points and
    bonuses is below one half, which needs a progress below 50 but not a
    progress of zero. *)
Theorem totalPoints_nonneg_zero (task : Task) (context : ScoringContext) :
  (0 <= progress task <= 100)%Z ->
  let score := calculateTaskScore task context in
  (0 <= totalPoints score)%Z
  /\ (progress task = 0%Z -> totalPoints score = 0%Z)
  /\ (totalPoints score = 0%Z <->
        rawBasePoints task + rawEfficiencyBonus task + rawFocusBonus task context < 1 # 2)
  /\ (totalPoints score = 0%Z -> (progress task < 50)%Z).
Proof.
  intros [Hp _]. cbn zeta. rewrite calculateTaskScore_locals. cbn [totalPoints].
  pose proof (rawBasePoints_bounds task Hp) as Hb.
  pose proof (percent_nonneg _ Hp) as Hq.
  pose proof (rawSum_ge_base task context Hp) as Hs.
  set (total := rawBasePoints task + rawEfficiencyBonus task + rawFocusBonus task context) in *.
  assert (0 <= total) as Hpos by lra.
  split; [apply round_nonneg; exact Hpos|].
  split.
  { intros H0. apply round_zero_iff; [exact Hpos|].
    pose proof (rawSum_zero task context H0) as Hz. fold total in Hz. lra. }
  split; [apply round_zero_iff; exact Hpos|].
  intros H0. apply round_zero_iff in H0; [|exact Hpos].
  destruct (Z.lt_ge_cases (progress task) 50) as [Hlt|Hge]; [exact Hlt|exfalso].
  rewrite Zle_Qle in Hge.
  assert (1 # 2 <= inject_Z (progress task) / 100) as Hhalf.
  { apply Qle_shift_div_l; [reflexivity|].
    assert ((1 # 2) * 100 == inject_Z 50) as -> by (vm_compute; reflexivity).
    exact Hge. }
  lra.
Qed.

Lemma totalPoints_nonneg_zero_witness :
  let task := Samples.hardUnderEstimate in
  let score := calculateTaskScore task Samples.focused in
  (0 <= progress task <= 100)%Z
  /\ (0 <= totalPoints score)%Z
  /\ (progress task = 0%Z -> totalPoints score = 0%Z)
  /\ (totalPoints score = 0%Z <->
        rawBasePoints task + rawEfficiencyBonus task + rawFocusBonus task Samples.focused
          < 1 # 2)
  /\ (totalPoints score = 0%Z -> (progress task < 50)%Z).
Proof.
  cbv zeta. split; [simpl; lia|].
  apply (totalPoints_nonneg_zero Samples.hardUnderEstimate Samples.focused).
  simpl; lia.
Defined.

(** C1 as stated fails: a trivial task at 10% progress earns base points
    0.1 and no bonus, and [Math.round(0.1)] is 0 although progress is not. *)
Lemma totalPoints_zero_at_positive_progress :
  let task := Samples.trivialTenth in
  let score := calculateTaskScore task Samples.noFocus in
  (0 <= progress task <= 100)%Z
  /\ ~ ((0 <= totalPoints score)%Z
        /\ (totalPoints score = 0%Z <-> progress task = 0%Z)).
Proof.
  cbv zeta. split; [simpl; lia|].
  intros [_ [Hzero _]].
  assert (totalPoints (calculateTaskScore Samples.trivialTenth Samples.noFocus) = 0%Z)
    as Htotal by (vm_compute; reflexivity).
  specialize (Hzero Htotal). discriminate Hzero.
Qed.

(** C2: the hard task finished in 45 of 60 estimated minutes, on a day with
    three task types, scores base 5.0, efficiency bonus 1.0, focus bonus 0.5
    and total 7; the total is [Math.round] of the unrounded sum 6.5, the tie
    going up. The fields that scoring does not read are arbitrary. *)
Theorem calculateTaskScore_hard_example
    (st : string) (maxm : option Z) (due upd : option JSDate) (planned : option string) :
  let task := mkTask HARD 100 st (Some 60%Z) 45 maxm due planned upd in
  let score := calculateTaskScore task {| taskTypesWorkedToday := 3 |} in
  basePoints score == 5
  /\ efficiencyBonus score == 1
  /\ focusBonus score == 0.5
  /\ totalPoints score = 7%Z
  /\ rawBasePoints task + rawEfficiencyBonus task
       + rawFocusBonus task {| taskTypesWorkedToday := 3 |} == 6.5
  /\ JS.round 6.5 = 7%Z.
Proof.
  cbv zeta. repeat split; vm_compute; reflexivity.
Qed.

(** The guard of the efficiency bonus, read on tasks whose actual minutes
    are not negative: a falsy estimate (null or 0) can never exceed them. *)
Lemma underEstimate_spec (task : Task) :
  (0 <= actual_minutes task)%Z ->
  underEstimate task = true <->
    progress task = 100%Z
    /\ exists estimated,
         estimated_minutes task = Some estimated
         /\ (actual_minutes task < estimated)%Z.
Proof.
  intros Ha. unfold underEstimate, JS.truthy, JS.ltb_opt.
  destruct (estimated_minutes task) as [e|].
  - rewrite !andb_true_iff, Z.eqb_eq, negb_true_iff, Z.eqb_neq, Z.ltb_lt. split.
    + intros [[Hp _] Hlt]. split; [exact Hp|]. exists e. split; [reflexivity|exact Hlt].
    + intros [Hp [e' [He Hlt]]]. injection He as <-. repeat split; [exact Hp|lia|exact Hlt].
  - rewrite andb_false_r. split; [discriminate|].
    intros [_ [e' [He _]]]. discriminate He.
Qed.

Lemma displayed_bonus_at_completion (task : Task) :
  progress task = 100%Z ->
  inject_Z (JS.round (rawBasePoints task * 0.2 * 10)) / 10
    == inject_Z (JS.round (rawBasePoints task * 10)) / 10 * 0.2
  /\ 0 < inject_Z (JS.round (rawBasePoints task * 0.2 * 10)) / 10.
Proof.
  intros Hp. unfold rawBasePoints. rewrite Hp.
  destruct (difficulty task); split; vm_compute; reflexivity.
Qed.

(** C5: for a task whose actual minutes are not negative, the efficiency
    bonus is 20% of the base points exactly when progress is 100, an
    estimate is present and the actual minutes are below it, and is 0
    otherwise; both for the unrounded bonus and for the displayed one.
    Raising only the actual minutes to the estimate or beyond removes it. *)
Theorem efficiencyBonus_fires_iff (task : Task) (context : ScoringContext) :
  (0 <= actual_minutes task)%Z ->
  let score := calculateTaskScore task context in
  let fires :=
    progress task = 100%Z
    /\ exists estimated,
         estimated_minutes task = Some estimated
         /\ (actual_minutes task < estimated)%Z in
  (fires ->
     rawEfficiencyBonus task == rawBasePoints task * 0.2
     /\ efficiencyBonus score == basePoints score * 0.2
     /\ 0 < efficiencyBonus score)
  /\ (~ fires -> rawEfficiencyBonus task == 0 /\ efficiencyBonus score == 0)
  /\ (forall estimated actual' : Z,
        estimated_minutes task = Some estimated ->
        (estimated <= actual')%Z ->
        efficiencyBonus (calculateTaskScore (withActualMinutes actual' task) context) == 0).
Proof.
  intros Ha. cbv zeta.
  pose proof (underEstimate_spec task Ha) as Hspec.
  rewrite calculateTaskScore_locals. cbn [efficiencyBonus basePoints].
  unfold rawEfficiencyBonus.
  split; [|split].
  - intros Hfires. pose proof Hfires as [Hp _].
    apply Hspec in Hfires. rewrite Hfires.
    split; [reflexivity|].
    apply displayed_bonus_at_completion. exact Hp.
  - intros Hnot.
    destruct (underEstimate task) eqn:Hu.
    + exfalso. apply Hnot, Hspec. reflexivity.
    + split; [reflexivity|]. vm_compute. reflexivity.
  - intros estimated actual' He Hle.
    rewrite calculateTaskScore_locals. cbn [efficiencyBonus].
    unfold rawEfficiencyBonus.
    assert (underEstimate (withActualMinutes actual' task) = false) as ->.
    { unfold underEstimate, withActualMinutes. cbn [progress estimated_minutes actual_minutes].
      rewrite He. unfold JS.ltb_opt.
      apply andb_false_iff. right. apply Z.ltb_ge. exact Hle. }
    vm_compute. reflexivity.
Qed.

Lemma efficiencyBonus_fires_iff_witness :
  let task := Samples.hardUnderEstimate in
  let score := calculateTaskScore task Samples.focused in
  (0 <= actual_minutes task)%Z
  /\ efficiencyBonus score == basePoints score * 0.2
  /\ efficiencyBonus (calculateTaskScore (withActualMinutes 60 task) Samples.focused) == 0.
Proof.
  cbv zeta.
  assert (0 <= actual_minutes Samples.hardUnderEstimate)%Z as Ha by (simpl; lia).
  destruct (efficiencyBonus_fires_iff Samples.hardUnderEstimate Samples.focused Ha)
    as [Hfires [_ Hremoved]].
  split; [exact Ha|]. split.
  - apply Hfires. split; [reflexivity|].
    exists 60%Z. split; [reflexivity|simpl; lia].
  - apply (Hremoved 60%Z 60%Z); [reflexivity|lia].
Defined.

End TaskScore.

(** ** Agreement of the rational reading with binary64 *)

Section Binary64Agreement.

Lemma denotes_true (x : float) (z : Z) :
  Binary64.denotes x z = true -> Binary64.toZ x = Some z.
Proof.
  unfold Binary64.denotes. destruct (Binary64.toZ x) as [v|]; [|discriminate].
  intros Hv. apply Z.eqb_eq in Hv. rewrite Hv. reflexivity.
Qed.

Lemma percent_range (P : Z -> bool) :
  forallb P (map Z.of_nat (seq 0 101)) = true ->
  forall p : Z, 0 <= p <= 100 -> P p = true.
Proof.
  intros Hall p Hp. rewrite forallb_forall in Hall. apply Hall.
  apply in_map_iff. exists (Z.to_nat p). split; [lia|].
  apply in_seq. lia.
Qed.

(** X4: On every task with progress in [0,100] the total points computed on
    binary64 numbers are the integer that the rational reading gives. *)
Lemma totalPoints_binary64 (task : Task) (context : ScoringContext) :
  0 <= progress task <= 100 ->
  Binary64.toZ (Binary64.totalPoints64 (Binary64.calculateTaskScore task context))
  = Some (totalPoints (calculateTaskScore task context)).
Proof.
  intros Hp. apply denotes_true.
  unfold Binary64.calculateTaskScore, calculateTaskScore.
  cbn [Binary64.totalPoints64 totalPoints].
  fold (underEstimate task).
  generalize (underEstimate task) (taskTypesWorkedToday context >=? 3).
  revert Hp. generalize (progress task). generalize (difficulty task).
  intros d p Hp efficient focused. revert p Hp.
  apply percent_range.
  destruct d, efficient, focused; vm_compute; reflexivity.
Qed.

Lemma totalPoints_binary64_witness :
  Binary64.toZ
    (Binary64.totalPoints64
       (Binary64.calculateTaskScore Samples.trivialTenth Samples.noFocus))
  = Some 0.
Proof.
  rewrite (totalPoints_binary64 Samples.trivialTenth Samples.noFocus) by (cbn; lia).
  vm_compute. reflexivity.
Defined.

(** The hard task finished under its estimate, on binary64 numbers: the
    returned fields are the numbers 5, 1, 0.5 and 7. *)
Example binary64_score_of_hard_task :
  Binary64.calculateTaskScore Samples.hardUnderEstimate Samples.focused
  = Binary64.mkTaskScore64 5 1 0.5 7.
Proof. vm_compute. reflexivity. Qed.

End Binary64Agreement.

(** ** calculateEfficiency *)

Section Efficiency.

Local Open Scope Q_scope.

(** C3, as amended: the rating is 1 when the estimate is absent or zero or
    when no time was spent, and the ratio of estimated to actual minutes in
    every other case; it agrees with the spec's reading on every task whose
    estimate is not a present zero. *)
Theorem calculateEfficiency_cases (task : Task) :
  (estimated_minutes task = None
     \/ estimated_minutes task = Some 0%Z
     \/ actual_minutes task = 0%Z ->
   calculateEfficiency task = 1)
  /\ (forall estimated : Z,
        estimated_minutes task = Some estimated ->
        estimated <> 0%Z ->
        actual_minutes task <> 0%Z ->
        calculateEfficiency task = inject_Z estimated / inject_Z (actual_minutes task))
  /\ (estimated_minutes task <> Some 0%Z ->
      calculateEfficiency task = Spec.efficiency task).
Proof.
  unfold calculateEfficiency, Spec.efficiency, JS.truthy.
  destruct (estimated_minutes task) as [e|]; cbn [negb orb].
  2: { split; [reflexivity|]. split; [intros e' He'; discriminate He'|reflexivity]. }
  destruct (Z.eqb_spec e 0) as [He|He], (Z.eqb_spec (actual_minutes task) 0) as [Ha|Ha];
    cbn [negb orb].
  all: split; [intros Hor; try reflexivity; destruct Hor as [H|[H|H]]; congruence|].
  all: split; [intros e' He' Hne Hna; try reflexivity; congruence|].
  all: intros Hne; try reflexivity; congruence.
Qed.

Lemma calculateEfficiency_cases_witness :
  calculateEfficiency Samples.zeroEstimate = 1
  /\ calculateEfficiency Samples.hardUnderEstimate = inject_Z 60 / inject_Z 45
  /\ calculateEfficiency Samples.hardUnderEstimate
     = Spec.efficiency Samples.hardUnderEstimate.
Proof.
  destruct (calculateEfficiency_cases Samples.zeroEstimate) as [Hone _].
  destruct (calculateEfficiency_cases Samples.hardUnderEstimate) as [_ [Hratio Hspec]].
  split; [|split].
  - apply Hone. right. left. reflexivity.
  - apply (Hratio 60%Z); [reflexivity|lia|simpl; lia].
  - apply Hspec. simpl. discriminate.
Defined.

(** C3 as stated fails: with a present estimate of 0 minutes and 5 actual
    minutes the code returns 1, while the claimed ratio 0 / 5 is 0. *)
Lemma calculateEfficiency_zero_estimate :
  let task := Samples.zeroEstimate in
  (0 <= actual_minutes task)%Z
  /\ estimated_minutes task = Some 0%Z
  /\ calculateEfficiency task == 1
  /\ Spec.efficiency task == 0
  /\ ~ calculateEfficiency task == Spec.efficiency task.
Proof.
  cbv zeta. repeat split; try (simpl; lia); try (vm_compute; reflexivity).
  vm_compute. discriminate.
Qed.

End Efficiency.

(** The two labels the spec gives as examples, and the boundary at 0.8. *)
Example getEfficiencyLabel_examples :
  getEfficiencyLabel 1 = "Good"%string
  /\ getEfficiencyLabel 0.79 = "Needs Improvement"%string
  /\ getEfficiencyLabel 0.8 = "Fair"%string.
Proof. repeat split. Qed.

(** ** calculateTrend and getTrendLabel *)

Section Trend.

Local Open Scope Q_scope.

(** C9: against a zero average the trend is the neutral 1, whatever today's
    score; against any other average it is the ratio of the two scores. *)
Theorem calculateTrend_guarded (todayScore averageScore : Q) :
  calculateTrend todayScore 0 = 1
  /\ (averageScore == 0 -> calculateTrend todayScore averageScore = 1)
  /\ (~ averageScore == 0 ->
      calculateTrend todayScore averageScore = todayScore / averageScore).
Proof.
  unfold calculateTrend. split; [reflexivity|].
  destruct (Qeq_bool averageScore 0) eqn:Hz.
  - apply Qeq_bool_eq in Hz. split; [reflexivity|]. intros Hne. contradiction.
  - apply Qeq_bool_neq in Hz. split; [|reflexivity]. intros Heq. contradiction.
Qed.

Lemma calculateTrend_guarded_witness :
  calculateTrend 12 0 = 1
  /\ calculateTrend 12 (0 # 7) = 1
  /\ calculateTrend 12 8 = 12 / 8.
Proof.
  destruct (calculateTrend_guarded 12 (0 # 7)) as [Hzero [Hneutral _]].
  destruct (calculateTrend_guarded 12 8) as [_ [_ Hratio]].
  split; [exact Hzero|]. split.
  - apply Hneutral. reflexivity.
  - apply Hratio. discriminate.
Defined.

(** [Math.round] picks the integer within one half of its argument, the
    upper one on a tie. *)
Lemma round_nearest (x : Q) :
  inject_Z (JS.round x) - (1 # 2) <= x /\ x < inject_Z (JS.round x) + (1 # 2).
Proof.
  unfold JS.round.
  pose proof (Qfloor_le (x + (1 # 2))) as Hle.
  pose proof (Qlt_floor (x + (1 # 2))) as Hlt.
  rewrite inject_Z_plus in Hlt. change (inject_Z 1) with 1 in Hlt.
  split; lra.
Qed.



End Trend.

(** ** calculateDailyScore *)

Section DailyScore.

Variable context : ScoringContext.

Lemma calculateDailyScore_acc (tasks : list Task) (acc : Z) :
  fold_left (fun total task => total + taskPoints context task) tasks acc
  = acc + fold_right Z.add 0 (map (taskPoints context) tasks).
Proof.
  revert acc. induction tasks as [|task tasks IH]; intros acc; simpl.
  - lia.
  - rewrite IH. lia.
Qed.

Lemma calculateDailyScore_sum (tasks : list Task) :
  calculateDailyScore tasks context = fold_right Z.add 0 (map (taskPoints context) tasks).
Proof.
  unfold calculateDailyScore.
  change (fun total task => total + totalPoints (calculateTaskScore task context))
    with (fun total task => total + taskPoints context task).
  rewrite calculateDailyScore_acc. lia.
Qed.

Lemma sum_points_perm (tasks tasks' : list Task) :
  Permutation tasks tasks' ->
  fold_right Z.add 0 (map (taskPoints context) tasks)
  = fold_right Z.add 0 (map (taskPoints context) tasks').
Proof.
  induction 1 as [|task l l' _ IH|a b l|l1 l2 l3 _ IH1 _ IH2]; simpl.
  - reflexivity.
  - rewrite IH. reflexivity.
  - lia.
  - rewrite IH1. exact IH2.
Qed.

End DailyScore.

(** C7: the daily score of no task is 0; the daily score is the sum of the
    tasks' total points, and so the same on every permutation of the list. *)
Theorem calculateDailyScore_permutation
    (tasks tasks' : list Task) (context : ScoringContext) :
  calculateDailyScore [] context = 0
  /\ calculateDailyScore tasks context
     = fold_right Z.add 0
         (map (fun task => totalPoints (calculateTaskScore task context)) tasks)
  /\ (Permutation tasks tasks' ->
      calculateDailyScore tasks context = calculateDailyScore tasks' context).
Proof.
  split; [reflexivity|]. split.
  - apply (calculateDailyScore_sum context).
  - intros Hperm. rewrite !calculateDailyScore_sum.
    apply sum_points_perm. exact Hperm.
Qed.

Lemma calculateDailyScore_permutation_witness :
  let tasks := [Samples.hardUnderEstimate; Samples.trivialTenth; Samples.zeroEstimate] in
  let tasks' := [Samples.zeroEstimate; Samples.hardUnderEstimate; Samples.trivialTenth] in
  Permutation tasks tasks'
  /\ calculateDailyScore tasks Samples.focused = calculateDailyScore tasks' Samples.focused.
Proof.
  cbv zeta.
  assert (Permutation
            [Samples.hardUnderEstimate; Samples.trivialTenth; Samples.zeroEstimate]
            [Samples.zeroEstimate; Samples.hardUnderEstimate; Samples.trivialTenth])
    as Hperm.
  { apply Permutation_sym.
    apply (Permutation_cons_append [Samples.hardUnderEstimate; Samples.trivialTenth]). }
  split; [exact Hperm|].
  apply (calculateDailyScore_permutation _ _ Samples.focused). exact Hperm.
Defined.

(** ** calculatePriority *)

Section Priority.

Lemma daysBetween_whole (t k : Z) :
  daysBetween (Instant (t + k * MS_PER_DAY)) (Instant t) = Some k.
Proof.
  unfold daysBetween, JS.getTime, JS.ceil. f_equal.
  replace (t + k * MS_PER_DAY - t) with (k * MS_PER_DAY) by lia.
  rewrite <- (Qceiling_Z k) at 2. apply Qceiling_comp.
  rewrite inject_Z_mult. field. discriminate.
Qed.

Lemma calculatePriority_additive (task : Task) (today : JSDate) :
  calculatePriority task today
  = dueDateUrgency task today + nearCompletion task
    + timeConstraint task + neglect task today.
Proof.
  unfold calculatePriority, dueDateUrgency, nearCompletion, timeConstraint, neglect.
  destruct (due_date task) as [dueDate|];
    [destruct (daysBetween dueDate today) as [daysUntilDue|]|];
    destruct (max_minutes task) as [maxMinutes|];
    (destruct (updated_at task) as [lastUpdated|];
      [destruct (daysBetween today lastUpdated) as [daysSinceUpdate|]|]);
    cbv zeta; case_ifs; reflexivity.
Qed.

(** C4: a task due exactly one day after [today], at progress 85, with no
    time budget in play and last updated ten days before [today], gets
    35 for the due date, 30 for completion, 0 for the time constraint and
    10 for neglect, and its priority is their sum, 75. *)
Theorem calculatePriority_example (task : Task) (today : Z) :
  due_date task = Some (Instant (today + MS_PER_DAY)) ->
  progress task = 85 ->
  max_minutes task = None \/ actual_minutes task = 0 ->
  updated_at task = Some (Instant (today - 10 * MS_PER_DAY)) ->
  dueDateUrgency task (Instant today) = 35
  /\ nearCompletion task = 30
  /\ timeConstraint task = 0
  /\ neglect task (Instant today) = 10
  /\ calculatePriority task (Instant today)
     = dueDateUrgency task (Instant today) + nearCompletion task
       + timeConstraint task + neglect task (Instant today)
  /\ calculatePriority task (Instant today) = 75.
Proof.
  intros Hdue Hprogress Htime Hupdated.
  assert (dueDateUrgency task (Instant today) = 35) as Hd.
  { unfold dueDateUrgency. rewrite Hdue.
    replace (today + MS_PER_DAY) with (today + 1 * MS_PER_DAY) by lia.
    rewrite daysBetween_whole. reflexivity. }
  assert (nearCompletion task = 30) as Hc.
  { unfold nearCompletion. rewrite Hprogress. reflexivity. }
  assert (timeConstraint task = 0) as Ht.
  { unfold timeConstraint. destruct Htime as [-> | ->]; [reflexivity|].
    destruct (max_minutes task) as [m|]; [|reflexivity].
    rewrite andb_false_r. reflexivity. }
  assert (neglect task (Instant today) = 10) as Hn.
  { unfold neglect. rewrite Hupdated.
    replace today with (today - 10 * MS_PER_DAY + 10 * MS_PER_DAY) at 1 by lia.
    rewrite daysBetween_whole. reflexivity. }
  rewrite calculatePriority_additive, Hd, Hc, Ht, Hn.
  repeat split; reflexivity.
Qed.

Lemma calculatePriority_example_witness :
  let task :=
    mkTask MEDIUM 85 "PLANNED" None 0 None
      (Some (Instant (1700000000000 + MS_PER_DAY))) (Some "2023-11-15"%string)
      (Some (Instant (1700000000000 - 10 * MS_PER_DAY))) in
  calculatePriority task (Instant 1700000000000) = 75.
Proof.
  cbv zeta.
  apply (calculatePriority_example
           (mkTask MEDIUM 85 "PLANNED" None 0 None
              (Some (Instant (1700000000000 + MS_PER_DAY))) (Some "2023-11-15"%string)
              (Some (Instant (1700000000000 - 10 * MS_PER_DAY))))
           1700000000000).
  - reflexivity.
  - reflexivity.
  - left. reflexivity.
  - reflexivity.
Defined.

Lemma dueDateUrgency_values (task : Task) (today : JSDate) :
  In (dueDateUrgency task today) [0; 10; 25; 35; 40].
Proof.
  unfold dueDateUrgency.
  destruct (due_date task) as [dueDate|]; [|simpl; tauto].
  destruct (daysBetween dueDate today) as [daysUntilDue|]; [|simpl; tauto].
  case_ifs; simpl; tauto.
Qed.

Lemma nearCompletion_values (task : Task) : In (nearCompletion task) [0; 15; 30].
Proof.
  unfold nearCompletion.
  case_ifs; simpl; tauto.
Qed.

Lemma timeConstraint_values (task : Task) : In (timeConstraint task) [0; 10; 20].
Proof.
  unfold timeConstraint.
  destruct (max_minutes task) as [m|]; [|simpl; tauto].
  case_ifs; simpl; tauto.
Qed.

Lemma neglect_values (task : Task) (today : JSDate) :
  In (neglect task today) [0; 5; 10].
Proof.
  unfold neglect.
  destruct (updated_at task) as [lastUpdated|]; [|simpl; tauto].
  destruct (daysBetween today lastUpdated) as [daysSinceUpdate|]; [|simpl; tauto].
  case_ifs; simpl; tauto.
Qed.

(** C10: whatever the task and the date, each band adds one value of a
    fixed finite set (at most 40, 30, 20 and 10), so the priority is a
    multiple of 5 between 0 and 100. *)
Theorem calculatePriority_range (task : Task) (today : JSDate) :
  In (dueDateUrgency task today) [0; 10; 25; 35; 40]
  /\ In (nearCompletion task) [0; 15; 30]
  /\ In (timeConstraint task) [0; 10; 20]
  /\ In (neglect task today) [0; 5; 10]
  /\ 0 <= calculatePriority task today <= 100
  /\ (5 | calculatePriority task today).
Proof.
  pose proof (dueDateUrgency_values task today) as Hd.
  pose proof (nearCompletion_values task) as Hc.
  pose proof (timeConstraint_values task) as Ht.
  pose proof (neglect_values task today) as Hn.
  repeat (split; [assumption|]).
  rewrite calculatePriority_additive.
  assert (exists a, dueDateUrgency task today = 5 * a /\ 0 <= a <= 8) as [a [-> Ha]].
  { simpl in Hd. destruct Hd as [H|[H|[H|[H|[H|[]]]]]]; rewrite <- H;
      [exists 0|exists 2|exists 5|exists 7|exists 8]; lia. }
  assert (exists b, nearCompletion task = 5 * b /\ 0 <= b <= 6) as [b [-> Hb]].
  { simpl in Hc. destruct Hc as [H|[H|[H|[]]]]; rewrite <- H;
      [exists 0|exists 3|exists 6]; lia. }
  assert (exists c, timeConstraint task = 5 * c /\ 0 <= c <= 4) as [c [-> Hc']].
  { simpl in Ht. destruct Ht as [H|[H|[H|[]]]]; rewrite <- H;
      [exists 0|exists 2|exists 4]; lia. }
  assert (exists d, neglect task today = 5 * d /\ 0 <= d <= 2) as [d [-> Hd']].
  { simpl in Hn. destruct Hn as [H|[H|[H|[]]]]; rewrite <- H;
      [exists 0|exists 1|exists 2]; lia. }
  split; [lia|]. exists (a + b + c + d). lia.
Qed.

(** The bound 100 is reached: overdue, nearly complete, out of time and
    untouched for a week. *)
Example calculatePriority_reaches_100 :
  calculatePriority
    (mkTask HARD 90 "PLANNED" (Some 60) 58 (Some 60)
       (Some (Instant 0)) None (Some (Instant 0)))
    (Instant (7 * MS_PER_DAY)) = 100.
Proof. vm_compute. reflexivity. Qed.

(** An unparsable due date adds nothing: its time stamp is NaN and every
    comparison with it is false. *)
Example calculatePriority_invalid_due_date :
  calculatePriority
    (mkTask HARD 0 "BACKLOG" None 0 None (Some InvalidDate) None None)
    (Instant 0) = 0.
Proof. vm_compute. reflexivity. Qed.

End Priority.

(** ** assignToDay and unassignTask *)

Section DayAssignment.

Implicit Types (db : gmap string Task) (taskId date : string) (now : Z).

Lemma assignToDay_lookup db now taskId date :
  (assignToDay db now taskId date).2 = assignRow date now <$> db !! taskId
  /\ (assignToDay db now taskId date).1 !! taskId = assignRow date now <$> db !! taskId.
Proof. unfold assignToDay. cbn [fst snd]. rewrite lookup_alter_eq. split; reflexivity. Qed.

Lemma unassignTask_lookup db now taskId :
  (unassignTask db now taskId).2 = unassignRow now <$> db !! taskId
  /\ (unassignTask db now taskId).1 !! taskId = unassignRow now <$> db !! taskId.
Proof. unfold unassignTask. cbn [fst snd]. rewrite lookup_alter_eq. split; reflexivity. Qed.

(** C8: on a task in the backlog, [assignToDay] plans it for the date and
    [unassignTask] right after puts it back: status "BACKLOG", no planned
    date. Its other columns keep their values, [updated_at] apart, and no
    other row changes. *)
Theorem assignToDay_unassignTask_backlog db taskId date (now now' : Z) (task : Task) :
  db !! taskId = Some task ->
  status task = "BACKLOG"%string ->
  let assigned := assignToDay db now taskId date in
  let unassigned := unassignTask assigned.1 now' taskId in
  (exists planned,
      assigned.2 = Some planned
      /\ status planned = "PLANNED"%string
      /\ planned_for_date planned = Some date)
  /\ (exists restored,
        unassigned.2 = Some restored
        /\ unassigned.1 !! taskId = Some restored
        /\ status restored = "BACKLOG"%string
        /\ planned_for_date restored = None
        /\ restored
           = mkTask (difficulty task) (progress task) "BACKLOG"
               (estimated_minutes task) (actual_minutes task) (max_minutes task)
               (due_date task) None (Some (Instant now')))
  /\ (forall other, other <> taskId -> unassigned.1 !! other = db !! other).
Proof.
  intros Hrow Hstatus. cbv zeta.
  destruct (assignToDay_lookup db now taskId date) as [Hsel Hdb].
  destruct (unassignTask_lookup (assignToDay db now taskId date).1 now' taskId)
    as [Hsel' Hdb'].
  rewrite Hdb in Hsel', Hdb'. rewrite Hrow in Hsel, Hsel', Hdb'.
  cbn [fmap option_fmap option_map] in *.
  assert (status (assignRow date now task) = "PLANNED"%string) as Hplanned.
  { unfold assignRow. cbn [status]. rewrite Hstatus. reflexivity. }
  split; [|split].
  - exists (assignRow date now task). repeat split; [exact Hsel|exact Hplanned].
  - exists (unassignRow now' (assignRow date now task)).
    assert (unassignRow now' (assignRow date now task)
            = mkTask (difficulty task) (progress task) "BACKLOG"
                (estimated_minutes task) (actual_minutes task) (max_minutes task)
                (due_date task) None (Some (Instant now'))) as Heq.
    { unfold unassignRow. rewrite Hplanned. reflexivity. }
    split; [exact Hsel'|]. split; [exact Hdb'|].
    rewrite Heq. repeat split.
  - intros other Hother. unfold unassignTask, assignToDay. cbn [fst].
    rewrite !lookup_alter_ne by congruence. reflexivity.
Qed.

Lemma assignToDay_unassignTask_backlog_witness :
  let task := mkTask EASY 0 "BACKLOG" (Some 30) 0 None None None None in
  let db : gmap string Task := {[ "t1"%string := task ]} in
  let assigned := assignToDay db 1700000000000 "t1" "2023-11-15" in
  let unassigned := unassignTask assigned.1 1700000000001 "t1" in
  db !! "t1"%string = Some task
  /\ status task = "BACKLOG"%string
  /\ exists restored,
       unassigned.2 = Some restored
       /\ unassigned.1 !! "t1"%string = Some restored
       /\ status restored = "BACKLOG"%string
       /\ planned_for_date restored = None
       /\ restored
          = mkTask (difficulty task) (progress task) "BACKLOG"
              (estimated_minutes task) (actual_minutes task) (max_minutes task)
              (due_date task) None (Some (Instant 1700000000001)).
Proof.
  cbv zeta.
  assert (({[ "t1"%string := mkTask EASY 0 "BACKLOG" (Some 30) 0 None None None None ]}
             : gmap string Task) !! "t1"%string
          = Some (mkTask EASY 0 "BACKLOG" (Some 30) 0 None None None None)) as Hrow
    by (vm_compute; reflexivity).
  split; [exact Hrow|]. split; [reflexivity|].
  apply (assignToDay_unassignTask_backlog _ "t1"%string "2023-11-15"%string
           1700000000000 1700000000001 _ Hrow eq_refl).
Defined.

End DayAssignment.

(** * Further properties of the scoring module *)

Section ScoringFacts.

Local Open Scope Q_scope.

Lemma round_le (x y : Q) : x <= y -> (JS.round x <= JS.round y)%Z.
Proof.
  intros Hxy. unfold JS.round. apply Qfloor_resp_le. lra.
Qed.

Lemma percent_le (p p' : Z) : (p <= p')%Z -> inject_Z p / 100 <= inject_Z p' / 100.
Proof.
  intros Hp. apply Qmult_le_compat_r; [|discriminate].
  rewrite <- Zle_Qle. exact Hp.
Qed.

Lemma rawBasePoints_le_multiplier (task : Task) :
  (0 <= progress task <= 100)%Z ->
  0 <= rawBasePoints task <= inject_Z (DIFFICULTY_MULTIPLIERS (difficulty task)).
Proof.
  intros [Hlo Hhi]. unfold rawBasePoints.
  pose proof (percent_nonneg _ Hlo) as H0.
  pose proof (percent_le _ _ Hhi) as H1.
  change (inject_Z 100 / 100) with (100 / 100) in H1.
  assert (100 / 100 == 1) as E by reflexivity. rewrite E in H1. clear E.
  set (q := inject_Z (progress task) / 100) in *.
  destruct (difficulty task); simpl DIFFICULTY_MULTIPLIERS.
  all: match goal with |- context [inject_Z ?k * _] =>
         let v := eval cbv in (inject_Z k) in change (inject_Z k) with v end.
  all: split; lra.
Qed.

(** X1: A task with progress in [0,100] never earns more than 10 points, and
    when no bonus applies never more than its difficulty multiplier. *)
Theorem totalPoints_upper_bound (task : Task) (context : ScoringContext) :
  (0 <= progress task <= 100)%Z ->
  (totalPoints (calculateTaskScore task context) <= 10)%Z
  /\ (underEstimate task = false ->
      (taskTypesWorkedToday context < 3)%Z ->
      (totalPoints (calculateTaskScore task context)
       <= DIFFICULTY_MULTIPLIERS (difficulty task))%Z).
Proof.
  intros Hp. rewrite calculateTaskScore_locals. cbn [totalPoints].
  pose proof (rawBasePoints_le_multiplier task Hp) as [Hb0 Hb1].
  assert (inject_Z (DIFFICULTY_MULTIPLIERS (difficulty task)) <= 8) as Hm.
  { destruct (difficulty task); simpl; discriminate. }
  unfold rawEfficiencyBonus, rawFocusBonus. split.
  - change 10%Z with (JS.round (104 # 10)). apply round_le.
    destruct (underEstimate task), (taskTypesWorkedToday context >=? 3)%Z; lra.
  - intros -> Hfocus.
    destruct (Z.geb_spec (taskTypesWorkedToday context) 3) as [Hge|_]; [lia|].
    unfold JS.round. apply Z.lt_succ_r. rewrite Zlt_Qlt.
    eapply Qle_lt_trans; [apply Qfloor_le|].
    unfold Z.succ. rewrite inject_Z_plus. change (inject_Z 1) with 1. lra.
Qed.

Lemma totalPoints_upper_bound_witness :
  (totalPoints (calculateTaskScore Samples.hardUnderEstimate Samples.focused) <= 10)%Z
  /\ (totalPoints (calculateTaskScore Samples.trivialTenth Samples.noFocus)
      <= DIFFICULTY_MULTIPLIERS TRIVIAL)%Z.
Proof.
  split.
  - apply (totalPoints_upper_bound Samples.hardUnderEstimate Samples.focused).
    simpl; lia.
  - apply (totalPoints_upper_bound Samples.trivialTenth Samples.noFocus);
      [simpl; lia|reflexivity|simpl; lia].
Defined.

Lemma rawBasePoints_withProgress_le (task : Task) (p p' : Z) :
  (p <= p')%Z ->
  rawBasePoints (withProgress p task) <= rawBasePoints (withProgress p' task).
Proof.
  intros Hp. unfold rawBasePoints, withProgress. cbn [difficulty progress].
  pose proof (percent_le _ _ Hp) as Hq.
  set (q := inject_Z p / 100) in *. set (q' := inject_Z p' / 100) in *.
  destruct (difficulty task); simpl DIFFICULTY_MULTIPLIERS.
  all: match goal with |- context [inject_Z ?k * _] =>
         let v := eval cbv in (inject_Z k) in change (inject_Z k) with v end.
  all: lra.
Qed.

(** X2: Within [0,100], more progress on the same task never earns fewer
    points. *)
Theorem totalPoints_monotone_in_progress
    (task : Task) (context : ScoringContext) (p p' : Z) :
  (0 <= p)%Z -> (p <= p')%Z -> (p' <= 100)%Z ->
  (totalPoints (calculateTaskScore (withProgress p task) context)
   <= totalPoints (calculateTaskScore (withProgress p' task) context))%Z.
Proof.
  intros Hp0 Hpp Hp100.
  destruct (Z.eq_dec p p') as [->|Hne]; [lia|].
  rewrite !calculateTaskScore_locals. cbn [totalPoints]. apply round_le.
  pose proof (rawBasePoints_withProgress_le task p p' Hpp) as Hb.
  assert (0 <= rawBasePoints (withProgress p task)) as Hb0.
  { apply Qle_trans with (inject_Z (progress (withProgress p task)) / 100).
    - apply percent_nonneg. exact Hp0.
    - apply rawBasePoints_bounds. exact Hp0. }
  assert (underEstimate (withProgress p task) = false) as Hu.
  { unfold underEstimate, withProgress. cbn [progress].
    destruct (Z.eqb_spec p 100) as [E|_]; [lia|reflexivity]. }
  unfold rawEfficiencyBonus, rawFocusBonus. rewrite Hu.
  destruct (underEstimate (withProgress p' task)),
    (taskTypesWorkedToday context >=? 3)%Z; lra.
Qed.

Lemma totalPoints_monotone_in_progress_witness :
  (totalPoints (calculateTaskScore (withProgress 40 Samples.hardUnderEstimate) Samples.focused)
   <= totalPoints
        (calculateTaskScore (withProgress 100 Samples.hardUnderEstimate) Samples.focused))%Z.
Proof.
  apply (totalPoints_monotone_in_progress Samples.hardUnderEstimate Samples.focused 40 100);
    lia.
Defined.

(** X3: Working on more task types in the day never lowers the points of a
    task whose progress is not negative. *)
Theorem totalPoints_monotone_in_focus (task : Task) (context context' : ScoringContext) :
  (0 <= progress task)%Z ->
  (taskTypesWorkedToday context <= taskTypesWorkedToday context')%Z ->
  (totalPoints (calculateTaskScore task context)
   <= totalPoints (calculateTaskScore task context'))%Z.
Proof.
  intros Hp Hc. rewrite !calculateTaskScore_locals. cbn [totalPoints]. apply round_le.
  assert (0 <= rawBasePoints task) as Hb0.
  { apply Qle_trans with (inject_Z (progress task) / 100).
    - apply percent_nonneg. exact Hp.
    - apply rawBasePoints_bounds. exact Hp. }
  unfold rawFocusBonus.
  destruct (Z.geb_spec (taskTypesWorkedToday context) 3),
    (Z.geb_spec (taskTypesWorkedToday context') 3); try lra.
  lia.
Qed.

Lemma totalPoints_monotone_in_focus_witness :
  (totalPoints (calculateTaskScore Samples.hardUnderEstimate Samples.noFocus)
   <= totalPoints (calculateTaskScore Samples.hardUnderEstimate Samples.focused))%Z.
Proof.
  apply (totalPoints_monotone_in_focus Samples.hardUnderEstimate
           Samples.noFocus Samples.focused); simpl; lia.
Defined.

(** Each displayed component is a whole number of tenths within one
    twentieth of the value it rounds. *)
Theorem displayed_components_one_decimal (task : Task) (context : ScoringContext) :
  let score := calculateTaskScore task context in
  (exists k : Z, basePoints score == inject_Z k / 10)
  /\ (exists k : Z, efficiencyBonus score == inject_Z k / 10)
  /\ (exists k : Z, focusBonus score == inject_Z k / 10)
  /\ (basePoints score - (1 # 20) <= rawBasePoints task
      /\ rawBasePoints task < basePoints score + (1 # 20))
  /\ (efficiencyBonus score - (1 # 20) <= rawEfficiencyBonus task
      /\ rawEfficiencyBonus task < efficiencyBonus score + (1 # 20))
  /\ (focusBonus score - (1 # 20) <= rawFocusBonus task context
      /\ rawFocusBonus task context < focusBonus score + (1 # 20)).
Proof.
  cbv zeta. rewrite calculateTaskScore_locals.
  cbn [basePoints efficiencyBonus focusBonus].
  repeat (split; [eexists; reflexivity|]).
  pose proof (round_nearest (rawBasePoints task * 10)) as [Hb1 Hb2].
  pose proof (round_nearest (rawEfficiencyBonus task * 10)) as [He1 He2].
  pose proof (round_nearest (rawFocusBonus task context * 10)) as [Hf1 Hf2].
  unfold Qdiv. change (/ 10) with (1 # 10).
  repeat split; lra.
Qed.

End ScoringFacts.

Section EfficiencyFacts.

Local Open Scope Q_scope.


Lemma ratio_lt (n : Z) (d : positive) (e a : Z) :
  (0 < a)%Z -> (inject_Z e / inject_Z a < n # d <-> (e * Z.pos d < n * a)%Z).
Proof.
  intros Ha. destruct a as [|p|p]; try lia.
  unfold Qlt, Qdiv, Qmult, Qinv, inject_Z. cbn [Qnum Qden].
  rewrite Pos.mul_1_l. lia.
Qed.

Lemma ratio_gt (n : Z) (d : positive) (e a : Z) :
  (0 < a)%Z -> (n # d < inject_Z e / inject_Z a <-> (n * a < e * Z.pos d)%Z).
Proof.
  intros Ha. destruct a as [|p|p]; try lia.
  unfold Qlt, Qdiv, Qmult, Qinv, inject_Z. cbn [Qnum Qden].
  rewrite Pos.mul_1_l. lia.
Qed.

Lemma ratio_eq (n : Z) (d : positive) (e a : Z) :
  (0 < a)%Z -> (inject_Z e / inject_Z a == n # d <-> (e * Z.pos d = n * a)%Z).
Proof.
  intros Ha. destruct a as [|p|p]; try lia.
  unfold Qeq, Qdiv, Qmult, Qinv, inject_Z. cbn [Qnum Qden].
  rewrite Pos.mul_1_l. lia.
Qed.


Lemma calculateEfficiency_ratio (task : Task) (estimated : Z) :
  estimated_minutes task = Some estimated ->
  estimated <> 0%Z ->
  actual_minutes task <> 0%Z ->
  calculateEfficiency task = inject_Z estimated / inject_Z (actual_minutes task).
Proof.
  intros He Hne Hna. unfold calculateEfficiency, JS.truthy. rewrite He.
  destruct (Z.eqb_spec estimated 0) as [E|_]; [contradiction|].
  destruct (Z.eqb_spec (actual_minutes task) 0) as [E|_]; [contradiction|].
  reflexivity.
Qed.

(** X5: With a positive estimate and positive time spent, the rating is above 1
    exactly when the task took less than estimated, 1 when it took exactly
    the estimate, and below 1 when it took longer. *)
Theorem calculateEfficiency_reads_time (task : Task) (estimated : Z) :
  estimated_minutes task = Some estimated ->
  (0 < estimated)%Z ->
  (0 < actual_minutes task)%Z ->
  (1 < calculateEfficiency task <-> (actual_minutes task < estimated)%Z)
  /\ (calculateEfficiency task == 1 <-> actual_minutes task = estimated)
  /\ (calculateEfficiency task < 1 <-> (estimated < actual_minutes task)%Z).
Proof.
  intros He Hpos Ha.
  rewrite (calculateEfficiency_ratio task estimated He) by lia.
  pose proof (ratio_gt 1 1 estimated (actual_minutes task) Ha) as Hgt.
  pose proof (ratio_eq 1 1 estimated (actual_minutes task) Ha) as Heq.
  pose proof (ratio_lt 1 1 estimated (actual_minutes task) Ha) as Hlt.
  change (1 # 1) with 1 in Hgt, Heq, Hlt.
  rewrite Hgt, Heq, Hlt. lia.
Qed.

Lemma calculateEfficiency_reads_time_witness :
  1 < calculateEfficiency Samples.hardUnderEstimate.
Proof.
  apply (calculateEfficiency_reads_time Samples.hardUnderEstimate 60);
    [reflexivity|lia|simpl; lia|simpl; lia].
Defined.



End EfficiencyFacts.

(** Case analysis on the integer tests of [getTrendLabel], closed by linear
    arithmetic. *)
Ltac trend_cases :=
  repeat match goal with
         | |- context [(?x >? ?y)%Z] => destruct (Z.gtb_spec x y)
         | |- context [(?x =? ?y)%Z] => destruct (Z.eqb_spec x y)
         end;
  first [reflexivity | exfalso; lia].

Section TrendFacts.

Local Open Scope Q_scope.

Lemma round_ge_iff (x : Q) (k : Z) :
  (k <= JS.round x)%Z <-> inject_Z k - (1 # 2) <= x.
Proof.
  unfold JS.round. split.
  - intros Hk. rewrite Zle_Qle in Hk.
    pose proof (Qfloor_le (x + (1 # 2))) as Hfloor. lra.
  - intros Hx. rewrite <- (Qfloor_Z k). apply Qfloor_resp_le. lra.
Qed.

Lemma getTrendLabel_comp (trend trend' : Q) :
  trend == trend' -> getTrendLabel trend = getTrendLabel trend'.
Proof.
  intros Heq. unfold getTrendLabel, JS.round.
  assert (Qfloor ((trend - 1) * 100 + (1 # 2)) = Qfloor ((trend' - 1) * 100 + (1 # 2)))
    as -> by (apply Qfloor_comp; rewrite Heq; reflexivity).
  reflexivity.
Qed.

(** The bands of the label, read on the trend itself: from 1.205 up the
    "great focus" message, from 1.005 the plain above-average one, from
    0.995 "Right on your average", from 0.805 the plain below-average one,
    and under 0.805 the "take it easy" message. *)
Theorem getTrendLabel_thresholds (trend : Q) :
  let percentage := JS.round ((trend - 1) * 100) in
  (1.205 <= trend ->
   getTrendLabel trend
   = (JS.toString percentage ++ "% above your average—great focus today!")%string)
  /\ (1.005 <= trend -> trend < 1.205 ->
      getTrendLabel trend = (JS.toString percentage ++ "% above your average")%string)
  /\ (0.995 <= trend -> trend < 1.005 ->
      getTrendLabel trend = "Right on your average"%string)
  /\ (0.805 <= trend -> trend < 0.995 ->
      getTrendLabel trend
      = (JS.toString (Z.abs percentage) ++ "% below your average")%string)
  /\ (trend < 0.805 ->
      getTrendLabel trend
      = (JS.toString (Z.abs percentage) ++ "% below your average—take it easy")%string).
Proof.
  cbv zeta. unfold getTrendLabel.
  pose proof (round_ge_iff ((trend - 1) * 100) 21) as H21.
  pose proof (round_ge_iff ((trend - 1) * 100) 1) as H1.
  pose proof (round_ge_iff ((trend - 1) * 100) 0) as H0.
  pose proof (round_ge_iff ((trend - 1) * 100) (-19)) as Hm.
  change (inject_Z 21) with 21 in H21. change (inject_Z 1) with 1 in H1.
  change (inject_Z 0) with 0 in H0. change (inject_Z (-19)) with (-19 # 1) in Hm.
  set (percentage := JS.round ((trend - 1) * 100)) in *.
  assert ((21 <= percentage)%Z <-> 1.205 <= trend) as T21 by (rewrite H21; split; lra).
  assert ((1 <= percentage)%Z <-> 1.005 <= trend) as T1 by (rewrite H1; split; lra).
  assert ((0 <= percentage)%Z <-> 0.995 <= trend) as T0 by (rewrite H0; split; lra).
  assert ((-19 <= percentage)%Z <-> 0.805 <= trend) as Tm by (rewrite Hm; split; lra).
  clear H21 H1 H0 Hm.
  assert (forall P : Prop, (P <-> 1.205 <= trend) -> trend < 1.205 -> ~ P) as N21
    by (intros P HP Hlt HPp; apply HP in HPp; lra).
  assert (forall P : Prop, (P <-> 1.005 <= trend) -> trend < 1.005 -> ~ P) as N1
    by (intros P HP Hlt HPp; apply HP in HPp; lra).
  assert (forall P : Prop, (P <-> 0.995 <= trend) -> trend < 0.995 -> ~ P) as N0
    by (intros P HP Hlt HPp; apply HP in HPp; lra).
  assert (forall P : Prop, (P <-> 0.805 <= trend) -> trend < 0.805 -> ~ P) as Nm
    by (intros P HP Hlt HPp; apply HP in HPp; lra).
  split; [|split; [|split; [|split]]].
  - intros Ha. apply T21 in Ha. trend_cases.
  - intros Ha Hb. apply T1 in Ha. pose proof (N21 _ T21 Hb). trend_cases.
  - intros Ha Hb. apply T0 in Ha. pose proof (N1 _ T1 Hb). trend_cases.
  - intros Ha Hb. apply Tm in Ha. pose proof (N0 _ T0 Hb). trend_cases.
  - intros Hb. pose proof (Nm _ Tm Hb). trend_cases.
Qed.

Lemma getTrendLabel_thresholds_witness :
  getTrendLabel 1.5 = "50% above your average—great focus today!"%string
  /\ getTrendLabel 1.1 = "10% above your average"%string
  /\ getTrendLabel 0.999 = "Right on your average"%string
  /\ getTrendLabel 0.9 = "10% below your average"%string
  /\ getTrendLabel 0.5 = "50% below your average—take it easy"%string.
Proof.
  destruct (getTrendLabel_thresholds 1.5) as [Hgreat _].
  destruct (getTrendLabel_thresholds 1.1) as [_ [Habove _]].
  destruct (getTrendLabel_thresholds 0.999) as [_ [_ [Hon _]]].
  destruct (getTrendLabel_thresholds 0.9) as [_ [_ [_ [Hbelow _]]]].
  destruct (getTrendLabel_thresholds 0.5) as [_ [_ [_ [_ Heasy]]]].
  split; [apply Hgreat; discriminate|].
  split; [apply Habove; [discriminate|reflexivity]|].
  split; [apply Hon; [discriminate|reflexivity]|].
  split; [apply Hbelow; [discriminate|reflexivity]|].
  apply Heasy; reflexivity.
Defined.

(** When today's score equals the average the label is "Right on your
    average", be the average zero or not. *)
Theorem getTrendLabel_of_equal_scores (todayScore averageScore : Q) :
  todayScore == averageScore ->
  getTrendLabel (calculateTrend todayScore averageScore) = "Right on your average"%string.
Proof.
  intros Heq. unfold calculateTrend.
  destruct (Qeq_bool averageScore 0) eqn:Hz; [reflexivity|].
  apply Qeq_bool_neq in Hz.
  rewrite (getTrendLabel_comp (todayScore / averageScore) 1); [reflexivity|].
  rewrite Heq. apply Qmult_inv_r. exact Hz.
Qed.

Lemma getTrendLabel_of_equal_scores_witness :
  getTrendLabel (calculateTrend (14 # 2) 7) = "Right on your average"%string.
Proof.
  apply (getTrendLabel_of_equal_scores (14 # 2) 7). reflexivity.
Defined.

End TrendFacts.

Section DailyScoreFacts.

Lemma taskPoints_range (context : ScoringContext) (task : Task) :
  0 <= progress task <= 100 -> 0 <= taskPoints context task <= 10.
Proof.
  intros Hp. unfold taskPoints. rewrite calculateTaskScore_locals. cbn [totalPoints].
  pose proof (rawBasePoints_le_multiplier task Hp) as [Hb0 Hb1].
  assert (inject_Z (DIFFICULTY_MULTIPLIERS (difficulty task)) <= 8)%Q as Hm.
  { destruct (difficulty task); simpl; discriminate. }
  unfold rawEfficiencyBonus, rawFocusBonus. split.
  - apply round_nonneg.
    destruct (underEstimate task), (taskTypesWorkedToday context >=? 3); lra.
  - change 10 with (JS.round (104 # 10)). apply round_le.
    destruct (underEstimate task), (taskTypesWorkedToday context >=? 3); lra.
Qed.

(** X7: The score of two lists of tasks put together is the sum of their
    scores; and a day of tasks with progress in [0,100] scores between 0 and
    ten points a task. *)
Theorem calculateDailyScore_app (context : ScoringContext) (tasks tasks' : list Task) :
  calculateDailyScore (tasks ++ tasks') context
  = calculateDailyScore tasks context + calculateDailyScore tasks' context
  /\ (Forall (fun task => 0 <= progress task <= 100) tasks ->
      0 <= calculateDailyScore tasks context <= 10 * Z.of_nat (length tasks)).
Proof.
  split.
  - rewrite !calculateDailyScore_sum, map_app, fold_right_app.
    generalize (fold_right Z.add 0 (map (taskPoints context) tasks')) as rest.
    induction tasks as [|task l IH]; intros rest; simpl; [lia|].
    rewrite IH. lia.
  - intros Hall. rewrite calculateDailyScore_sum.
    induction Hall as [|task l Hp _ IH]; simpl; [lia|].
    pose proof (taskPoints_range context task Hp). lia.
Qed.

Lemma calculateDailyScore_app_witness :
  let tasks := [Samples.hardUnderEstimate; Samples.trivialTenth] in
  Forall (fun task => 0 <= progress task <= 100) tasks
  /\ 0 <= calculateDailyScore tasks Samples.focused <= 10 * Z.of_nat (length tasks).
Proof.
  cbv zeta.
  assert (Forall (fun task => 0 <= progress task <= 100)
            [Samples.hardUnderEstimate; Samples.trivialTenth]) as Hall.
  { repeat constructor; simpl; lia. }
  split; [exact Hall|].
  apply (calculateDailyScore_app Samples.focused _ []). exact Hall.
Defined.

End DailyScoreFacts.

(** * Further properties of the planning module *)

Section DayAssignmentFacts.

Implicit Types (db : gmap string Task) (taskId date : string) (now : Z).

(** On an id that the table does not hold, [assignToDay], [unassignTask] and
    [rescheduleTask] change nothing and return no row. *)
Theorem assignment_of_missing_task db now taskId date :
  db !! taskId = None ->
  assignToDay db now taskId date = (db, None)
  /\ unassignTask db now taskId = (db, None)
  /\ rescheduleTask db now taskId date = (db, None).
Proof.
  intros Hnone. unfold rescheduleTask, assignToDay, unassignTask.
  rewrite !alter_id' by exact Hnone. rewrite Hnone. repeat split.
Qed.

Lemma assignment_of_missing_task_witness :
  assignToDay (∅ : gmap string Task) 0 "t1" "2024-01-15" = (∅, None).
Proof.
  apply (assignment_of_missing_task ∅ 0 "t1"%string "2024-01-15"%string).
  apply lookup_empty.
Defined.

(** X8: [assignToDay] followed by [unassignTask], on a task of any status: the
    planned date is gone, and the status is the original one except that a
    task that was "PLANNED" ends in "BACKLOG" like one that was "BACKLOG". *)
Theorem assign_then_unassign_status db taskId date (now now' : Z) (task : Task) :
  db !! taskId = Some task ->
  let unassigned := unassignTask (assignToDay db now taskId date).1 now' taskId in
  exists restored,
    unassigned.2 = Some restored
    /\ planned_for_date restored = None
    /\ status restored
       = (if String.eqb (status task) "BACKLOG" || String.eqb (status task) "PLANNED"
          then "BACKLOG"%string
          else status task).
Proof.
  intros Hrow. cbv zeta.
  destruct (assignToDay_lookup db now taskId date) as [_ Hdb].
  destruct (unassignTask_lookup (assignToDay db now taskId date).1 now' taskId)
    as [Hsel _].
  rewrite Hdb, Hrow in Hsel. cbn [fmap option_fmap option_map] in Hsel.
  exists (unassignRow now' (assignRow date now task)).
  split; [exact Hsel|]. split; [reflexivity|].
  unfold unassignRow, assignRow. cbn [status].
  destruct (String.eqb (status task) "BACKLOG"); reflexivity.
Qed.

Lemma assign_then_unassign_status_witness :
  let task := mkTask EASY 40 "PLANNED" None 0 None None (Some "2024-01-10"%string) None in
  let db : gmap string Task := {[ "t1"%string := task ]} in
  exists restored,
    (unassignTask (assignToDay db 5 "t1" "2024-01-15").1 6 "t1").2 = Some restored
    /\ planned_for_date restored = None
    /\ status restored = "BACKLOG"%string.
Proof.
  cbv zeta.
  apply (assign_then_unassign_status
           {[ "t1"%string :=
                mkTask EASY 40 "PLANNED" None 0 None None (Some "2024-01-10"%string) None ]}
           "t1"%string "2024-01-15"%string 5 6
           (mkTask EASY 40 "PLANNED" None 0 None None (Some "2024-01-10"%string) None)).
  vm_compute. reflexivity.
Defined.

(** X9: Assigning a task again, or rescheduling it, leaves the table as one
    assignment to the later date at the later time would. *)
Theorem rescheduleTask_overwrites db taskId (date date' : string) (now now' : Z) :
  rescheduleTask (assignToDay db now taskId date).1 now' taskId date'
  = assignToDay db now' taskId date'.
Proof.
  unfold rescheduleTask, assignToDay. cbn [fst].
  assert (alter (assignRow date' now') taskId (alter (assignRow date now) taskId db)
          = alter (assignRow date' now') taskId db) as ->.
  { rewrite alter_alter_eq. apply alter_ext. intros row _.
    unfold assignRow, compose.
    cbn [difficulty progress status estimated_minutes actual_minutes max_minutes due_date].
    destruct (String.eqb (status row) "BACKLOG") eqn:Hb; [reflexivity|].
    rewrite Hb. reflexivity. }
  reflexivity.
Qed.

(** X10: The row that [assignToDay] or [unassignTask] writes scores and rates as
    the row it replaces, and is not neglected: until two days after the
    write its neglect band adds nothing. *)
Theorem assignment_keeps_score_and_clears_neglect
    (date : string) (now today : Z) (task : Task) (context : ScoringContext) :
  now <= today <= now + 2 * MS_PER_DAY ->
  (calculateTaskScore (assignRow date now task) context = calculateTaskScore task context
   /\ calculateEfficiency (assignRow date now task) = calculateEfficiency task
   /\ neglect (assignRow date now task) (Instant today) = 0)
  /\ (calculateTaskScore (unassignRow now task) context = calculateTaskScore task context
      /\ calculateEfficiency (unassignRow now task) = calculateEfficiency task
      /\ neglect (unassignRow now task) (Instant today) = 0).
Proof.
  intros Htoday.
  assert (forall d, daysBetween (Instant today) (Instant now) = Some d -> d <= 2) as Hd.
  { intros d Hsome. unfold daysBetween, JS.getTime, JS.ceil in Hsome.
    injection Hsome as <-.
    change 2 with (Qceiling (inject_Z 2)). apply Qceiling_resp_le.
    apply Qle_shift_div_r; [reflexivity|].
    rewrite <- inject_Z_mult, <- Zle_Qle. lia. }
  assert (forall row, updated_at row = Some (Instant now) ->
                      neglect row (Instant today) = 0) as Hneglect.
  { intros row Hrow. unfold neglect. rewrite Hrow.
    destruct (daysBetween (Instant today) (Instant now)) as [d|] eqn:Hdays;
      [|reflexivity].
    specialize (Hd d eq_refl).
    destruct (Z.geb_spec d 7); [lia|]. destruct (Z.geb_spec d 3); [lia|reflexivity]. }
  repeat split; try reflexivity; apply Hneglect; reflexivity.
Qed.

Lemma assignment_keeps_score_and_clears_neglect_witness :
  neglect (assignRow "2024-01-15" 1000 Samples.hardUnderEstimate)
    (Instant (1000 + MS_PER_DAY)) = 0.
Proof.
  apply (assignment_keeps_score_and_clears_neglect "2024-01-15"%string 1000
           (1000 + MS_PER_DAY) Samples.hardUnderEstimate Samples.focused).
  vm_compute. split; discriminate.
Defined.

End DayAssignmentFacts.

Section PriorityFacts.

Lemma ceil_le_iff (q : Q) (k : Z) : JS.ceil q <= k <-> (q <= inject_Z k)%Q.
Proof.
  unfold JS.ceil. split.
  - intros Hk. rewrite Zle_Qle in Hk.
    apply Qle_trans with (inject_Z (Qceiling q)); [apply Qle_ceiling|exact Hk].
  - intros Hq. rewrite <- (Qceiling_Z k). apply Qceiling_resp_le. exact Hq.
Qed.

Lemma ratio_le_r (n : Z) (d : positive) (e a : Z) :
  0 < a -> (inject_Z e / inject_Z a <= n # d)%Q <-> e * Z.pos d <= n * a.
Proof.
  intros Ha. destruct a as [|p|p]; try lia.
  unfold Qle, Qdiv, Qmult, Qinv, inject_Z. cbn [Qnum Qden].
  rewrite Pos.mul_1_l. lia.
Qed.

Lemma days_le_iff (x y k : Z) :
  JS.ceil (inject_Z (x - y) / inject_Z MS_PER_DAY) <= k <-> x - y <= k * MS_PER_DAY.
Proof.
  rewrite ceil_le_iff. change (inject_Z k) with (k # 1).
  rewrite ratio_le_r by reflexivity. lia.
Qed.

(** Case analysis on the integer tests of a band, after turning each day
    count into a bound on the milliseconds. *)
Ltac band_cases :=
  repeat match goal with
         | |- context [(?x <=? ?y)%Z] => destruct (Z.leb_spec x y)
         | |- context [(?x >=? ?y)%Z] => destruct (Z.geb_spec x y)
         | |- context [(?x =? ?y)%Z] => destruct (Z.eqb_spec x y)
         end;
  first [reflexivity | lia].

(** X11: The due-date band, read on the time left until a valid due date: 40
    when none is left, 35 within a day, 25 within seven days, 10 within
    thirty, and nothing beyond. *)
Theorem dueDateUrgency_by_time_left (task : Task) (due today : Z) :
  due_date task = Some (Instant due) ->
  dueDateUrgency task (Instant today)
  = (if due - today <=? 0 then 40
     else if due - today <=? MS_PER_DAY then 35
     else if due - today <=? 7 * MS_PER_DAY then 25
     else if due - today <=? 30 * MS_PER_DAY then 10
     else 0).
Proof.
  intros Hdue. unfold dueDateUrgency. rewrite Hdue.
  unfold daysBetween, JS.getTime.
  pose proof (days_le_iff due today 0) as H0.
  pose proof (days_le_iff due today 1) as H1.
  pose proof (days_le_iff due today 7) as H7.
  pose proof (days_le_iff due today 30) as H30.
  set (days := JS.ceil (inject_Z (due - today) / inject_Z MS_PER_DAY)) in *.
  set (left := due - today) in *.
  unfold MS_PER_DAY in *.
  band_cases.
Qed.

Lemma dueDateUrgency_by_time_left_witness :
  dueDateUrgency
    (mkTask EASY 0 "PLANNED" None 0 None (Some (Instant 90000000)) None None)
    (Instant 100) = 25.
Proof.
  apply (dueDateUrgency_by_time_left
           (mkTask EASY 0 "PLANNED" None 0 None (Some (Instant 90000000)) None None)
           90000000 100).
  reflexivity.
Defined.

(** The neglect band, read on the time since a valid last update: because
    the day count is rounded up, 10 is added as soon as more than six days
    have passed and 5 as soon as more than two have. *)
Theorem neglect_by_time_elapsed (task : Task) (updated today : Z) :
  updated_at task = Some (Instant updated) ->
  neglect task (Instant today)
  = (if today - updated >? 6 * MS_PER_DAY then 10
     else if today - updated >? 2 * MS_PER_DAY then 5
     else 0).
Proof.
  intros Hupd. unfold neglect. rewrite Hupd.
  unfold daysBetween, JS.getTime.
  pose proof (days_le_iff today updated 6) as H6.
  pose proof (days_le_iff today updated 2) as H2.
  set (days := JS.ceil (inject_Z (today - updated) / inject_Z MS_PER_DAY)) in *.
  set (elapsed := today - updated) in *.
  unfold MS_PER_DAY in *.
  destruct (Z.gtb_spec elapsed (6 * (1000 * 60 * 60 * 24)));
    [|destruct (Z.gtb_spec elapsed (2 * (1000 * 60 * 60 * 24)))];
    band_cases.
Qed.

Lemma neglect_by_time_elapsed_witness :
  neglect
    (mkTask EASY 0 "PLANNED" None 0 None None None (Some (Instant 0)))
    (Instant (6 * MS_PER_DAY + 1)) = 10.
Proof.
  apply (neglect_by_time_elapsed
           (mkTask EASY 0 "PLANNED" None 0 None None None (Some (Instant 0)))
           0 (6 * MS_PER_DAY + 1)).
  reflexivity.
Defined.





(** When [today] is an invalid date only progress and the time budget
    count: the due-date and neglect bands add nothing. *)
Theorem calculatePriority_invalid_today (task : Task) :
  calculatePriority task InvalidDate = nearCompletion task + timeConstraint task.
Proof.
  rewrite calculatePriority_additive.
  unfold dueDateUrgency, neglect, daysBetween, JS.getTime.
  destruct (due_date task) as [[due|]|], (updated_at task) as [[upd|]|]; lia.
Qed.

End PriorityFacts.

(** * Properties of the permission functions *)

Section PermissionFacts.

Import Permissions.

(** [Math.round] of a quotient of integers, as an integer division. *)
Lemma round_quotient (n d : Z) :
  0 < d -> JS.round (inject_Z n / inject_Z d) = (2 * n + d) / (2 * d).
Proof.
  intros Hd. unfold JS.round. rewrite Zdiv_Qdiv. apply Qfloor_comp.
  rewrite !inject_Z_plus, !inject_Z_mult. change (inject_Z 2) with 2%Q.
  field. intros H0. apply (Qlt_irrefl 0). rewrite <- H0 at 2.
  rewrite <- (Zlt_Qlt 0). exact Hd.
Qed.

(** [hasFeature] reads a flag as it is, and a limit as a flag: only the
    limit 1 counts as having the feature; an unlimited ([null]) limit, the
    limit 0 and every limit above 1 do not, and neither does a text field. *)
Theorem hasFeature_on_limits (role : Role) :
  (hasFeature role K_max_workspaces = true <-> max_workspaces role = Some 1)
  /\ (hasFeature role K_max_projects = true <-> max_projects role = Some 1)
  /\ (hasFeature role K_max_team_members = true <-> max_team_members role = Some 1)
  /\ (hasFeature role K_max_api_calls_per_day = true
      <-> max_api_calls_per_day role = Some 1)
  /\ (hasFeature role K_max_storage_mb = true <-> max_storage_mb role = Some 1)
  /\ hasFeature role K_cloud_sync = cloud_sync role
  /\ hasFeature role K_is_legacy = is_legacy role
  /\ hasFeature role K_name = false.
Proof.
  assert (forall limit : option Z,
             match ofLimit limit with
             | VBoolean b => b
             | VNumber n => if (n =? 0) || (n =? 1) then n =? 1 else false
             | _ => false
             end = true <-> limit = Some 1) as Hlimit.
  { intros [n|]; cbn [ofLimit]; [|split; discriminate].
    destruct (Z.eqb_spec n 0) as [->|H0]; cbn [orb].
    - split; discriminate.
    - destruct (Z.eqb_spec n 1) as [->|H1]; split; try reflexivity; try discriminate.
      intros [= E]. contradiction. }
  unfold hasFeature. cbn [field].
  repeat split; try apply Hlimit; intros H; apply Hlimit; exact H.
Qed.

(** X14: A resource can be created exactly when some quota remains; the
    remaining quota is never negative, and it is unlimited exactly when the
    role sets no limit. *)
Theorem canCreateResource_iff_quota_remains
    (role : Role) (limitField : LimitField) (currentCount : Z) :
  (canCreateResource role limitField currentCount = true
   <-> getRemainingQuota role limitField currentCount <> Remaining 0)
  /\ (forall n, getRemainingQuota role limitField currentCount = Remaining n -> 0 <= n)
  /\ (getRemainingQuota role limitField currentCount = Unlimited
      <-> limitOf role limitField = None).
Proof.
  unfold canCreateResource, getRemainingQuota.
  destruct (limitOf role limitField) as [limit|].
  - split; [|split].
    + rewrite Z.ltb_lt. split.
      * intros Hlt [= E]. lia.
      * intros Hne. destruct (Z.lt_ge_cases currentCount limit) as [L|G]; [exact L|].
        exfalso. apply Hne. f_equal. lia.
    + intros n [= <-]. lia.
    + split; discriminate.
  - split; [|split].
    + split; [discriminate|reflexivity].
    + discriminate.
    + split; reflexivity.
Qed.

(** X15: The monthly price of a yearly subscription, times twelve, is within
    6 cents of the yearly price; a lifetime subscription costs nothing a
    month; and when the stored price is not negative the monthly price lies
    between 0 and it. *)
Theorem getEffectiveMonthlyPrice_bounds (subscription : UserSubscription) :
  let monthly := getEffectiveMonthlyPrice subscription in
  (billing_period subscription = "yearly"%string ->
   price_cents subscription - 6 < 12 * monthly <= price_cents subscription + 6)
  /\ (billing_period subscription = "lifetime"%string -> monthly = 0)
  /\ (0 <= price_cents subscription -> 0 <= monthly <= price_cents subscription).
Proof.
  cbv zeta. unfold getEffectiveMonthlyPrice.
  change 12%Q with (inject_Z 12). rewrite round_quotient by lia.
  split; [|split].
  - intros ->. rewrite String.eqb_refl. Z.div_mod_to_equations. lia.
  - intros ->. reflexivity.
  - intros Hp.
    destruct (String.eqb (billing_period subscription) "yearly").
    + Z.div_mod_to_equations. lia.
    + destruct (String.eqb (billing_period subscription) "lifetime"); lia.
Qed.

Lemma getEffectiveMonthlyPrice_bounds_witness :
  let subscription := mkUserSubscription "active" 9900 "yearly" (VBoolean false) None in
  9900 - 6 < 12 * getEffectiveMonthlyPrice subscription <= 9900 + 6.
Proof.
  cbv zeta.
  destruct (getEffectiveMonthlyPrice_bounds
              (mkUserSubscription "active" 9900 "yearly" (VBoolean false) None))
    as [Hyearly _].
  apply Hyearly. reflexivity.
Defined.

Lemma hasFeature_on_limits_witness :
  let role :=
    mkRole "role_pro" "PRO" "Pro" None true true false true false false false false false
      (Some 1) (Some 10) None None (Some 500) true false "2024-01-01" "2024-01-01" in
  hasFeature role K_max_workspaces = true.
Proof.
  cbv zeta.
  destruct (hasFeature_on_limits
              (mkRole "role_pro" "PRO" "Pro" None true true false true false false false
                 false false (Some 1) (Some 10) None None (Some 500) true false
                 "2024-01-01" "2024-01-01")) as [Hone _].
  apply Hone. reflexivity.
Defined.

Lemma canCreateResource_iff_quota_remains_witness :
  let role :=
    mkRole "role_free" "FREE" "Free" None false false false false false false false false
      false (Some 1) (Some 3) (Some 1) None None true false "2024-01-01" "2024-01-01" in
  canCreateResource role L_max_projects 2 = true.
Proof.
  cbv zeta.
  apply (canCreateResource_iff_quota_remains
           (mkRole "role_free" "FREE" "Free" None false false false false false false
              false false false (Some 1) (Some 3) (Some 1) None None true false
              "2024-01-01" "2024-01-01") L_max_projects 2).
  vm_compute. discriminate.
Defined.

Lemma indexOf_tier_range (x : string) : -1 <= indexOf tierOrder x <= 3.
Proof.
  unfold indexOf, tierOrder. cbn [indexFrom].
  repeat match goal with |- context [String.eqb ?a ?b] => destruct (String.eqb a b) end;
    lia.
Qed.

(** X16: An upgrade is never also a downgrade and never goes both ways; roles
    of the same family, whose names agree before the first underscore, can
    be neither upgraded nor downgraded to one another; and a granted upgrade
    can be undone by a downgrade as long as the role left is still active. *)
Theorem canUpgradeTo_is_strict (currentRole targetRole : Role) :
  (canUpgradeTo currentRole targetRole = true ->
   canDowngradeTo currentRole targetRole = false
   /\ canUpgradeTo targetRole currentRole = false
   /\ (is_active currentRole = true -> canDowngradeTo targetRole currentRole = true))
  /\ (beforeUnderscore (name currentRole) = beforeUnderscore (name targetRole) ->
      canUpgradeTo currentRole targetRole = false
      /\ canDowngradeTo currentRole targetRole = false).
Proof.
  unfold canUpgradeTo, canDowngradeTo. cbv zeta.
  set (i := indexOf tierOrder (beforeUnderscore (name currentRole))).
  set (j := indexOf tierOrder (beforeUnderscore (name targetRole))).
  rewrite (String.eqb_sym (id targetRole) (id currentRole)).
  split.
  - destruct (String.eqb (id currentRole) (id targetRole)); [discriminate|].
    destruct (is_active targetRole); cbn [negb]; [|discriminate].
    destruct (is_legacy targetRole); [discriminate|].
    intros Hgt. apply Z.gtb_lt in Hgt.
    split; [apply Z.ltb_ge; lia|]. split.
    + destruct (negb (is_active currentRole)); [reflexivity|].
      destruct (is_legacy currentRole); [reflexivity|].
      rewrite Z.gtb_ltb. apply Z.ltb_ge. lia.
    + intros ->. cbn [negb]. apply Z.ltb_lt. lia.
  - intros Hsame. assert (i = j) as -> by (unfold i, j; rewrite Hsame; reflexivity).
    rewrite Z.gtb_ltb, Z.ltb_irrefl.
    split.
    + destruct (String.eqb (id currentRole) (id targetRole)); [reflexivity|].
      destruct (negb (is_active targetRole)); [reflexivity|].
      destruct (is_legacy targetRole); reflexivity.
    + destruct (String.eqb (id currentRole) (id targetRole)); [reflexivity|].
      destruct (negb (is_active targetRole)); reflexivity.
Qed.

Lemma canUpgradeTo_is_strict_witness :
  let free :=
    mkRole "role_free" "FREE" "Free" None false false false false false false false false
      false (Some 1) (Some 3) (Some 1) None None true false "2024-01-01" "2024-01-01" in
  let team :=
    mkRole "role_team" "TEAM" "Team" None true true true true true false false false false
      None None (Some 25) None None true false "2024-01-01" "2024-01-01" in
  canDowngradeTo free team = false /\ canDowngradeTo team free = true.
Proof.
  cbv zeta.
  destruct (canUpgradeTo_is_strict
              (mkRole "role_free" "FREE" "Free" None false false false false false false
                 false false false (Some 1) (Some 3) (Some 1) None None true false
                 "2024-01-01" "2024-01-01")
              (mkRole "role_team" "TEAM" "Team" None true true true true true false false
                 false false None None (Some 25) None None true false
                 "2024-01-01" "2024-01-01"))
    as [Hup _].
  destruct (Hup eq_refl) as [Hno [_ Hback]].
  split; [exact Hno|apply Hback; reflexivity].
Defined.

(** X17: A role whose name is in no tier ranks below FREE: it can be upgraded
    to every active, current role of a known tier, and every role of a known
    tier can be downgraded to it while it is active. *)
Theorem canUpgradeTo_from_unknown_tier (currentRole targetRole : Role) :
  ~ In (beforeUnderscore (name currentRole)) tierOrder ->
  In (beforeUnderscore (name targetRole)) tierOrder ->
  id currentRole <> id targetRole ->
  (is_active targetRole = true -> is_legacy targetRole = false ->
   canUpgradeTo currentRole targetRole = true)
  /\ (is_active currentRole = true -> canDowngradeTo targetRole currentRole = true).
Proof.
  intros Hunknown Hknown Hid.
  assert (indexOf tierOrder (beforeUnderscore (name currentRole)) = -1) as Hi.
  { revert Hunknown. generalize (beforeUnderscore (name currentRole)) as x. intros x.
    unfold indexOf, tierOrder. cbn [indexFrom In].
    repeat match goal with
           | |- context [String.eqb ?a ?b] => destruct (String.eqb_spec a b)
           end; intros H; try reflexivity; exfalso; apply H; tauto. }
  assert (0 <= indexOf tierOrder (beforeUnderscore (name targetRole))) as Hj.
  { revert Hknown. generalize (beforeUnderscore (name targetRole)) as x. intros x.
    unfold indexOf, tierOrder. cbn [indexFrom In].
    repeat match goal with
           | |- context [String.eqb ?a ?b] => destruct (String.eqb_spec a b)
           end; intros H; try lia.
    exfalso. destruct H as [H|[H|[H|[H|[]]]]]; congruence. }
  unfold canUpgradeTo, canDowngradeTo. cbv zeta. rewrite Hi.
  split.
  - intros -> ->. cbn [negb].
    destruct (String.eqb_spec (id currentRole) (id targetRole)); [contradiction|].
    apply Z.gtb_lt. lia.
  - intros ->. cbn [negb].
    destruct (String.eqb_spec (id targetRole) (id currentRole)); [congruence|].
    apply Z.ltb_lt. lia.
Qed.

Lemma canUpgradeTo_from_unknown_tier_witness :
  let custom :=
    mkRole "role_beta" "BETA_TESTER" "Beta" None true true true true true false false false
      false None None None None None true false "2024-01-01" "2024-01-01" in
  let free :=
    mkRole "role_free" "FREE" "Free" None false false false false false false false false
      false (Some 1) (Some 3) (Some 1) None None true false "2024-01-01" "2024-01-01" in
  canUpgradeTo custom free = true /\ canDowngradeTo free custom = true.
Proof.
  cbv zeta.
  assert (~ In (beforeUnderscore "BETA_TESTER") tierOrder) as Hunknown.
  { vm_compute. intros [H|[H|[H|[H|[]]]]]; discriminate H. }
  assert (In (beforeUnderscore "FREE") tierOrder) as Hknown by (left; reflexivity).
  assert ("role_beta" <> "role_free")%string as Hid by discriminate.
  destruct (canUpgradeTo_from_unknown_tier
              (mkRole "role_beta" "BETA_TESTER" "Beta" None true true true true true
                 false false false false None None None None None true false
                 "2024-01-01" "2024-01-01")
              (mkRole "role_free" "FREE" "Free" None false false false false false false
                 false false false (Some 1) (Some 3) (Some 1) None None true false
                 "2024-01-01" "2024-01-01")
              Hunknown Hknown Hid) as [Hup Hdown].
  split; [apply Hup; reflexivity|apply Hdown; reflexivity].
Defined.

End PermissionFacts.

(** * Properties of task creation, update and roll-up *)

Section TrimFacts.

Import Store.

Lemma trimStart_suffix (s : list N) :
  exists stripped,
    s = stripped ++ trimStart s /\ Forall (fun c => isWhiteSpace c = true) stripped.
Proof.
  induction s as [|c rest [stripped [Hs Hall]]]; cbn [trimStart].
  - exists []. split; [reflexivity|constructor].
  - destruct (isWhiteSpace c) eqn:Hc.
    + exists (c :: stripped). split; [cbn; f_equal; exact Hs|].
      constructor; [exact Hc|exact Hall].
    + exists []. split; [reflexivity|constructor].
Qed.

Lemma trimStart_head (s : list N) (c : N) :
  head (trimStart s) = Some c -> isWhiteSpace c = false.
Proof.
  induction s as [|d rest IH]; cbn [trimStart]; [discriminate|].
  destruct (isWhiteSpace d) eqn:Hd; [exact IH|].
  cbn. intros [= <-]. exact Hd.
Qed.

Lemma trimStart_length (s : list N) : (length (trimStart s) <= length s)%nat.
Proof.
  induction s as [|d rest IH]; cbn [trimStart]; [lia|].
  destruct (isWhiteSpace d); cbn [length]; lia.
Qed.

Lemma trim_length (s : list N) : jsLength (trim s) <= jsLength s.
Proof.
  unfold jsLength, trim, trimEnd. rewrite length_rev.
  pose proof (trimStart_length (rev (trimStart s))) as H1.
  rewrite length_rev in H1.
  pose proof (trimStart_length s). lia.
Qed.

Lemma last_of_rev (s : list N) : last (rev s) = head s.
Proof.
  destruct s as [|c rest]; [reflexivity|]. cbn [rev]. apply last_snoc.
Qed.

Lemma trim_last (s : list N) (c : N) :
  last (trim s) = Some c -> isWhiteSpace c = false.
Proof.
  unfold trim, trimEnd. rewrite last_of_rev. apply trimStart_head.
Qed.

Lemma trim_head (s : list N) (c : N) :
  head (trim s) = Some c -> isWhiteSpace c = false.
Proof.
  unfold trim, trimEnd.
  destruct (trimStart_suffix (rev (trimStart s))) as [stripped [Hrev _]].
  set (kept := trimStart (rev (trimStart s))) in *.
  assert (trimStart s = rev kept ++ rev stripped) as Hs.
  { rewrite <- rev_app_distr, <- Hrev, rev_involutive. reflexivity. }
  destruct (rev kept) as [|d rest] eqn:Hk; [discriminate|].
  cbn. intros [= <-]. apply (trimStart_head s). rewrite Hs. reflexivity.
Qed.

End TrimFacts.

Section CreateTaskFacts.

Import Store.

Variable toISOString : Z -> string.

(** What [validateCreateTask] lets through. *)
Lemma validateCreateTask_accepts (now : Z) (params : CreateTaskParams.t) :
  validateCreateTask now params = Returned tt <->
  (trim (CreateTaskParams.title params) <> []
   /\ jsLength (CreateTaskParams.title params) <= 200
   /\ CreateTaskParams.projectId params <> ""%string
   /\ (forall e, CreateTaskParams.estimatedMinutes params = Some e -> 0 <= e)
   /\ (forall m, CreateTaskParams.maxMinutes params = Some m -> 0 <= m)
   /\ (forall e m,
         CreateTaskParams.estimatedMinutes params = Some e ->
         CreateTaskParams.maxMinutes params = Some m -> e <= m)
   /\ (forall due, CreateTaskParams.dueDate params = Some (Instant due) -> now <= due)
   /\ (forall d, CreateTaskParams.description params = Some d -> jsLength d <= 5000)).
Proof.
  unfold validateCreateTask.
  assert (forall l : list N, (jsLength l =? 0) = true <-> l = []) as Hlen.
  { intros l. unfold jsLength. rewrite Z.eqb_eq. destruct l; cbn; split; try lia;
      try reflexivity; discriminate. }
  assert (trim (CreateTaskParams.title params) <> [] ->
          CreateTaskParams.title params <> []) as Htrim.
  { intros Hne E. apply Hne. rewrite E. reflexivity. }
  set (t := CreateTaskParams.title params) in *.
  destruct (jsLength t =? 0) eqn:E0; cbn [orb].
  { split; [intros H; discriminate H|]. intros [Hne _]. apply Hlen in E0. exfalso.
    apply Htrim; assumption. }
  destruct (jsLength (trim t) =? 0) eqn:E1.
  { split; [intros H; discriminate H|]. intros [Hne _]. apply Hlen in E1.
    contradiction. }
  assert (trim t <> []) as Hne.
  { intros E. apply Hlen in E. congruence. }
  destruct (Z.gtb_spec (jsLength t) 200) as [Hlong|Hshort].
  { split; [intros Hg; discriminate Hg|]. intros [_ [Hg _]]. lia. }
  destruct (String.eqb_spec (CreateTaskParams.projectId params) "") as [Hpid|Hpid].
  { split; [intros Hg; discriminate Hg|]. intros [_ [_ [Hg _]]]. contradiction. }
  destruct (CreateTaskParams.estimatedMinutes params) as [e|],
    (CreateTaskParams.maxMinutes params) as [m|],
    (CreateTaskParams.dueDate params) as [[d|]|],
    (CreateTaskParams.description params) as [ds|];
    repeat match goal with
           | |- context [(?x <? ?y)] => destruct (Z.ltb_spec x y)
           | |- context [(?x >? ?y)] => destruct (Z.gtb_spec x y)
           | |- context [(?x =? ?y)] => destruct (Z.eqb_spec x y)
           end; cbn [negb andb].
  all: split; [intros Hg; try discriminate Hg; clear Hg|intros Hg; try reflexivity].
  all: try (repeat split; try assumption; try lia; intros; simplify_eq; lia).
  all: exfalso; destruct Hg as [_ [_ [_ [He [Hm [Hem [Hd Hds]]]]]]].
  all: try (specialize (He _ eq_refl); lia).
  all: try (specialize (Hm _ eq_refl); lia).
  all: try (specialize (Hem _ _ eq_refl eq_refl); lia).
  all: try (specialize (Hd _ eq_refl); lia).
  all: try (specialize (Hds _ eq_refl); lia).
Qed.

Lemma round_of_zero (x : Q) : (x == 0)%Q -> JS.round x = 0.
Proof.
  intros Hx. unfold JS.round.
  rewrite (Qfloor_comp (x + (1 # 2)) (1 # 2)); [reflexivity|].
  rewrite Hx. reflexivity.
Qed.

(** What [createTask] stores when it returns. *)
Lemma createTask_returned
    (db db' : gmap string TaskRow) (taskId : string) (createdAt : Z)
    (updatedAt : option JSDate) (now : Z) (userId : string)
    (params : CreateTaskParams.t) (row : TaskRow) :
  createTask toISOString db taskId createdAt updatedAt now userId params
  = (db', Returned row) ->
  validateCreateTask now params = Returned tt
  /\ db' = <[taskId := row]> db
  /\ title row = trim (CreateTaskParams.title params)
  /\ project_id row = CreateTaskParams.projectId params
  /\ user_id row = userId
  /\ completed_at row = None
  /\ deleted row = false
  /\ progress (columns row) = 0
  /\ status (columns row) = "BACKLOG"%string
  /\ actual_minutes (columns row) = 0
  /\ estimated_minutes (columns row) = CreateTaskParams.estimatedMinutes params
  /\ max_minutes (columns row) = CreateTaskParams.maxMinutes params
  /\ due_date (columns row) = CreateTaskParams.dueDate params
  /\ CreateTaskParams.dueDate params <> Some InvalidDate
  /\ CreateTaskParams.plannedForDate params <> Some InvalidDate
  /\ planned_for_date (columns row)
     = match CreateTaskParams.plannedForDate params with
       | Some (Instant ms) => Some (beforeT (toISOString ms))
       | _ => None
       end.
Proof.
  unfold createTask.
  destruct (validateCreateTask now params) as [[]|e] eqn:Hv; cbn [bind];
    [|intros [= _ E]; discriminate E].
  destruct (CreateTaskParams.plannedForDate params) as [[pl|]|];
    destruct (CreateTaskParams.dueDate params) as [[du|]|]; cbn [bind isoString];
    intros [= <- <-]; cbn; repeat split; discriminate.
Qed.

(** X18: A task that [createTask] stores is well formed: its title is the
    trimmed one, not empty, at most 200 code units long, without white
    space at either end; it belongs to a project; its estimate and budget,
    where given, satisfy [0 <= estimate <= budget]; its due date, if any, is
    a valid date not before [now]; and it starts in the backlog, with no
    progress and no time spent. *)
Theorem createTask_stores_well_formed_row
    (db db' : gmap string TaskRow) (taskId : string) (createdAt : Z)
    (updatedAt : option JSDate) (now : Z) (userId : string)
    (params : CreateTaskParams.t) (row : TaskRow) :
  createTask toISOString db taskId createdAt updatedAt now userId params
  = (db', Returned row) ->
  db' !! taskId = Some row
  /\ (title row <> []
      /\ jsLength (title row) <= 200
      /\ (forall c, head (title row) = Some c -> isWhiteSpace c = false)
      /\ (forall c, last (title row) = Some c -> isWhiteSpace c = false))
  /\ project_id row <> ""%string
  /\ (forall e, estimated_minutes (columns row) = Some e -> 0 <= e)
  /\ (forall m, max_minutes (columns row) = Some m -> 0 <= m)
  /\ (forall e m,
        estimated_minutes (columns row) = Some e ->
        max_minutes (columns row) = Some m -> e <= m)
  /\ (forall due, due_date (columns row) = Some due ->
                  exists ms, due = Instant ms /\ now <= ms)
  /\ (status (columns row) = "BACKLOG"%string
      /\ progress (columns row) = 0
      /\ actual_minutes (columns row) = 0
      /\ completed_at row = None
      /\ deleted row = false).
Proof.
  intros Hcreate.
  destruct (createTask_returned _ _ _ _ _ _ _ _ _ Hcreate)
    as (Hv & -> & Ht & Hp & _ & Hc & Hd & Hpr & Hst & Ha & He & Hm & Hdue & Hvalid & _).
  apply validateCreateTask_accepts in Hv.
  destruct Hv as (Vt & Vl & Vp & Ve & Vm & Vem & Vd & _).
  rewrite Ht, Hp, He, Hm, Hdue.
  split; [apply lookup_insert_eq|].
  split.
  { split; [exact Vt|]. split.
    - pose proof (trim_length (CreateTaskParams.title params)). lia.
    - split; [apply trim_head|apply trim_last]. }
  split; [exact Vp|]. split; [exact Ve|]. split; [exact Vm|]. split; [exact Vem|].
  split.
  { intros [ms|] Hsome; [|contradiction].
    exists ms. split; [reflexivity|]. apply Vd. exact Hsome. }
  repeat split; assumption.
Qed.

(** X19: [createTask] returns exactly when the validation passes and neither
    date is invalid; when it throws, the table is as it was. *)
Theorem createTask_returns_iff
    (db : gmap string TaskRow) (taskId : string) (createdAt : Z)
    (updatedAt : option JSDate) (now : Z) (userId : string)
    (params : CreateTaskParams.t) :
  let result := createTask toISOString db taskId createdAt updatedAt now userId params in
  ((exists row, snd result = Returned row) <->
   validateCreateTask now params = Returned tt
   /\ CreateTaskParams.plannedForDate params <> Some InvalidDate
   /\ CreateTaskParams.dueDate params <> Some InvalidDate)
  /\ (forall e, snd result = Thrown e -> fst result = db).
Proof.
  cbv zeta. unfold createTask.
  destruct (validateCreateTask now params) as [[]|e] eqn:Hv; cbn [bind].
  - destruct (CreateTaskParams.plannedForDate params) as [[pl|]|];
      destruct (CreateTaskParams.dueDate params) as [[du|]|]; cbn [bind isoString fst snd].
    all: split; [split|intros e He; first [discriminate He|reflexivity]].
    all: try (intros _; repeat split; discriminate).
    all: try (intros _; eexists; reflexivity).
    all: try (intros [row Hrow]; discriminate Hrow).
    all: intros (_ & H1 & H2); exfalso;
      first [apply H1; reflexivity|apply H2; reflexivity].
  - cbn [fst snd]. split; [split|].
    + intros [row Hrow]. discriminate Hrow.
    + intros [Hret _]. discriminate Hret.
    + reflexivity.
Qed.

(** X20: A task that [createTask] has just stored earns no points, and nothing of
    its priority comes from progress or from the time budget. *)
Theorem createTask_row_scores_nothing
    (db db' : gmap string TaskRow) (taskId : string) (createdAt : Z)
    (updatedAt : option JSDate) (now : Z) (userId : string)
    (params : CreateTaskParams.t) (row : TaskRow)
    (context : ScoringContext) (today : JSDate) :
  createTask toISOString db taskId createdAt updatedAt now userId params
  = (db', Returned row) ->
  totalPoints (calculateTaskScore (columns row) context) = 0
  /\ (basePoints (calculateTaskScore (columns row) context) == 0)%Q
  /\ calculateEfficiency (columns row) = 1%Q
  /\ calculatePriority (columns row) today
     = dueDateUrgency (columns row) today + neglect (columns row) today.
Proof.
  intros Hcreate.
  destruct (createTask_returned _ _ _ _ _ _ _ _ _ Hcreate)
    as (_ & _ & _ & _ & _ & _ & _ & Hpr & _ & Ha & _).
  assert (rawBasePoints (columns row) == 0)%Q as Hb.
  { unfold rawBasePoints. rewrite Hpr. change (inject_Z 0 / 100)%Q with (0 / 100)%Q.
    field. }
  assert (underEstimate (columns row) = false) as Hu.
  { unfold underEstimate. rewrite Hpr. reflexivity. }
  rewrite calculateTaskScore_locals. cbn [totalPoints basePoints].
  unfold rawEfficiencyBonus, rawFocusBonus. rewrite Hu.
  split; [|split; [|split]].
  - apply round_of_zero. destruct (taskTypesWorkedToday context >=? 3); lra.
  - rewrite round_of_zero by lra. reflexivity.
  - unfold calculateEfficiency. rewrite Ha. cbn. rewrite orb_true_r. reflexivity.
  - rewrite calculatePriority_additive.
    unfold nearCompletion, timeConstraint. rewrite Hpr, Ha. cbn.
    destruct (max_minutes (columns row)); [rewrite andb_false_r|]; lia.
Qed.

End CreateTaskFacts.

Lemma createTask_stores_well_formed_row_witness :
  Store.createTask StoreSamples.isoOf ∅ "t1" 10 None 100 "u1" StoreSamples.newTask
  = (<["t1"%string := StoreSamples.createdRow]> ∅, Store.Returned StoreSamples.createdRow)
  /\ Store.jsLength (Store.title StoreSamples.createdRow) <= 200
  /\ Store.project_id StoreSamples.createdRow <> ""%string.
Proof.
  assert (Store.createTask StoreSamples.isoOf ∅ "t1" 10 None 100 "u1" StoreSamples.newTask
          = (<["t1"%string := StoreSamples.createdRow]> ∅,
             Store.Returned StoreSamples.createdRow)) as Hcreate
    by (vm_compute; reflexivity).
  split; [exact Hcreate|].
  destruct (createTask_stores_well_formed_row StoreSamples.isoOf ∅ _ "t1"%string 10 None
              100 "u1"%string StoreSamples.newTask _ Hcreate)
    as (_ & (_ & Hlength & _) & Hproject & _).
  split; assumption.
Defined.

Lemma createTask_returns_iff_witness :
  exists row,
    snd (Store.createTask StoreSamples.isoOf ∅ "t1" 10 None 100 "u1" StoreSamples.newTask)
    = Store.Returned row.
Proof.
  destruct (createTask_returns_iff StoreSamples.isoOf ∅ "t1"%string 10 None 100
              "u1"%string StoreSamples.newTask) as [[_ Hreturns] _].
  apply Hreturns. split; [vm_compute; reflexivity|split; discriminate].
Defined.

Lemma createTask_row_scores_nothing_witness :
  totalPoints (calculateTaskScore (Store.columns StoreSamples.createdRow) Samples.focused)
  = 0.
Proof.
  assert (Store.createTask StoreSamples.isoOf ∅ "t1" 10 None 100 "u1" StoreSamples.newTask
          = (<["t1"%string := StoreSamples.createdRow]> ∅,
             Store.Returned StoreSamples.createdRow)) as Hcreate
    by (vm_compute; reflexivity).
  destruct (createTask_row_scores_nothing StoreSamples.isoOf ∅ _ "t1"%string 10 None 100
              "u1"%string StoreSamples.newTask _ Samples.focused (Instant 0) Hcreate)
    as [Hpoints _].
  exact Hpoints.
Defined.

Section UpdateTaskFacts.

Import Store.

Variable toISOString : Z -> string.

(** The columns that no assignment of [updateTask] names are left alone,
    and no assignment empties [completed_at]. *)
Lemma assignments_frame (updates : list Assignment) (row : TaskRow) :
  let row' := fold_left assign updates row in
  user_id row' = user_id row
  /\ project_id row' = project_id row
  /\ parent_task_id row' = parent_task_id row
  /\ deleted row' = deleted row
  /\ created_at row' = created_at row
  /\ difficulty (columns row') = difficulty (columns row)
  /\ actual_minutes (columns row') = actual_minutes (columns row)
  /\ (completed_at row <> None -> completed_at row' <> None).
Proof.
  cbv zeta. revert row.
  induction updates as [|a rest IH]; intros row; cbn [fold_left].
  - repeat split; intros; assumption.
  - destruct (IH (assign row a)) as (H1 & H2 & H3 & H4 & H5 & H6 & H7 & H8).
    rewrite H1, H2, H3, H4, H5, H6, H7.
    destruct a; cbn; repeat split; try (intros Hc; apply H8; cbn; try exact Hc; discriminate).
Qed.

(** [updateList] ends with the assignment of [updated_at]. *)
Lemma updateList_ends_with_updated_at
    (clock : Clock) (params : UpdateTaskParams.t) (updates : list Assignment) :
  updateList toISOString clock params = Returned updates ->
  exists before, updates = before ++ [SetUpdatedAt (updatedNow clock)].
Proof.
  unfold updateList.
  destruct (match UpdateTaskParams.plannedForDate params with
            | Some (Some date) =>
                do iso <- isoString toISOString date;
                Returned [SetPlannedForDate (Some iso)]
            | Some None => Returned [SetPlannedForDate None]
            | None => Returned []
            end) as [planned|e]; cbn [bind]; [|discriminate].
  destruct (match UpdateTaskParams.dueDate params with
            | Some (Some date) =>
                do _ <- isoString toISOString date; Returned [SetDueDate (Some date)]
            | Some None => Returned [SetDueDate None]
            | None => Returned []
            end) as [due|e]; cbn [bind]; [|discriminate].
  intros [= <-]. rewrite !app_assoc. eexists. reflexivity.
Qed.

(** X22: [updateTask] writes only when it returns: a rejected or failed update
    leaves the table as it was, and so does an update of an id that the
    table does not hold, which returns no row. *)
Theorem updateTask_writes_only_on_return
    (db : gmap string TaskRow) (clock : Clock) (taskId : string)
    (params : UpdateTaskParams.t) :
  let result := updateTask toISOString db clock taskId params in
  (forall e, snd result = Thrown e -> fst result = db)
  /\ (db !! taskId = None ->
      fst result = db
      /\ (snd result = Returned None \/ exists e, snd result = Thrown e))
  /\ (forall other, other <> taskId -> fst result !! other = db !! other).
Proof.
  cbv zeta. unfold updateTask.
  destruct (do _ <- validateUpdateTask params; updateList toISOString clock params)
    as [updates|e]; cbn [fst snd].
  - split; [intros e He; discriminate He|]. split.
    + intros Hnone. unfold sqlUpdate. rewrite alter_id' by exact Hnone.
      split; [reflexivity|]. left. rewrite Hnone. reflexivity.
    + intros other Hother. unfold sqlUpdate. apply lookup_alter_ne. congruence.
  - split; [reflexivity|]. split; [|reflexivity].
    intros _. split; [reflexivity|]. right. eexists. reflexivity.
Qed.

Lemma NoDup_of_submseteq (l k : list string) : l ⊆+ k -> NoDup k -> NoDup l.
Proof.
  intros Hsub Hk. apply submseteq_Permutation in Hsub as [rest Hperm].
  rewrite Hperm in Hk. apply NoDup_app in Hk as [Hl _]. exact Hl.
Qed.

(** The columns named by the [progress] and [status] blocks together. *)
Lemma progress_status_columns (clock : Clock) (params : UpdateTaskParams.t) :
  map columnOf (progressBlock clock params) ++ map columnOf (statusBlock clock params)
  ⊆+ ["progress"%string; "status"%string; "completed_at"%string].
Proof.
  unfold progressBlock, statusBlock.
  destruct (UpdateTaskParams.progress params) as [p|],
    (UpdateTaskParams.status params) as [st|];
    try destruct (p =? 100); try destruct (String.eqb st "COMPLETED");
    cbn [map app columnOf];
    apply (bool_decide_unpack _); vm_compute; exact I.
Qed.

(** X23: The [SET] list that [updateTask] builds names no column twice, and its
    last assignment is that of [updated_at]. *)
Theorem updateList_names_each_column_once
    (clock : Clock) (params : UpdateTaskParams.t) (updates : list Assignment) :
  updateList toISOString clock params = Returned updates ->
  NoDup (map columnOf updates)
  /\ last updates = Some (SetUpdatedAt (updatedNow clock)).
Proof.
  intros Hlist. split.
  2: { destruct (updateList_ends_with_updated_at _ _ _ Hlist) as [before ->].
       apply last_snoc. }
  revert Hlist. unfold updateList.
  destruct (match UpdateTaskParams.plannedForDate params with
            | Some (Some date) =>
                do iso <- isoString toISOString date;
                Returned [SetPlannedForDate (Some iso)]
            | Some None => Returned [SetPlannedForDate None]
            | None => Returned []
            end) as [planned|e] eqn:Hplanned; cbn [bind]; [|discriminate].
  destruct (match UpdateTaskParams.dueDate params with
            | Some (Some date) =>
                do _ <- isoString toISOString date; Returned [SetDueDate (Some date)]
            | Some None => Returned [SetDueDate None]
            | None => Returned []
            end) as [due|e] eqn:Hdue; cbn [bind]; [|discriminate].
  intros [= <-].
  assert (map columnOf planned ⊆+ ["planned_for_date"%string]) as Hp.
  { destruct (UpdateTaskParams.plannedForDate params) as [[[pl|]|]|];
      cbn in Hplanned; simplify_eq; first [reflexivity|apply submseteq_nil_l]. }
  assert (map columnOf due ⊆+ ["due_date"%string]) as Hd.
  { destruct (UpdateTaskParams.dueDate params) as [[[du|]|]|];
      cbn in Hdue; simplify_eq; first [reflexivity|apply submseteq_nil_l]. }
  clear Hplanned Hdue.
  all: apply (NoDup_of_submseteq _
                (["title"%string] ++ ["description"%string]
                 ++ ["progress"%string; "status"%string; "completed_at"%string]
                 ++ ["estimated_minutes"%string] ++ ["max_minutes"%string]
                 ++ ["planned_for_date"%string] ++ ["due_date"%string]
                 ++ ["task_type_id"%string] ++ ["updated_at"%string])%list);
    [|apply (bool_decide_unpack _); vm_compute; exact I].
  all: rewrite !map_app.
  all: apply submseteq_app;
    [destruct (UpdateTaskParams.title params);
       [reflexivity|apply submseteq_nil_l]|].
  all: apply submseteq_app;
    [destruct (UpdateTaskParams.description params);
       [reflexivity|apply submseteq_nil_l]|].
  all: rewrite (app_assoc (map columnOf _) (map columnOf _)); apply submseteq_app.
  all: try apply progress_status_columns.
  all: apply submseteq_app;
    [destruct (UpdateTaskParams.estimatedMinutes params);
       [reflexivity|apply submseteq_nil_l]|].
  all: apply submseteq_app;
    [destruct (UpdateTaskParams.maxMinutes params);
       [reflexivity|apply submseteq_nil_l]|].
  all: apply submseteq_app; [exact Hp|].
  all: apply submseteq_app; [exact Hd|].
  all: apply submseteq_app;
    [destruct (UpdateTaskParams.taskTypeId params);
       [reflexivity|apply submseteq_nil_l]|reflexivity].
Qed.

(** Assignments to other columns leave progress, status and completion
    time as they are. *)
Lemma completion_untouched (updates : list Assignment) (row : TaskRow) :
  Forall (fun a => ~ In (columnOf a) ["progress"; "status"; "completed_at"]%string)
    updates ->
  let row' := fold_left assign updates row in
  progress (columns row') = progress (columns row)
  /\ status (columns row') = status (columns row)
  /\ completed_at row' = completed_at row.
Proof.
  cbv zeta. intros Hall. revert row.
  induction Hall as [|a rest Ha _ IH]; intros row; cbn [fold_left].
  - repeat split.
  - destruct (IH (assign row a)) as (-> & -> & ->).
    destruct a; cbn; repeat split; exfalso; apply Ha; cbn; tauto.
Qed.

(** The [SET] list around its [progress] and [status] blocks. *)
Lemma updateList_blocks
    (clock : Clock) (params : UpdateTaskParams.t) (updates : list Assignment) :
  updateList toISOString clock params = Returned updates ->
  exists before after,
    updates = before ++ (progressBlock clock params ++ statusBlock clock params) ++ after
    /\ Forall (fun a => ~ In (columnOf a) ["progress"; "status"; "completed_at"]%string)
         before
    /\ Forall (fun a => ~ In (columnOf a) ["progress"; "status"; "completed_at"]%string)
         after.
Proof.
  unfold updateList.
  destruct (match UpdateTaskParams.plannedForDate params with
            | Some (Some date) =>
                do iso <- isoString toISOString date;
                Returned [SetPlannedForDate (Some iso)]
            | Some None => Returned [SetPlannedForDate None]
            | None => Returned []
            end) as [planned|e] eqn:Hplanned; cbn [bind]; [|discriminate].
  destruct (match UpdateTaskParams.dueDate params with
            | Some (Some date) =>
                do _ <- isoString toISOString date; Returned [SetDueDate (Some date)]
            | Some None => Returned [SetDueDate None]
            | None => Returned []
            end) as [due|e] eqn:Hdue; cbn [bind]; [|discriminate].
  intros [= <-].
  match goal with
  | |- exists before after, ?t ++ ?d ++ _ ++ _ ++ ?rest = _ /\ _ =>
      exists (t ++ d), rest
  end.
  split.
  { rewrite <- !app_assoc. reflexivity. }
  assert (forall l, Forall (fun a => In (columnOf a) ["title"; "description";
            "estimated_minutes"; "max_minutes"; "planned_for_date"; "due_date";
            "task_type_id"; "updated_at"]%string) l ->
          Forall (fun a => ~ In (columnOf a) ["progress"; "status"; "completed_at"]%string)
            l) as Hweak.
  { intros l Hl. eapply Forall_impl; [exact Hl|]. intros a Hin Hno. destruct a; cbn in Hin, Hno;
      intuition discriminate. }
  split; apply Hweak; rewrite ?Forall_app; repeat split.
  all: try (destruct (UpdateTaskParams.title params); repeat constructor; cbn; tauto).
  all: try (destruct (UpdateTaskParams.description params); repeat constructor;
            cbn; tauto).
  all: try (destruct (UpdateTaskParams.estimatedMinutes params); repeat constructor;
            cbn; tauto).
  all: try (destruct (UpdateTaskParams.maxMinutes params); repeat constructor;
            cbn; tauto).
  all: try (destruct (UpdateTaskParams.taskTypeId params); repeat constructor;
            cbn; tauto).
  all: try (repeat constructor; cbn; tauto).
  - destruct (UpdateTaskParams.plannedForDate params) as [[[pl|]|]|];
      cbn in Hplanned; simplify_eq; repeat constructor; cbn; tauto.
  - destruct (UpdateTaskParams.dueDate params) as [[[du|]|]|];
      cbn in Hdue; simplify_eq; repeat constructor; cbn; tauto.
Qed.

(** What [validateUpdateTask] lets through has its progress in [0,100]. *)
Lemma validateUpdateTask_progress (params : UpdateTaskParams.t) (p : Z) :
  validateUpdateTask params = Returned tt ->
  UpdateTaskParams.progress params = Some p ->
  0 <= p <= 100.
Proof.
  unfold validateUpdateTask. intros Hv Hp. rewrite Hp in Hv.
  destruct (match UpdateTaskParams.title params with
            | Some t =>
                if jsLength (trim t) =? 0
                then Thrown (Error "Task title cannot be empty")
                else if jsLength t >? 200
                then Thrown (Error "Task title must be under 200 characters")
                else Returned tt
            | None => Returned tt
            end) as [[]|e]; cbn [bind] in Hv; [|discriminate].
  destruct (Z.ltb_spec p 0), (Z.gtb_spec p 100); cbn [orb bind] in Hv;
    try discriminate; lia.
Qed.

(** What a returning [updateTask] leaves in the row of an id that the table
    holds. *)
Lemma updateTask_returned
    (db db' : gmap string TaskRow) (clock : Clock) (taskId : string)
    (params : UpdateTaskParams.t) (old : TaskRow) (result : option TaskRow) :
  db !! taskId = Some old ->
  updateTask toISOString db clock taskId params = (db', Returned result) ->
  exists updates,
    validateUpdateTask params = Returned tt
    /\ updateList toISOString clock params = Returned updates
    /\ result = Some (fold_left assign updates old)
    /\ db' = <[taskId := fold_left assign updates old]> db.
Proof.
  intros Hold. unfold updateTask.
  destruct (validateUpdateTask params) as [[]|e]; cbn [bind]; [|discriminate].
  destruct (updateList toISOString clock params) as [updates|e]; [|discriminate].
  intros [= <- <-]. exists updates. repeat split.
  - unfold sqlUpdate. rewrite lookup_alter_eq, Hold. reflexivity.
  - unfold sqlUpdate. apply map_eq. intros k.
    destruct (decide (k = taskId)) as [->|Hne].
    + rewrite lookup_alter_eq, lookup_insert_eq, Hold. reflexivity.
    + rewrite lookup_alter_ne, lookup_insert_ne by congruence. reflexivity.
Qed.

(** X24: The completion rules of [updateTask], on the row that it returns for an
    id that the table holds. The row carries the new [updated_at]; a given
    progress is within [0,100] and stored; progress 100 without a status
    completes the task, and the status "COMPLETED" without a progress sets
    the progress to 100, both stamping [completed_at]; a given status is
    stored as it is; and a completion time once set is never emptied. *)
Theorem updateTask_completion_rules
    (db db' : gmap string TaskRow) (clock : Clock) (taskId : string)
    (params : UpdateTaskParams.t) (old row : TaskRow) :
  db !! taskId = Some old ->
  updateTask toISOString db clock taskId params = (db', Returned (Some row)) ->
  updated_at (columns row) = Some (Instant (updatedNow clock))
  /\ (forall p, UpdateTaskParams.progress params = Some p ->
                0 <= p <= 100 /\ progress (columns row) = p)
  /\ (UpdateTaskParams.progress params = Some 100 ->
      UpdateTaskParams.status params = None ->
      status (columns row) = "COMPLETED"%string
      /\ completed_at row = Some (Instant (completedNow clock)))
  /\ (forall st, UpdateTaskParams.status params = Some st -> status (columns row) = st)
  /\ (UpdateTaskParams.status params = Some "COMPLETED"%string ->
      completed_at row = Some (Instant (completedNow clock))
      /\ (UpdateTaskParams.progress params = None -> progress (columns row) = 100))
  /\ (completed_at old <> None -> completed_at row <> None)
  /\ db' !! taskId = Some row.
Proof.
  intros Hold Hupdate.
  destruct (updateTask_returned _ _ _ _ _ _ _ Hold Hupdate)
    as (updates & Hv & Hlist & [= ->] & ->).
  destruct (updateList_ends_with_updated_at _ _ _ Hlist) as [pre Hpre].
  destruct (updateList_blocks _ _ _ Hlist) as (before & after & Hshape & Hb & Ha).
  pose proof (assignments_frame updates old) as (_ & _ & _ & _ & _ & _ & _ & Hkeep).
  split.
  { rewrite Hpre, fold_left_app. reflexivity. }
  assert (progress (columns (fold_left assign updates old))
          = progress (columns (fold_left assign
                                 (progressBlock clock params ++ statusBlock clock params)
                                 (fold_left assign before old)))
          /\ status (columns (fold_left assign updates old))
             = status (columns (fold_left assign
                                  (progressBlock clock params ++ statusBlock clock params)
                                  (fold_left assign before old)))
          /\ completed_at (fold_left assign updates old)
             = completed_at (fold_left assign
                               (progressBlock clock params ++ statusBlock clock params)
                               (fold_left assign before old))) as (Hp & Hs & Hc).
  { rewrite Hshape, !fold_left_app.
    destruct (completion_untouched after
                (fold_left assign (statusBlock clock params)
                   (fold_left assign (progressBlock clock params)
                      (fold_left assign before old))) Ha) as (-> & -> & ->).
    repeat split. }
  split; [|split; [|split; [|split; [|split; [exact Hkeep|apply lookup_insert_eq]]]]];
    rewrite ?Hp, ?Hs, ?Hc; unfold progressBlock, statusBlock.
  - intros p Hprog. split; [exact (validateUpdateTask_progress _ _ Hv Hprog)|].
    rewrite Hprog.
    destruct (UpdateTaskParams.status params) as [st|];
      [destruct (String.eqb st "COMPLETED")|destruct (p =? 100)]; reflexivity.
  - intros -> ->. split; reflexivity.
  - intros st ->.
    destruct (UpdateTaskParams.progress params) as [p|];
      destruct (String.eqb st "COMPLETED"); reflexivity.
  - intros ->. cbn [String.eqb Ascii.eqb Bool.eqb].
    destruct (UpdateTaskParams.progress params) as [p|]; split;
      first [reflexivity|discriminate|intros _; reflexivity].
Qed.

End UpdateTaskFacts.

Lemma updateTask_writes_only_on_return_witness :
  fst (Store.updateTask StoreSamples.isoOf StoreSamples.family StoreSamples.clock
         "missing" (Store.UpdateTaskParams.ofProgress 100))
  = StoreSamples.family.
Proof.
  destruct (updateTask_writes_only_on_return StoreSamples.isoOf StoreSamples.family
              StoreSamples.clock "missing"%string (Store.UpdateTaskParams.ofProgress 100))
    as (_ & Hmissing & _).
  apply Hmissing. vm_compute. reflexivity.
Defined.

Lemma updateList_names_each_column_once_witness :
  NoDup (map Store.columnOf
           [Store.SetProgress 100; Store.SetStatus "COMPLETED";
            Store.SetCompletedAt 1000; Store.SetUpdatedAt 1001]).
Proof.
  destruct (updateList_names_each_column_once StoreSamples.isoOf StoreSamples.clock
              (Store.UpdateTaskParams.ofProgress 100)
              [Store.SetProgress 100; Store.SetStatus "COMPLETED";
               Store.SetCompletedAt 1000; Store.SetUpdatedAt 1001])
    as [Hnodup _]; [reflexivity|exact Hnodup].
Defined.

Lemma updateTask_completion_rules_witness :
  status (Store.columns StoreSamples.childDone) = "COMPLETED"%string
  /\ Store.completed_at StoreSamples.childDone = Some (Instant 1000).
Proof.
  assert (Store.updateTask StoreSamples.isoOf StoreSamples.family StoreSamples.clock
            "child" (Store.UpdateTaskParams.ofProgress 100)
          = (<["child"%string := StoreSamples.childDone]> StoreSamples.family,
             Store.Returned (Some StoreSamples.childDone))) as Hupdate
    by (vm_compute; reflexivity).
  destruct (updateTask_completion_rules StoreSamples.isoOf StoreSamples.family
              (<["child"%string := StoreSamples.childDone]> StoreSamples.family)
              StoreSamples.clock "child"%string (Store.UpdateTaskParams.ofProgress 100)
              StoreSamples.child StoreSamples.childDone)
    as (_ & _ & Hdone & _); [vm_compute; reflexivity|exact Hupdate|].
  apply Hdone; reflexivity.
Defined.

(** ** Progress of sub-tasks and of their parent *)

Section ProgressRollUpFacts.

Import Store.

Variable toISOString : Z -> string.

(** [updateTask] with [{ progress }] alone, for a progress within range. *)
Lemma updateTask_ofProgress
    (db : gmap string TaskRow) (clock : Clock) (taskId : string) (p : Z) :
  0 <= p <= 100 ->
  updateTask toISOString db clock taskId (UpdateTaskParams.ofProgress p)
  = (sqlUpdate db
       (SetProgress p
        :: (if p =? 100
            then [SetStatus "COMPLETED"; SetCompletedAt (completedNow clock)]
            else [])
        ++ [SetUpdatedAt (updatedNow clock)]) taskId,
     Returned
       (sqlUpdate db
          (SetProgress p
           :: (if p =? 100
               then [SetStatus "COMPLETED"; SetCompletedAt (completedNow clock)]
               else [])
           ++ [SetUpdatedAt (updatedNow clock)]) taskId !! taskId)).
Proof.
  intros Hp. unfold updateTask, validateUpdateTask, updateList, progressBlock, statusBlock.
  cbn [UpdateTaskParams.ofProgress UpdateTaskParams.title UpdateTaskParams.description
       UpdateTaskParams.progress UpdateTaskParams.status
       UpdateTaskParams.estimatedMinutes UpdateTaskParams.maxMinutes
       UpdateTaskParams.plannedForDate UpdateTaskParams.dueDate
       UpdateTaskParams.taskTypeId bind].
  destruct (Z.ltb_spec p 0); [lia|]. destruct (Z.gtb_spec p 100); [lia|].
  cbn [orb bind app]. reflexivity.
Qed.

(** [updateTask] with [{ progress }] alone, for a progress out of range. *)
Lemma updateTask_ofProgress_rejected
    (db : gmap string TaskRow) (clock : Clock) (taskId : string) (p : Z) :
  p < 0 \/ 100 < p ->
  updateTask toISOString db clock taskId (UpdateTaskParams.ofProgress p)
  = (db, Thrown (Error "Progress must be between 0 and 100")).
Proof.
  intros Hp. unfold updateTask, validateUpdateTask.
  cbn [UpdateTaskParams.ofProgress UpdateTaskParams.title UpdateTaskParams.description
       UpdateTaskParams.progress bind].
  destruct (Z.ltb_spec p 0), (Z.gtb_spec p 100); try lia; reflexivity.
Qed.



(** The row that a progress update leaves. *)
Lemma progress_update_row (clock : Clock) (p : Z) (old : TaskRow) :
  let row :=
    fold_left assign
      (SetProgress p
       :: (if p =? 100
           then [SetStatus "COMPLETED"; SetCompletedAt (completedNow clock)]
           else [])
       ++ [SetUpdatedAt (updatedNow clock)]) old in
  progress (columns row) = p
  /\ updated_at (columns row) = Some (Instant (updatedNow clock))
  /\ (p = 100 ->
      status (columns row) = "COMPLETED"%string
      /\ completed_at row = Some (Instant (completedNow clock)))
  /\ (p <> 100 ->
      status (columns row) = status (columns old)
      /\ completed_at row = completed_at old)
  /\ parent_task_id row = parent_task_id old
  /\ deleted row = deleted old
  /\ user_id row = user_id old.
Proof.
  destruct (Z.eqb_spec p 100) as [->|Hne]; cbn; repeat split; intros; congruence.
Qed.

(** The rows that the query of [updateParentProgress] selects. *)
Lemma subTasksOf_spec (db : gmap string TaskRow) (parent : string) (row : TaskRow) :
  In row (subTasksOf db parent) <->
  exists id, db !! id = Some row
             /\ parent_task_id row = Some parent /\ deleted row = false.
Proof.
  unfold subTasksOf. rewrite filter_In, <- list_elem_of_In, list_elem_of_fmap.
  split.
  - intros [[[id row'] [-> Hin]] Hsel]. cbn in *.
    apply elem_of_map_to_list in Hin. exists id. split; [exact Hin|].
    destruct (parent_task_id row') as [p|]; [|discriminate].
    apply andb_true_iff in Hsel as [Hp Hd]. apply String.eqb_eq in Hp as ->.
    split; [reflexivity|]. destruct (deleted row'); [discriminate|reflexivity].
  - intros (id & Hin & Hp & Hd). split.
    + exists (id, row). split; [reflexivity|]. apply elem_of_map_to_list. exact Hin.
    + rewrite Hp, Hd, String.eqb_refl. reflexivity.
Qed.

(** The sum that [reduce] computes, between the bounds of its terms. *)
Lemma totalProgress_bounds (lo hi : Z) (rows : list TaskRow) (start : Z) :
  (forall row, In row rows -> lo <= progress (columns row) <= hi) ->
  start + lo * Z.of_nat (length rows)
  <= fold_left (fun sum task => sum + progress (columns task)) rows start
  <= start + hi * Z.of_nat (length rows).
Proof.
  revert start. induction rows as [|row rest IH]; intros start Hall.
  - cbn. lia.
  - cbn [fold_left length]. rewrite Nat2Z.inj_succ, !Z.mul_succ_r.
    pose proof (Hall row (or_introl eq_refl)).
    specialize (IH (start + progress (columns row))
                  (fun r Hr => Hall r (or_intror Hr))).
    lia.
Qed.

(** The rounded average of a total that lies between [lo * n] and
    [hi * n]. *)
Lemma average_bounds (lo hi n total : Z) :
  0 < n -> lo * n <= total <= hi * n ->
  lo <= JS.round (inject_Z total / inject_Z n) <= hi.
Proof.
  intros Hn Ht. rewrite round_quotient by exact Hn. split.
  - apply Z.div_le_lower_bound; lia.
  - apply Z.lt_succ_r. apply Z.div_lt_upper_bound; lia.
Qed.

(** [updateParentProgress] on a parent whose sub-tasks all have their
    progress between [lo] and [hi]: it writes a progress between these
    bounds into the row of the parent. *)
Lemma updateParentProgress_written
    (db : gmap string TaskRow) (clock : Clock) (parent : string) (lo hi : Z) :
  0 <= lo -> hi <= 100 ->
  subTasksOf db parent <> [] ->
  (forall row, In row (subTasksOf db parent) -> lo <= progress (columns row) <= hi) ->
  exists average,
    lo <= average <= hi
    /\ updateParentProgress toISOString db clock parent
       = (sqlUpdate db
            (SetProgress average
             :: (if average =? 100
                 then [SetStatus "COMPLETED"; SetCompletedAt (completedNow clock)]
                 else [])
             ++ [SetUpdatedAt (updatedNow clock)]) parent,
          Returned tt).
Proof.
  intros Hlo Hhi Hsome Hall. unfold updateParentProgress. cbv zeta.
  set (subs := subTasksOf db parent) in *.
  assert (0 < Z.of_nat (length subs)) as Hn.
  { destruct subs; [congruence|]. cbn [length]. lia. }
  destruct (Z.eqb_spec (Z.of_nat (length subs)) 0) as [H0|_]; [lia|].
  pose proof (totalProgress_bounds lo hi subs 0 Hall) as Htotal.
  set (total := fold_left _ subs 0) in *.
  pose proof (average_bounds lo hi _ total Hn ltac:(lia)) as Havg.
  exists (JS.round (inject_Z total / inject_Z (Z.of_nat (length subs)))).
  split; [exact Havg|].
  rewrite updateTask_ofProgress by lia. reflexivity.
Qed.


(** [updateParentProgress] writes to no row but that of the parent, and it
    either returns or throws the range error of [validateUpdateTask] with
    nothing written. *)
Lemma updateParentProgress_cases
    (db : gmap string TaskRow) (clock : Clock) (parent : string) :
  (forall other, other <> parent ->
     fst (updateParentProgress toISOString db clock parent) !! other = db !! other)
  /\ (snd (updateParentProgress toISOString db clock parent) = Returned tt
      \/ updateParentProgress toISOString db clock parent
         = (db, Thrown (Error "Progress must be between 0 and 100"))).
Proof.
  unfold updateParentProgress. cbv zeta.
  destruct (Z.of_nat (length (subTasksOf db parent)) =? 0).
  { split; [reflexivity|left; reflexivity]. }
  set (average := JS.round _).
  destruct (Z_le_gt_dec 0 average) as [H0|H0];
    [destruct (Z_le_gt_dec average 100) as [H100|H100]|].
  - rewrite updateTask_ofProgress by lia. cbn [fst snd]. split; [|left; reflexivity].
    intros other Hother. unfold sqlUpdate. apply lookup_alter_ne. congruence.
  - rewrite updateTask_ofProgress_rejected by lia. split; [reflexivity|right; reflexivity].
  - rewrite updateTask_ofProgress_rejected by lia. split; [reflexivity|right; reflexivity].
Qed.

(** X26: How [updateTaskProgress] ends. A progress outside [0,100] is rejected
    and an id that the table does not hold is a [TypeError], both with the
    table as it was. For a task of the table: without a parent, the updated
    row is written and returned; and with any parent but itself, the row
    with the new progress is in the table at the end even when the update of
    the parent throws, which is the only other way to end. *)
Theorem updateTaskProgress_outcomes
    (db : gmap string TaskRow) (clock parentClock : Clock) (taskId : string) (p : Z) :
  let result := updateTaskProgress toISOString db clock parentClock taskId p in
  (p < 0 \/ 100 < p ->
   result = (db, Thrown (Error "Progress must be between 0 and 100")))
  /\ (0 <= p <= 100 -> db !! taskId = None -> result = (db, Thrown TypeError))
  /\ (forall old,
        0 <= p <= 100 -> db !! taskId = Some old ->
        (parent_task_id old = None \/ parent_task_id old = Some ""%string ->
         exists row,
           result = (<[taskId := row]> db, Returned row)
           /\ progress (columns row) = p)
        /\ (parent_task_id old <> Some taskId ->
            exists row,
              fst result !! taskId = Some row
              /\ progress (columns row) = p
              /\ (snd result = Returned row
                  \/ snd result = Thrown (Error "Progress must be between 0 and 100")))).
Proof.
  cbv zeta. unfold updateTaskProgress. split; [|split].
  - intros Hp. rewrite updateTask_ofProgress_rejected by exact Hp. reflexivity.
  - intros Hp Hnone. rewrite updateTask_ofProgress by exact Hp.
    unfold sqlUpdate. rewrite lookup_alter_eq, Hnone. cbn [fmap option_fmap option_map].
    f_equal. apply map_eq. intros k. destruct (decide (k = taskId)) as [->|Hne].
    + rewrite lookup_alter_eq, Hnone. reflexivity.
    + apply lookup_alter_ne. congruence.
  - intros old Hp Hold. rewrite updateTask_ofProgress by exact Hp.
    set (updates := SetProgress p :: _).
    pose proof (progress_update_row clock p old) as (Hprog & _ & _ & _ & Hparent & _).
    fold updates in Hprog, Hparent.
    assert (sqlUpdate db updates taskId = <[taskId := fold_left assign updates old]> db)
      as Hdb.
    { unfold sqlUpdate. apply map_eq. intros k. destruct (decide (k = taskId)) as [->|Hne].
      - rewrite lookup_alter_eq, lookup_insert_eq, Hold. reflexivity.
      - rewrite lookup_alter_ne, lookup_insert_ne by congruence. reflexivity. }
    rewrite Hdb, lookup_insert_eq, Hparent. split.
    + intros [Hnone|Hempty]; exists (fold_left assign updates old).
      * rewrite Hnone. split; [reflexivity|exact Hprog].
      * rewrite Hempty. split; [reflexivity|exact Hprog].
    + intros Hself. exists (fold_left assign updates old).
      destruct (parent_task_id old) as [parent|];
        [destruct (String.eqb parent "")|]; cbn [fst snd].
      * rewrite lookup_insert_eq. auto.
      * destruct (updateParentProgress_cases
                    (<[taskId := fold_left assign updates old]> db) parentClock parent)
          as [Hframe [Hret|Hthrow]].
        -- specialize (Hframe taskId ltac:(congruence)).
           destruct (updateParentProgress toISOString _ parentClock parent)
             as [db2 [[]|e]]; cbn [fst snd] in *; [|discriminate].
           rewrite Hframe, lookup_insert_eq. auto.
        -- rewrite Hthrow. cbn [fst snd]. rewrite lookup_insert_eq. auto.
      * rewrite lookup_insert_eq. auto.
Qed.

(** X27: Progress rolls up. When a sub-task of the table gets a progress between
    [lo] and [hi], and the other sub-tasks of its parent are between these
    bounds already, [updateTaskProgress] returns the updated row and leaves
    the parent with a progress between [lo] and [hi]; with every sub-task at
    100 the parent is completed. No third row changes. *)
Theorem updateTaskProgress_rolls_up
    (db : gmap string TaskRow) (clock parentClock : Clock) (taskId parent : string)
    (p lo hi : Z) (old oldParent : TaskRow) :
  0 <= lo -> hi <= 100 -> lo <= p <= hi ->
  db !! taskId = Some old ->
  parent_task_id old = Some parent ->
  parent <> ""%string -> parent <> taskId ->
  deleted old = false ->
  db !! parent = Some oldParent ->
  (forall id row,
     id <> taskId -> db !! id = Some row ->
     parent_task_id row = Some parent -> deleted row = false ->
     lo <= progress (columns row) <= hi) ->
  exists db' row parentRow,
    updateTaskProgress toISOString db clock parentClock taskId p = (db', Returned row)
    /\ db' !! taskId = Some row
    /\ progress (columns row) = p
    /\ db' !! parent = Some parentRow
    /\ lo <= progress (columns parentRow) <= hi
    /\ (lo = 100 ->
        status (columns parentRow) = "COMPLETED"%string
        /\ completed_at parentRow = Some (Instant (completedNow parentClock)))
    /\ (forall other, other <> taskId -> other <> parent -> db' !! other = db !! other).
Proof.
  intros Hlo Hhi Hp Hold Hparent Hnonempty Hself Hlive HoldParent Hsiblings.
  unfold updateTaskProgress. rewrite updateTask_ofProgress by lia.
  set (updates := SetProgress p :: _).
  pose proof (progress_update_row clock p old)
    as (Hprog & _ & _ & _ & Hparent' & Hdeleted & _).
  fold updates in Hprog, Hparent', Hdeleted.
  set (row := fold_left assign updates old) in *.
  assert (sqlUpdate db updates taskId !! taskId = Some row) as Hrow.
  { unfold sqlUpdate. rewrite lookup_alter_eq, Hold. reflexivity. }
  assert (forall other, other <> taskId ->
            sqlUpdate db updates taskId !! other = db !! other) as Hothers.
  { intros other Hother. unfold sqlUpdate. apply lookup_alter_ne. congruence. }
  rewrite Hrow, Hparent', Hparent.
  destruct (String.eqb_spec parent "") as [Hempty|_]; [contradiction|].
  destruct (updateParentProgress_written (sqlUpdate db updates taskId) parentClock
              parent lo hi Hlo Hhi) as (average & Havg & ->).
  { intros Hnone.
    assert (In row (subTasksOf (sqlUpdate db updates taskId) parent)) as Hin.
    { apply subTasksOf_spec. exists taskId. rewrite Hparent', Hdeleted. auto. }
    rewrite Hnone in Hin. exact Hin. }
  { intros sub Hsub. apply subTasksOf_spec in Hsub as (id & Hid & Hp' & Hd').
    destruct (decide (id = taskId)) as [->|Hne].
    - rewrite Hrow in Hid. injection Hid as <-. rewrite Hprog. exact Hp.
    - rewrite Hothers in Hid by exact Hne. exact (Hsiblings id sub Hne Hid Hp' Hd'). }
  set (parentUpdates := SetProgress average :: _).
  pose proof (progress_update_row parentClock average oldParent)
    as (Hprog2 & _ & Hdone & _).
  fold parentUpdates in Hprog2, Hdone.
  exists (sqlUpdate (sqlUpdate db updates taskId) parentUpdates parent), row,
    (fold_left assign parentUpdates oldParent).
  split; [reflexivity|]. split.
  { unfold sqlUpdate at 1. rewrite lookup_alter_ne by exact Hself. exact Hrow. }
  split; [exact Hprog|]. split.
  { unfold sqlUpdate at 1. rewrite lookup_alter_eq, Hothers, HoldParent by exact Hself.
    reflexivity. }
  rewrite Hprog2. split; [exact Havg|]. split.
  { intros ->. apply Hdone. lia. }
  intros other Hother1 Hother2. unfold sqlUpdate at 1.
  rewrite lookup_alter_ne by congruence. apply Hothers. exact Hother1.
Qed.

End ProgressRollUpFacts.


Lemma updateTaskProgress_outcomes_witness :
  Store.updateTaskProgress StoreSamples.isoOf StoreSamples.family StoreSamples.clock
    StoreSamples.clock "child" 150
  = (StoreSamples.family, Store.Thrown (Store.Error "Progress must be between 0 and 100")).
Proof.
  destruct (updateTaskProgress_outcomes StoreSamples.isoOf StoreSamples.family
              StoreSamples.clock StoreSamples.clock "child"%string 150)
    as (Hrejected & _).
  apply Hrejected. right. lia.
Defined.

Lemma updateTaskProgress_rolls_up_witness :
  exists db' row parentRow,
    Store.updateTaskProgress StoreSamples.isoOf StoreSamples.family StoreSamples.clock
      StoreSamples.clock "child" 100
    = (db', Store.Returned row)
    /\ db' !! "parent"%string = Some parentRow
    /\ status (Store.columns parentRow) = "COMPLETED"%string.
Proof.
  destruct (updateTaskProgress_rolls_up StoreSamples.isoOf StoreSamples.family
              StoreSamples.clock StoreSamples.clock "child"%string "parent"%string
              100 100 100 StoreSamples.child StoreSamples.parent)
    as (db' & row & parentRow & Hreturned & _ & _ & Hparent & _ & Hdone & _);
    [lia|lia|lia|vm_compute; reflexivity|reflexivity|discriminate|discriminate
    |reflexivity|vm_compute; reflexivity| |].
  - intros id row Hid Hrow Hparent _. unfold StoreSamples.family in Hrow.
    rewrite lookup_insert_ne in Hrow by congruence.
    destruct (decide (id = "sibling"%string)) as [->|Hsibling].
    + rewrite lookup_insert_eq in Hrow. injection Hrow as <-. vm_compute.
      split; discriminate.
    + rewrite lookup_insert_ne in Hrow by congruence.
      destruct (decide (id = "parent"%string)) as [->|Hp].
      * rewrite lookup_insert_eq in Hrow. injection Hrow as <-. discriminate.
      * rewrite lookup_insert_ne, lookup_empty in Hrow by congruence. discriminate.
  - exists db', row, parentRow. split; [exact Hreturned|]. split; [exact Hparent|].
    apply Hdone. reflexivity.
Defined.

(** ** The task lists *)

Section TaskListFacts.

Import Store.

Lemma insertBy_Permutation {A : Type} (before : A -> A -> bool) (x : A) (l : list A) :
  insertBy before x l ≡ₚ x :: l.
Proof.
  induction l as [|y rest IH]; cbn [insertBy]; [reflexivity|].
  destruct (before x y); [reflexivity|].
  rewrite IH. apply Permutation_swap.
Qed.

(** [ORDER BY] rearranges the rows and does no more. *)
Lemma orderBy_Permutation {A : Type} (before : A -> A -> bool) (l : list A) :
  orderBy before l ≡ₚ l.
Proof.
  unfold orderBy. induction l as [|x rest IH]; cbn [fold_right]; [reflexivity|].
  rewrite insertBy_Permutation, IH. reflexivity.
Qed.

Lemma insertBy_Sorted {A : Type} (before : A -> A -> bool) (x : A) (l : list A) :
  (forall a b, before a b = true \/ before b a = true) ->
  Sorted (fun a b => before a b = true) l ->
  Sorted (fun a b => before a b = true) (insertBy before x l).
Proof.
  intros Htotal. induction l as [|y rest IH]; intros Hsorted; cbn [insertBy].
  - repeat constructor.
  - destruct (before x y) eqn:Hxy.
    + constructor; [exact Hsorted|]. constructor. exact Hxy.
    + apply Sorted_inv in Hsorted as [Hrest Hhead].
      constructor; [exact (IH Hrest)|].
      destruct rest as [|z rest']; cbn [insertBy].
      * constructor. destruct (Htotal x y); congruence.
      * destruct (before x z).
        -- constructor. destruct (Htotal x y); congruence.
        -- constructor. apply HdRel_inv in Hhead. exact Hhead.
Qed.

(** [ORDER BY] with a total comparison gives an ordered list. *)
Lemma orderBy_Sorted {A : Type} (before : A -> A -> bool) (l : list A) :
  (forall a b, before a b = true \/ before b a = true) ->
  Sorted (fun a b => before a b = true) (orderBy before l).
Proof.
  intros Htotal. unfold orderBy.
  induction l as [|x rest IH]; cbn [fold_right]; [constructor|].
  apply insertBy_Sorted; assumption.
Qed.

Lemma Sorted_weaken {A : Type} (R R' : A -> A -> Prop) (l : list A) :
  (forall a b, R a b -> R' a b) -> Sorted R l -> Sorted R' l.
Proof.
  intros Himpl Hsorted. induction Hsorted as [|x l _ IH Hhead]; constructor.
  - exact IH.
  - destruct Hhead; constructor. apply Himpl. assumption.
Qed.

(** What a [SELECT ... WHERE ... ORDER BY] over the table lists: the rows of
    the table that satisfy the [WHERE] clause, under their ids. *)
Lemma selected_rows
    (before : string * TaskRow -> string * TaskRow -> bool) (selects : TaskRow -> bool)
    (db : gmap string TaskRow) (id : string) (row : TaskRow) :
  In (id, row)
     (orderBy before (List.filter (fun entry => selects (snd entry)) (map_to_list db)))
  <-> db !! id = Some row /\ selects row = true.
Proof.
  rewrite <- list_elem_of_In, orderBy_Permutation, list_elem_of_In, filter_In,
    <- list_elem_of_In, elem_of_map_to_list.
  reflexivity.
Qed.

(** No id is listed twice. *)
Lemma selected_ids_NoDup
    (before : string * TaskRow -> string * TaskRow -> bool) (selects : TaskRow -> bool)
    (db : gmap string TaskRow) :
  NoDup (map fst
           (orderBy before
              (List.filter (fun entry => selects (snd entry)) (map_to_list db)))).
Proof.
  rewrite orderBy_Permutation.
  pose proof (NoDup_fst_map_to_list db) as Hnodup.
  change (NoDup (map fst (map_to_list db))) in Hnodup.
  induction (map_to_list db) as [|entry rest IH]; cbn [List.filter map] in *;
    [constructor|].
  apply NoDup_cons in Hnodup as [Hfresh Hrest].
  destruct (selects (snd entry)); cbn [map]; [|exact (IH Hrest)].
  apply NoDup_cons. split; [|exact (IH Hrest)].
  intros Hin. apply Hfresh.
  apply list_elem_of_In in Hin. apply list_elem_of_In.
  apply in_map_iff in Hin as (e & He & Hin). apply in_map_iff. exists e.
  split; [exact He|]. apply filter_In in Hin as [Hin _]. exact Hin.
Qed.

(** X28: Each list is in the order of its [ORDER BY] and names no task twice:
    the tasks of a day from the oldest to the newest, the backlog from the
    newest to the oldest, the lapsed tasks from the latest planned day to
    the earliest. *)
Theorem task_lists_ordered (db : gmap string TaskRow) (userId date today : string) :
  (Sorted (fun a b => created_at (snd a) <= created_at (snd b))
     (getTasksForDay db userId date)
   /\ NoDup (map fst (getTasksForDay db userId date)))
  /\ (Sorted (fun a b => created_at (snd b) <= created_at (snd a))
        (getBacklogTasks db userId)
      /\ NoDup (map fst (getBacklogTasks db userId)))
  /\ (Sorted (fun a b => plannedLater a b = true) (getOngoingTasks db userId today)
      /\ NoDup (map fst (getOngoingTasks db userId today))).
Proof.
  repeat split.
  - eapply Sorted_weaken; [|apply orderBy_Sorted].
    + intros a b Hab. apply Z.leb_le. exact Hab.
    + intros a b. rewrite !Z.leb_le. lia.
  - apply (selected_ids_NoDup _ (plannedOn userId date)).
  - eapply Sorted_weaken; [|apply orderBy_Sorted].
    + intros a b Hab. apply Z.leb_le. exact Hab.
    + intros a b. rewrite !Z.leb_le. lia.
  - apply (selected_ids_NoDup _ (inBacklog userId)).
  - apply orderBy_Sorted. intros a b. unfold plannedLater.
    destruct (planned_for_date (columns (snd a))) as [x|],
             (planned_for_date (columns (snd b))) as [y|]; auto.
    destruct (String.leb_total x y); auto.
  - apply (selected_ids_NoDup _ (lapsed userId today)).
Qed.

Lemma plannedOn_true (userId date : string) (row : TaskRow) :
  plannedOn userId date row = true <->
  user_id row = userId
  /\ planned_for_date (columns row) = Some date
  /\ deleted row = false.
Proof.
  unfold plannedOn. rewrite !andb_true_iff, negb_true_iff, String.eqb_eq.
  destruct (planned_for_date (columns row)) as [planned|].
  - rewrite String.eqb_eq. intuition congruence.
  - intuition congruence.
Qed.

Lemma inBacklog_true (userId : string) (row : TaskRow) :
  inBacklog userId row = true <->
  user_id row = userId
  /\ planned_for_date (columns row) = None
  /\ status (columns row) = "BACKLOG"%string
  /\ deleted row = false.
Proof.
  unfold inBacklog. rewrite !andb_true_iff, negb_true_iff, !String.eqb_eq.
  destruct (planned_for_date (columns row)) as [planned|]; intuition congruence.
Qed.

Lemma lapsed_true (userId today : string) (row : TaskRow) :
  lapsed userId today row = true <->
  user_id row = userId
  /\ (exists planned,
        planned_for_date (columns row) = Some planned
        /\ String.ltb planned today = true)
  /\ status (columns row) <> "COMPLETED"%string
  /\ status (columns row) <> "ARCHIVED"%string
  /\ deleted row = false.
Proof.
  unfold lapsed. rewrite !andb_true_iff, !negb_true_iff, String.eqb_eq, !String.eqb_neq.
  destruct (planned_for_date (columns row)) as [planned|].
  - split.
    + intros ((((Hu & Hl) & Hc) & Ha) & Hd). eauto 10.
    + intros (Hu & (pl & [= <-] & Hl) & Hc & Ha & Hd). auto.
  - split.
    + intros ((((_ & Hl) & _) & _) & _). discriminate.
    + intros (_ & (pl & Hpl & _) & _). discriminate.
Qed.

(** Which tasks each list holds: a row of the table, under its id, when it
    belongs to the user, is not deleted, and is planned on the day (day
    list); or is planned on a day before today and neither completed nor
    archived (lapsed list); or has no planned day and the status "BACKLOG"
    (backlog). *)
Theorem task_lists_membership
    (db : gmap string TaskRow) (userId date today id : string) (row : TaskRow) :
  (In (id, row) (getTasksForDay db userId date) <->
   db !! id = Some row
   /\ user_id row = userId
   /\ planned_for_date (columns row) = Some date
   /\ deleted row = false)
  /\ (In (id, row) (getOngoingTasks db userId today) <->
      db !! id = Some row
      /\ user_id row = userId
      /\ (exists planned,
            planned_for_date (columns row) = Some planned
            /\ String.ltb planned today = true)
      /\ status (columns row) <> "COMPLETED"%string
      /\ status (columns row) <> "ARCHIVED"%string
      /\ deleted row = false)
  /\ (In (id, row) (getBacklogTasks db userId) <->
      db !! id = Some row
      /\ user_id row = userId
      /\ planned_for_date (columns row) = None
      /\ status (columns row) = "BACKLOG"%string
      /\ deleted row = false).
Proof.
  unfold getTasksForDay, getOngoingTasks, getBacklogTasks.
  rewrite (selected_rows _ (plannedOn userId date)),
    (selected_rows _ (lapsed userId today)), (selected_rows _ (inBacklog userId)),
    plannedOn_true, lapsed_true, inBacklog_true.
  repeat split; tauto.
Qed.

(** X29: The lists do not overlap, and a day list lapses as a whole: a task of
    the backlog is in no day list and not lapsed; a task is in the list of
    one day at most; and the tasks of a day before today are today's lapsed
    tasks, but for the completed and the archived ones. *)
Theorem task_lists_disjoint
    (db : gmap string TaskRow) (userId date today id : string) (row : TaskRow) :
  (In (id, row) (getBacklogTasks db userId) ->
   forall row',
     ~ In (id, row') (getTasksForDay db userId date)
     /\ ~ In (id, row') (getOngoingTasks db userId today))
  /\ (In (id, row) (getTasksForDay db userId date) ->
      forall date' row',
        In (id, row') (getTasksForDay db userId date') -> date' = date /\ row' = row)
  /\ (In (id, row) (getTasksForDay db userId date) ->
      String.ltb date today = true ->
      (In (id, row) (getOngoingTasks db userId today) <->
       status (columns row) <> "COMPLETED"%string
       /\ status (columns row) <> "ARCHIVED"%string)).
Proof.
  unfold getTasksForDay, getOngoingTasks, getBacklogTasks.
  split; [|split].
  - rewrite (selected_rows _ (inBacklog userId)), inBacklog_true.
    intros (Hrow & _ & Hnone & _) row'.
    rewrite (selected_rows _ (plannedOn userId date)),
      (selected_rows _ (lapsed userId today)), plannedOn_true, lapsed_true.
    split.
    + intros (Hrow' & _ & Hsome & _). congruence.
    + intros (Hrow' & _ & (planned & Hsome & _) & _). congruence.
  - rewrite (selected_rows _ (plannedOn userId date)), plannedOn_true.
    intros (Hrow & _ & Hdate & _) date' row'.
    rewrite (selected_rows _ (plannedOn userId date')), plannedOn_true.
    intros (Hrow' & _ & Hdate' & _). split; congruence.
  - rewrite (selected_rows _ (plannedOn userId date)), plannedOn_true,
      (selected_rows _ (lapsed userId today)), lapsed_true.
    intros (Hrow & Huser & Hdate & Hlive) Hpast. split.
    + tauto.
    + intros [Hc Ha]. repeat split; try assumption. exists date. auto.
Qed.

(** X30: Assignment moves a task between the lists. After [assignToDay] a live
    task of the user is in the list of that day, with the row that the call
    returns, and not in the backlog; after [unassignTask] it is in no day
    list and not lapsed, and it is in the backlog exactly when its status
    was "PLANNED" or "BACKLOG". The other tasks stay where they were. *)
Theorem assignment_moves_task_between_lists
    (db : gmap string TaskRow) (now : Z) (userId taskId date : string) (old : TaskRow) :
  db !! taskId = Some old ->
  user_id old = userId ->
  deleted old = false ->
  (exists row,
     snd (assignToDay db now taskId date) = Some row
     /\ In (taskId, row) (getTasksForDay (fst (assignToDay db now taskId date)) userId date)
     /\ (forall row',
           ~ In (taskId, row')
               (getBacklogTasks (fst (assignToDay db now taskId date)) userId))
     /\ (forall other row', other <> taskId ->
           (In (other, row')
               (getBacklogTasks (fst (assignToDay db now taskId date)) userId)
            <-> In (other, row') (getBacklogTasks db userId))))
  /\ (exists row,
        snd (unassignTask db now taskId) = Some row
        /\ (forall day today row',
              ~ In (taskId, row')
                  (getTasksForDay (fst (unassignTask db now taskId)) userId day)
              /\ ~ In (taskId, row')
                     (getOngoingTasks (fst (unassignTask db now taskId)) userId today))
        /\ (In (taskId, row) (getBacklogTasks (fst (unassignTask db now taskId)) userId)
            <-> status (columns old) = "PLANNED"%string
                \/ status (columns old) = "BACKLOG"%string)
        /\ (forall other day row', other <> taskId ->
              (In (other, row')
                  (getTasksForDay (fst (unassignTask db now taskId)) userId day)
               <-> In (other, row') (getTasksForDay db userId day)))).
Proof.
  intros Hold Huser Hlive. unfold assignToDay, unassignTask. cbn [fst snd].
  unfold getTasksForDay, getOngoingTasks, getBacklogTasks.
  split.
  - exists (onColumns (Planning.assignRow date now) old).
    rewrite lookup_alter_eq, Hold. split; [reflexivity|]. split; [|split].
    + rewrite (selected_rows _ (plannedOn userId date)), plannedOn_true,
        lookup_alter_eq, Hold.
      cbn. auto.
    + intros row'.
      rewrite (selected_rows _ (inBacklog userId)), inBacklog_true, lookup_alter_eq, Hold.
      intros ([= <-] & _ & Hnone & _). discriminate.
    + intros other row' Hother.
      rewrite !(selected_rows _ (inBacklog userId)), lookup_alter_ne by congruence.
      reflexivity.
  - exists (onColumns (Planning.unassignRow now) old).
    rewrite lookup_alter_eq, Hold. split; [reflexivity|]. split; [|split].
    + intros day today row'.
      rewrite (selected_rows _ (plannedOn userId day)),
        (selected_rows _ (lapsed userId today)), plannedOn_true, lapsed_true,
        lookup_alter_eq, Hold.
      split.
      * intros ([= <-] & _ & Hsome & _). discriminate.
      * intros ([= <-] & _ & (planned & Hsome & _) & _). discriminate.
    + rewrite (selected_rows _ (inBacklog userId)), inBacklog_true, lookup_alter_eq, Hold.
      cbn. split.
      * intros (_ & _ & _ & Hstatus & _).
        destruct (String.eqb_spec (status (columns old)) "PLANNED"); auto.
      * intros [Hstatus|Hstatus]; rewrite Hstatus; cbn; auto.
    + intros other day row' Hother.
      rewrite !(selected_rows _ (plannedOn userId day)), lookup_alter_ne by congruence.
      reflexivity.
Qed.

End TaskListFacts.

Lemma task_lists_disjoint_witness :
  ~ In ("parent"%string, StoreSamples.parent)
      (Store.getTasksForDay
         (fst (Store.unassignTask StoreSamples.family 7 "parent")) "u1" "2024-01-14").
Proof.
  destruct (task_lists_disjoint
              (fst (Store.unassignTask StoreSamples.family 7 "parent")) "u1"%string
              "2024-01-14"%string "2024-01-15"%string "parent"%string
              (Store.onColumns (Planning.unassignRow 7) StoreSamples.parent))
    as (Hbacklog & _).
  apply Hbacklog.
  apply (task_lists_membership
           (fst (Store.unassignTask StoreSamples.family 7 "parent")) "u1"%string
           "2024-01-14"%string "2024-01-15"%string).
  vm_compute. repeat split; reflexivity.
Defined.

Lemma assignment_moves_task_between_lists_witness :
  exists row,
    snd (Store.assignToDay StoreSamples.family 7 "child" "2024-01-16") = Some row
    /\ In ("child"%string, row)
         (Store.getTasksForDay
            (fst (Store.assignToDay StoreSamples.family 7 "child" "2024-01-16"))
            "u1" "2024-01-16").
Proof.
  destruct (assignment_moves_task_between_lists StoreSamples.family 7 "u1"%string
              "child"%string "2024-01-16"%string StoreSamples.child)
    as [(row & Hreturned & Hlisted & _) _];
    [vm_compute; reflexivity|reflexivity|reflexivity|].
  exists row. split; assumption.
Defined.

Section NewTaskFacts.

Import Store.

Variable toISOString : Z -> string.

(** X21: Where a new task shows up. The task that [createTask] stores under a
    fresh id is in the backlog of its user exactly when no planned day was
    given; given one, it is in the list of that day (the date part of the
    ISO text) while its status is "BACKLOG" all the same. The lists of the
    other tasks do not change. *)
Theorem createTask_lists_new_task
    (db db' : gmap string TaskRow) (taskId : string) (createdAt : Z)
    (updatedAt : option JSDate) (now : Z) (userId : string)
    (params : CreateTaskParams.t) (row : TaskRow) :
  db !! taskId = None ->
  createTask toISOString db taskId createdAt updatedAt now userId params
  = (db', Returned row) ->
  (In (taskId, row) (getBacklogTasks db' userId)
   <-> CreateTaskParams.plannedForDate params = None)
  /\ (forall ms,
        CreateTaskParams.plannedForDate params = Some (Instant ms) ->
        In (taskId, row) (getTasksForDay db' userId (beforeT (toISOString ms)))
        /\ status (columns row) = "BACKLOG"%string)
  /\ (forall other row' day,
        In (other, row') (getTasksForDay db userId day) ->
        In (other, row') (getTasksForDay db' userId day))
  /\ (forall other row',
        In (other, row') (getBacklogTasks db userId) ->
        In (other, row') (getBacklogTasks db' userId)).
Proof.
  intros Hfresh Hcreate.
  destruct (createTask_returned toISOString _ _ _ _ _ _ _ _ _ Hcreate)
    as (_ & -> & _ & _ & Huser & _ & Hlive & _ & Hstatus & _ & _ & _ & _ & _
        & Hvalid & Hplanned).
  unfold getTasksForDay, getBacklogTasks.
  split; [|split; [|split]].
  - rewrite (selected_rows _ (inBacklog userId)), inBacklog_true, lookup_insert_eq,
      Hplanned.
    destruct (CreateTaskParams.plannedForDate params) as [[ms|]|];
      [| contradiction |]; intuition congruence.
  - intros ms Hms.
    rewrite (selected_rows _ (plannedOn userId _)), plannedOn_true, lookup_insert_eq,
      Hplanned, Hms.
    auto.
  - intros other row' day.
    rewrite !(selected_rows _ (plannedOn userId day)).
    intros [Hother Hsel]. split; [|exact Hsel].
    rewrite lookup_insert_ne by congruence. exact Hother.
  - intros other row'.
    rewrite !(selected_rows _ (inBacklog userId)).
    intros [Hother Hsel]. split; [|exact Hsel].
    rewrite lookup_insert_ne by congruence. exact Hother.
Qed.

End NewTaskFacts.

Lemma createTask_lists_new_task_witness :
  In ("t1"%string, StoreSamples.createdRow)
     (Store.getTasksForDay (<["t1"%string := StoreSamples.createdRow]> ∅) "u1"
        "2024-01-15")
  /\ ~ In ("t1"%string, StoreSamples.createdRow)
        (Store.getBacklogTasks (<["t1"%string := StoreSamples.createdRow]> ∅) "u1").
Proof.
  destruct (createTask_lists_new_task StoreSamples.isoOf ∅
              (<["t1"%string := StoreSamples.createdRow]> ∅) "t1"%string 10 None 100
              "u1"%string StoreSamples.newTask StoreSamples.createdRow)
    as (Hbacklog & Hday & _); [apply lookup_empty|vm_compute; reflexivity|].
  split.
  - apply (Hday 4000). reflexivity.
  - intros Hin. apply Hbacklog in Hin. discriminate.
Defined.
